(** * A shallow embedding of [cashier_system.py]

    The cart model ([CartItem], [CashierCart]) and the session controller
    ([print_cart], [save_receipt], the body of the loop of [run_cashier]) are
    translated function by function.

    - A Python [float] is an IEEE 754 binary64 number: Rocq's primitive
      [float], whose operations round to nearest, ties to even.
    - A Python [int] is unbounded: [Z].  Where an [int] meets a [float] in an
      arithmetic operation Python converts the [int] first, and raises
      [OverflowError] when it is too large for a [float].
    - A Python [str] is a [string].  The methods [str.strip] and [str.lower]
      and the constructors [float(s)] and [int(s)] belong to the interpreter;
      the development is parametric in them ([StrMethods], [Parsers]) and
      gives an instance for ASCII text to evaluate examples.
    - A [dict] keeps its keys in insertion order, which the receipt shows:
      an association list whose keys are pairwise distinct ([PyDict.wf]).
    - Methods that mutate [self] return the new state next to their result.
    - Exceptions are the values [Raise e] of [result]; console and file
      effects are threaded through a [world].
    - Two builtins changed between the versions of CPython that run the
      program: how [sum] adds floats, and whether [str] of an [int] has a
      limit of digits.  The development is parametric in both
      ([Interpreter]). *)

From Stdlib Require Import ZArith List String Ascii Bool Lia Floats.
From Stdlib Require Import DecimalString.
From Stdlib Require DecimalFacts DecimalPos.
Import ListNotations.

Local Open Scope string_scope.
Local Open Scope Z_scope.

(** ** Exceptions *)

Inductive exn : Type :=
| OverflowError   (* int too large to convert to float *)
| ValueError      (* int with too many digits to convert to str *)
| EOFError.       (* input() at the end of the input *)

Inductive result (A : Type) : Type :=
| Ok (a : A)
| Raise (e : exn).

Arguments Ok {A} a.
Arguments Raise {A} e.

Definition bind {A B : Type} (r : result A) (k : A -> result B) : result B :=
  match r with
  | Ok a => k a
  | Raise e => Raise e
  end.

Notation "'let*' x ':=' r 'in' k" := (bind r (fun x => k))
  (at level 10, x name, r at level 100, k at level 200).

Fixpoint mapM {A B : Type} (f : A -> result B) (l : list A) : result (list B) :=
  match l with
  | [] => Ok []
  | a :: l' =>
      let* b := f a in
      let* bs := mapM f l' in
      Ok (b :: bs)
  end.

(** ** The interpreter's string methods *)

Class StrMethods : Type := {
  str_strip : string -> string;   (* s.strip() *)
  str_lower : string -> string    (* s.lower() *)
}.

(** ** What depends on the version of the interpreter

    [sum] adds floats one by one up to CPython 3.11; from 3.12 on it also
    collects the rounding error of each addition and adds the errors at the
    end (Neumaier's compensated sum).

    [str] of an [int], which [format] and [csv.writer] use as well, raises
    [ValueError] when the [int] has more digits than
    [sys.get_int_max_str_digits()]: 4300 from CPython 3.11 on unless set
    otherwise, and 0 where there is no limit.  The interpreter refuses a
    limit between 1 and 639. *)

Class Interpreter : Type := {
  sum_compensated : bool;
  int_max_str_digits : Z;
  int_max_str_digits_range : int_max_str_digits = 0 \/ 640 <= int_max_str_digits
}.

(** ** Numbers *)

(** [int] or [float]: [sum] of no item is the [int] 0. *)
Inductive number : Type :=
| Int (z : Z)
| Float (f : float).

(** The conversion of an [int] operand: the nearest [float], ties to even,
    and [OverflowError] beyond the range of the finite floats. *)
Definition float_of_int (z : Z) : result float :=
  match binary_normalize prec emax z 0 false with
  | S754_infinity _ => Raise OverflowError
  | sf => Ok (SF2Prim sf)
  end.

Definition to_float (n : number) : result float :=
  match n with
  | Int z => float_of_int z
  | Float f => Ok f
  end.

(** One step of the float loop of [sum] from CPython 3.12 on: [f_result]
    and the compensation [c] after the item [x].

    [double t = f_result + x;
     if (fabs(f_result) >= fabs(x)) c += (f_result - t) + x;
     else c += (x - t) + f_result;
     f_result = t;] *)
Definition compensated_add (state : float * float) (x : float) : float * float :=
  let '(f_result, c) := state in
  let t := (f_result + x)%float in
  (t, if (abs x <=? abs f_result)%float then (c + ((f_result - t) + x))%float
      else (c + ((x - t) + f_result))%float).

Section Sum.
Context {PY : Interpreter}.

(** [sum(xs)] with the default start, the [int] 0, over floats.  The first
    item is added to the [int]: [0 + x], a float.  The others are added in
    the float loop, from left to right; with the compensation, [c] is added
    at the end when it is neither zero nor infinite nor NaN. *)
Definition py_sum (xs : list float) : number :=
  match xs with
  | [] => Int 0
  | x :: rest =>
      let start := (0 + x)%float in
      if sum_compensated then
        let '(f_result, c) := fold_left compensated_add rest (start, 0%float) in
        Float (if negb (c =? 0)%float && is_finite c then (f_result + c)%float
               else f_result)
      else Float (fold_left PrimFloat.add rest start)
  end.
End Sum.

(** ** dict, with string keys, in insertion order *)

Module PyDict.
Section Dict.
Context {V : Type}.

Definition t : Type := list (string * V).

Definition keys (d : t) : list string := map fst d.
Definition values (d : t) : list V := map snd d.

(** The keys of a dict are pairwise distinct. *)
Definition wf (d : t) : Prop := NoDup (keys d).

(** [d.get(k)] *)
Fixpoint get (k : string) (d : t) : option V :=
  match d with
  | [] => None
  | (k', v) :: d' => if String.eqb k k' then Some v else get k d'
  end.

(** [d[k] = v]: a present key keeps its place, a new one goes last. *)
Fixpoint set (k : string) (v : V) (d : t) : t :=
  match d with
  | [] => [(k, v)]
  | (k', v') :: d' =>
      if String.eqb k k' then (k', v) :: d' else (k', v') :: set k v d'
  end.

(** The dict left by [d.pop(k, None)]. *)
Fixpoint remove (k : string) (d : t) : t :=
  match d with
  | [] => []
  | (k', v') :: d' =>
      if String.eqb k k' then d' else (k', v') :: remove k d'
  end.

(** [d.pop(k, None)]: the value removed, if any, and the dict left. *)
Definition pop (k : string) (d : t) : option V * t := (get k d, remove k d).
End Dict.
Arguments t : clear implicits.
End PyDict.

(** ** CartItem *)

Module CartItem.
Record t : Type := mk {
  name : string;
  price : float;
  quantity : Z
}.

(** [self.price * self.quantity] *)
Definition total (self : t) : result float :=
  let* q := float_of_int (quantity self) in
  Ok (price self * q)%float.

Definition with_quantity (self : t) (q : Z) : t :=
  mk (name self) (price self) q.
Definition with_price (self : t) (p : float) : t :=
  mk (name self) p (quantity self).
End CartItem.

(** ** CashierCart *)

Module CashierCart.
Record t : Type := mk {
  items : PyDict.t CartItem.t;
  discount_percent : float;
  tax_percent : float
}.

(** [CashierCart()] *)
Definition new : t := mk [] 0%float 0%float.

Definition with_items (self : t) (d : PyDict.t CartItem.t) : t :=
  mk d (discount_percent self) (tax_percent self).
Definition with_discount_percent (self : t) (p : float) : t :=
  mk (items self) p (tax_percent self).
Definition with_tax_percent (self : t) (p : float) : t :=
  mk (items self) (discount_percent self) p.

Section Methods.
Context {SM : StrMethods}.

Definition normalized_key (name : string) : string :=
  str_lower (str_strip name).

Definition add_item (self : t) (name : string) (price : float) (quantity : Z) : t :=
  let key := str_lower (str_strip name) in
  match PyDict.get key (items self) with
  | Some it =>
      let it1 := CartItem.with_quantity it (CartItem.quantity it + quantity) in
      let it2 := CartItem.with_price it1 price in
      with_items self (PyDict.set key it2 (items self))
  | None =>
      with_items self
        (PyDict.set key (CartItem.mk (str_strip name) price quantity) (items self))
  end.

Definition remove_item (self : t) (name : string) : bool * t :=
  let key := str_lower (str_strip name) in
  let '(popped, d) := PyDict.pop key (items self) in
  (match popped with Some _ => true | None => false end, with_items self d).

Definition update_quantity (self : t) (name : string) (quantity : Z) : bool * t :=
  let key := str_lower (str_strip name) in
  match PyDict.get key (items self) with
  | None => (false, self)
  | Some it =>
      if quantity <=? 0
      then (true, with_items self (snd (PyDict.pop key (items self))))
      else (true, with_items self
                    (PyDict.set key (CartItem.with_quantity it quantity) (items self)))
  end.
End Methods.

Definition clear (self : t) : t := mk [] 0%float 0%float.

Section Amounts.
Context {PY : Interpreter}.

Definition subtotal (self : t) : result number :=
  let* totals := mapM CartItem.total (PyDict.values (items self)) in
  Ok (py_sum totals).

Definition discount_amount (self : t) : result float :=
  let* s := subtotal self in
  let* s := to_float s in
  Ok (s * (discount_percent self / 100))%float.

Definition tax_amount (self : t) : result float :=
  let* s := subtotal self in
  let* d := discount_amount self in
  let* s := to_float s in
  Ok ((s - d) * (tax_percent self / 100))%float.

Definition total_due (self : t) : result float :=
  let* s := subtotal self in
  let* d := discount_amount self in
  let* s := to_float s in
  let* x := tax_amount self in
  Ok (s - d + x)%float.
End Amounts.
End CashierCart.

(** ** Text *)

Definition nl : string := String (ascii_of_nat 10) EmptyString.

(** The decimal notation of an integer. *)
Definition str_of_int (z : Z) : string := NilZero.string_of_int (Z.to_int z).

(** [str(z)] for an [int], also as [format(z, "")] in an f-string and as
    [csv.writer] writes an [int]: the decimal notation, unless it has more
    digits, the sign apart, than the limit allows. *)
Definition py_str_int {PY : Interpreter} (z : Z) : result string :=
  let digits := Z.of_nat (String.length (str_of_int (Z.abs z))) in
  if (0 <? int_max_str_digits) && (int_max_str_digits <? digits)
  then Raise ValueError
  else Ok (str_of_int z).

Fixpoint repeat_string (n : nat) (s : string) : string :=
  match n with
  | O => EmptyString
  | S n' => s ++ repeat_string n' s
  end.

(** *** The format specifications [.1f], [.2f] and [,.2f] *)

(** The integer nearest to [n / d] for [0 <= n] and [0 < d], ties to even. *)
Definition round_half_even (n d : Z) : Z :=
  let q := n / d in
  match 2 * (n mod d) ?= d with
  | Lt => q
  | Gt => q + 1
  | Eq => if Z.even q then q else q + 1
  end.

(** [m * 2^e * 10^decimals], rounded once, from the exact value. *)
Definition scaled (decimals : nat) (m : positive) (e : Z) : Z :=
  let p := 10 ^ Z.of_nat decimals in
  if 0 <=? e then Z.pos m * 2 ^ e * p
  else round_half_even (Z.pos m * p) (2 ^ (- e)).

(** A comma before every group of three digits, counted from the right;
    the digits come in reverse. *)
Fixpoint group3_rev (l : list ascii) : list ascii :=
  match l with
  | a :: b :: c :: ((_ :: _) as rest) => a :: b :: c :: ","%char :: group3_rev rest
  | _ => l
  end.

Definition group3 (s : string) : string :=
  string_of_list_ascii (rev (group3_rev (rev (list_ascii_of_string s)))).

(** The digits of [n / 10^decimals] with [decimals] places after the point. *)
Definition fixed_digits (grouping : bool) (decimals : nat) (n : Z) : string :=
  let p := 10 ^ Z.of_nat decimals in
  let whole := str_of_int (n / p) in
  let whole := if grouping then group3 whole else whole in
  match decimals with
  | O => whole
  | _ =>
      let frac := str_of_int (n mod p) in
      whole ++ "." ++ repeat_string (decimals - String.length frac) "0" ++ frac
  end.

Definition sign_prefix (s : bool) : string := if s then "-" else "".

(** [f"{x:.<decimals>f}"], and with [grouping] [f"{x:,.<decimals>f}"]. *)
Definition format_f (grouping : bool) (decimals : nat) (x : float) : string :=
  match Prim2SF x with
  | S754_nan => "nan"
  | S754_infinity s => sign_prefix s ++ "inf"
  | S754_zero s => sign_prefix s ++ fixed_digits grouping decimals 0
  | S754_finite s m e =>
      sign_prefix s ++ fixed_digits grouping decimals (scaled decimals m e)
  end.

(** The same for an [int] or a [float]: an [int] is converted first. *)
Definition format_number (grouping : bool) (decimals : nat) (n : number) : result string :=
  let* x := to_float n in
  Ok (format_f grouping decimals x).

Definition format_currency (value : number) : result string :=
  format_number true 2 value.

(** ** The interpreter's parsers: [float(s)] and [int(s)]

    [None] stands for [ValueError], which the prompts catch. *)

Class Parsers : Type := {
  py_float : string -> option float;
  py_int : string -> option Z
}.

(** ** The console, the file system and the clock *)

Record datetime : Type := mkDatetime {
  year : Z; month : Z; day : Z; hour : Z; minute : Z; second : Z
}.

(** A row handed to [csv.writer.writerow], field by field. *)
Definition row : Type := list string.

Record world : Type := mkWorld {
  stdin : list string;            (* the lines still to be read *)
  stdout : list string;           (* what was written, oldest first *)
  dirs : list string;             (* the directories made *)
  files : PyDict.t (list row);    (* the rows of each file written *)
  clock : datetime                (* datetime.now() *)
}.

Definition with_stdout (w : world) (out : list string) : world :=
  mkWorld (stdin w) out (dirs w) (files w) (clock w).
Definition with_console (w : world) (lines out : list string) : world :=
  mkWorld lines out (dirs w) (files w) (clock w).
Definition with_dirs (w : world) (ds : list string) : world :=
  mkWorld (stdin w) (stdout w) ds (files w) (clock w).
Definition with_files (w : world) (fs : PyDict.t (list row)) : world :=
  mkWorld (stdin w) (stdout w) (dirs w) fs (clock w).

(** A computation on the world that returns or raises. *)
Definition IO (A : Type) : Type := world -> result A * world.

Definition ret {A : Type} (a : A) : IO A := fun w => (Ok a, w).

Definition lift {A : Type} (r : result A) : IO A := fun w => (r, w).

Definition io_bind {A B : Type} (m : IO A) (k : A -> IO B) : IO B :=
  fun w =>
    match m w with
    | (Ok a, w') => k a w'
    | (Raise e, w') => (Raise e, w')
    end.

Notation "x <- m ;; k" := (io_bind m (fun x => k))
  (at level 61, m at next level, right associativity).
Notation "m ;; k" := (io_bind m (fun _ => k))
  (at level 61, right associativity).

Fixpoint for_each {A : Type} (l : list A) (body : A -> IO unit) : IO unit :=
  match l with
  | [] => ret tt
  | a :: l' => body a ;; for_each l' body
  end.

(** [print(s)] *)
Definition print (s : string) : IO unit :=
  fun w => (Ok tt, with_stdout w (stdout w ++ [s ++ nl])).

(** [input(prompt)] *)
Definition input (prompt : string) : IO string :=
  fun w =>
    match stdin w with
    | [] => (Raise EOFError, with_stdout w (stdout w ++ [prompt]))
    | line :: rest => (Ok line, with_console w rest (stdout w ++ [prompt]))
    end.

(** [path.mkdir(parents=True, exist_ok=True)] *)
Definition mkdir (path : string) : IO unit :=
  fun w =>
    (Ok tt, if existsb (String.eqb path) (dirs w) then w
            else with_dirs w (dirs w ++ [path])).

(** [path.open("w")]: the file is created, or emptied. *)
Definition open_w (path : string) : IO unit :=
  fun w => (Ok tt, with_files w (PyDict.set path [] (files w))).

(** [writer.writerow(r)] on the file at [path]. *)
Definition writerow (path : string) (r : row) : IO unit :=
  fun w =>
    let rows := match PyDict.get path (files w) with
                | Some rows => rows
                | None => []
                end in
    (Ok tt, with_files w (PyDict.set path (rows ++ [r])%list (files w))).

Definition zero_pad (width : nat) (z : Z) : string :=
  let s := str_of_int z in
  repeat_string (width - String.length s) "0" ++ s.

(** [datetime.now().strftime("%Y%m%d_%H%M%S")] *)
Definition timestamp_now : IO string :=
  fun w =>
    let t := clock w in
    (Ok (zero_pad 4 (year t) ++ zero_pad 2 (month t) ++ zero_pad 2 (day t) ++ "_"
         ++ zero_pad 2 (hour t) ++ zero_pad 2 (minute t) ++ zero_pad 2 (second t)),
     w).

(** ** The session controller *)

Definition print_header : IO unit :=
  print (repeat_string 50 "=") ;;
  print "نظام كاشير بسيط - تشغيل محلي" ;;
  print "Simple Cashier System - Local Run" ;;
  print (repeat_string 50 "=").

Definition print_menu : IO unit :=
  print (nl ++ "اختر عملية / Choose action:") ;;
  print "1) عرض السلة / View cart" ;;
  print "2) إضافة صنف / Add item" ;;
  print "3) تعديل الكمية / Update quantity" ;;
  print "4) حذف صنف / Remove item" ;;
  print "5) إضافة خصم % / Set discount %" ;;
  print "6) إضافة ضريبة % / Set tax %" ;;
  print "7) إنهاء وحفظ الفاتورة / Checkout & save" ;;
  print "8) تفريغ السلة / Clear cart" ;;
  print "0) خروج / Exit".

(** [if x:] on a float. *)
Definition truthy (x : float) : bool := negb (x =? 0)%float.

Section Printing.
Context {PY : Interpreter}.

(** The line of one item: the fields of the f-string are evaluated and
    formatted from left to right. *)
Definition cart_line (item : CartItem.t) : result string :=
  let* quantity := py_str_int (CartItem.quantity item) in
  let* price := format_currency (Float (CartItem.price item)) in
  let* total := CartItem.total item in
  let* total := format_currency (Float total) in
  Ok (CartItem.name item ++ " | Qty: " ++ quantity
      ++ " | Price: " ++ price ++ " | Total: " ++ total).

Definition subtotal_line (cart : CashierCart.t) : result string :=
  let* s := CashierCart.subtotal cart in
  let* s := format_currency s in
  Ok ("Subtotal: " ++ s).

Definition discount_line (cart : CashierCart.t) : result string :=
  let* d := CashierCart.discount_amount cart in
  let* d := format_currency (Float d) in
  Ok ("Discount (" ++ format_f false 1 (CashierCart.discount_percent cart)
      ++ "%): -" ++ d).

Definition tax_line (cart : CashierCart.t) : result string :=
  let* x := CashierCart.tax_amount cart in
  let* x := format_currency (Float x) in
  Ok ("Tax (" ++ format_f false 1 (CashierCart.tax_percent cart) ++ "%): +" ++ x).

Definition total_due_line (cart : CashierCart.t) : result string :=
  let* t := CashierCart.total_due cart in
  let* t := format_currency (Float t) in
  Ok ("Total Due: " ++ t).

Definition print_cart (cart : CashierCart.t) : IO unit :=
  match CashierCart.items cart with
  | [] => print (nl ++ "السلة فارغة / Cart is empty.")
  | _ =>
      print (nl ++ "السلة الحالية / Current cart:") ;;
      print (repeat_string 50 "-") ;;
      for_each (PyDict.values (CashierCart.items cart))
        (fun item => line <- lift (cart_line item) ;; print line) ;;
      print (repeat_string 50 "-") ;;
      line <- lift (subtotal_line cart) ;;
      print line ;;
      (if truthy (CashierCart.discount_percent cart) then
         line <- lift (discount_line cart) ;; print line
       else ret tt) ;;
      (if truthy (CashierCart.tax_percent cart) then
         line <- lift (tax_line cart) ;; print line
       else ret tt) ;;
      line <- lift (total_due_line cart) ;;
      print line
  end.

(** The row of one item in the receipt: the list is built, with the
    quantity as an [int], and [writerow] then converts the quantity. *)
Definition item_row (item : CartItem.t) : result row :=
  let* total := CartItem.total item in
  let* quantity := py_str_int (CartItem.quantity item) in
  Ok [CartItem.name item; quantity;
      format_f false 2 (CartItem.price item); format_f false 2 total].

Definition save_receipt (cart : CashierCart.t) (output_dir : string) : IO string :=
  mkdir output_dir ;;
  timestamp <- timestamp_now ;;
  let receipt_path := output_dir ++ "/" ++ "receipt_" ++ timestamp ++ ".csv" in
  open_w receipt_path ;;
  writerow receipt_path ["Item"; "Qty"; "Price"; "Total"] ;;
  for_each (PyDict.values (CashierCart.items cart))
    (fun item => r <- lift (item_row item) ;; writerow receipt_path r) ;;
  writerow receipt_path [] ;;
  s <- lift (let* s := CashierCart.subtotal cart in format_number false 2 s) ;;
  writerow receipt_path ["Subtotal"; s] ;;
  writerow receipt_path
    ["Discount %"; format_f false 1 (CashierCart.discount_percent cart)] ;;
  d <- lift (CashierCart.discount_amount cart) ;;
  writerow receipt_path ["Discount Amount"; format_f false 2 d] ;;
  writerow receipt_path ["Tax %"; format_f false 1 (CashierCart.tax_percent cart)] ;;
  x <- lift (CashierCart.tax_amount cart) ;;
  writerow receipt_path ["Tax Amount"; format_f false 2 x] ;;
  t <- lift (CashierCart.total_due cart) ;;
  writerow receipt_path ["Total Due"; format_f false 2 t] ;;
  ret receipt_path.
End Printing.

Section Controller.
Context {SM : StrMethods} {PA : Parsers} {PY : Interpreter}.

(** The loop of [prompt_float], over the lines still to be read: the value
    returned or the exception, the lines left, and what was written. *)
Fixpoint prompt_float_on (message : string) (lines : list string)
  : result float * list string * list string :=
  match lines with
  | [] => (Raise EOFError, [], [message])
  | line :: rest =>
      let raw := str_strip line in
      match py_float raw with
      | None =>
          let '(r, rest', out) := prompt_float_on message rest in
          (r, rest', message :: ("⚠️  أدخل رقم صالح / Enter a valid number." ++ nl) :: out)
      | Some value =>
          if (value <? 0)%float then
            let '(r, rest', out) := prompt_float_on message rest in
            (r, rest',
             message :: ("⚠️  الرقم يجب أن يكون موجب / Must be non-negative." ++ nl) :: out)
          else (Ok value, rest, [message])
      end
  end.

Definition prompt_float (message : string) : IO float :=
  fun w =>
    let '(r, rest, out) := prompt_float_on message (stdin w) in
    (r, with_console w rest (stdout w ++ out)).

Fixpoint prompt_int_on (message : string) (lines : list string)
  : result Z * list string * list string :=
  match lines with
  | [] => (Raise EOFError, [], [message])
  | line :: rest =>
      let raw := str_strip line in
      match py_int raw with
      | None =>
          let '(r, rest', out) := prompt_int_on message rest in
          (r, rest', message :: ("⚠️  أدخل رقم صحيح / Enter an integer." ++ nl) :: out)
      | Some value => (Ok value, rest, [message])
      end
  end.

Definition prompt_int (message : string) : IO Z :=
  fun w =>
    let '(r, rest, out) := prompt_int_on message (stdin w) in
    (r, with_console w rest (stdout w ++ out)).

(** One turn of the loop of [run_cashier]: the cart to go on with, or
    [None] after [break]. *)
Definition menu_step (cart : CashierCart.t) : IO (option CashierCart.t) :=
  print_menu ;;
  line <- input (nl ++ "اختيارك / Your choice: ") ;;
  let choice := str_strip line in
  if (choice =? "1")%string then
    print_cart cart ;;
    ret (Some cart)
  else if (choice =? "2")%string then
    line <- input "اسم الصنف / Item name: " ;;
    let name := str_strip line in
    if (name =? "")%string then
      print "⚠️  اسم الصنف مطلوب / Item name is required." ;;
      ret (Some cart)
    else
      price <- prompt_float "سعر الصنف / Item price: " ;;
      quantity <- prompt_int "الكمية / Quantity: " ;;
      if (quantity <=? 0)%Z then
        print "⚠️  الكمية يجب أن تكون أكبر من صفر / Quantity must be > 0." ;;
        ret (Some cart)
      else
        let cart := CashierCart.add_item cart name price quantity in
        print "✅ تمت الإضافة / Item added." ;;
        ret (Some cart)
  else if (choice =? "3")%string then
    line <- input "اسم الصنف / Item name: " ;;
    let name := str_strip line in
    quantity <- prompt_int "الكمية الجديدة / New quantity: " ;;
    let '(found, cart) := CashierCart.update_quantity cart name quantity in
    (if negb found then print "⚠️  الصنف غير موجود / Item not found."
     else print "✅ تم التحديث / Quantity updated.") ;;
    ret (Some cart)
  else if (choice =? "4")%string then
    line <- input "اسم الصنف / Item name: " ;;
    let name := str_strip line in
    let '(removed, cart) := CashierCart.remove_item cart name in
    (if removed then print "✅ تم الحذف / Item removed."
     else print "⚠️  الصنف غير موجود / Item not found.") ;;
    ret (Some cart)
  else if (choice =? "5")%string then
    p <- prompt_float "نسبة الخصم % / Discount %: " ;;
    let cart := CashierCart.with_discount_percent cart p in
    print "✅ تم تحديث الخصم / Discount updated." ;;
    ret (Some cart)
  else if (choice =? "6")%string then
    p <- prompt_float "نسبة الضريبة % / Tax %: " ;;
    let cart := CashierCart.with_tax_percent cart p in
    print "✅ تم تحديث الضريبة / Tax updated." ;;
    ret (Some cart)
  else if (choice =? "7")%string then
    match CashierCart.items cart with
    | [] =>
        print "⚠️  السلة فارغة / Cart is empty." ;;
        ret (Some cart)
    | _ =>
        print_cart cart ;;
        let output_dir := "receipts" in
        receipt_path <- save_receipt cart output_dir ;;
        print ("✅ تم حفظ الفاتورة / Receipt saved: " ++ receipt_path) ;;
        ret (Some (CashierCart.clear cart))
    end
  else if (choice =? "8")%string then
    let cart := CashierCart.clear cart in
    print "✅ تم تفريغ السلة / Cart cleared." ;;
    ret (Some cart)
  else if (choice =? "0")%string then
    print "مع السلامة / Goodbye!" ;;
    ret None
  else
    print "⚠️  اختيار غير صالح / Invalid choice." ;;
    ret (Some cart).

(** The loop, for at most [fuel] turns; [None] when they do not suffice. *)
Fixpoint run_loop (fuel : nat) (cart : CashierCart.t) (w : world)
  : option (result unit * world) :=
  match fuel with
  | O => None
  | S fuel' =>
      match menu_step cart w with
      | (Raise e, w') => Some (Raise e, w')
      | (Ok None, w') => Some (Ok tt, w')
      | (Ok (Some cart'), w') => run_loop fuel' cart' w'
      end
  end.

(** Every turn reads a line, so one turn more than there are lines is
    enough ([run_loop_enough]). *)
Definition run_cashier (w : world) : option (result unit * world) :=
  let cart := CashierCart.new in
  match print_header w with
  | (Raise e, w') => Some (Raise e, w')
  | (Ok _, w') => run_loop (S (List.length (stdin w'))) cart w'
  end.
End Controller.

(** ** An instance for ASCII text

    [str.strip] and [str.lower] as they act on ASCII characters, and the
    plain decimal notation of [int] and [float]; bytes above 127 are kept as
    they are.  The theorems below hold for every instance; this one serves
    to run the code on examples. *)

Definition ascii_is_space (c : ascii) : bool :=
  let n := N_of_ascii c in
  (((9 <=? n) && (n <=? 13)) || ((28 <=? n) && (n <=? 32)))%N.

Fixpoint lstrip_chars (l : list ascii) : list ascii :=
  match l with
  | [] => []
  | c :: l' => if ascii_is_space c then lstrip_chars l' else l
  end.

Definition ascii_strip (s : string) : string :=
  string_of_list_ascii
    (rev (lstrip_chars (rev (lstrip_chars (list_ascii_of_string s))))).

Definition ascii_lower_char (c : ascii) : ascii :=
  let n := N_of_ascii c in
  if ((65 <=? n) && (n <=? 90))%N then ascii_of_N (n + 32) else c.

Definition ascii_lower (s : string) : string :=
  string_of_list_ascii (map ascii_lower_char (list_ascii_of_string s)).

#[export] Instance ascii_str : StrMethods := {|
  str_strip := ascii_strip;
  str_lower := ascii_lower
|}.

Definition digit_of (c : ascii) : option Z :=
  let n := N_of_ascii c in
  if ((48 <=? n) && (n <=? 57))%N then Some (Z.of_N n - 48) else None.

Fixpoint digits_value (acc : Z) (l : list ascii) : option Z :=
  match l with
  | [] => Some acc
  | c :: l' =>
      match digit_of c with
      | Some d => digits_value (10 * acc + d) l'
      | None => None
      end
  end.

Definition split_sign (l : list ascii) : bool * list ascii :=
  match l with
  | "-"%char :: l' => (true, l')
  | "+"%char :: l' => (false, l')
  | _ => (false, l)
  end.

(** [int(s)] for an optional sign and decimal digits. *)
Definition decimal_int (s : string) : option Z :=
  let '(neg, l) := split_sign (list_ascii_of_string (ascii_strip s)) in
  match l with
  | [] => None
  | _ => option_map (fun z => if neg then - z else z) (digits_value 0 l)
  end.

(** The digits before and after the first point. *)
Fixpoint split_point (l : list ascii) : list ascii * list ascii :=
  match l with
  | [] => ([], [])
  | c :: l' =>
      if Ascii.eqb c "."%char then ([], l')
      else let '(a, b) := split_point l' in (c :: a, b)
  end.

(** [float(s)] for [inf], [nan] and an optional sign, digits and at most one
    point: the float nearest to the decimal number. *)
Definition decimal_float (s : string) : option float :=
  let '(neg, l) := split_sign (list_ascii_of_string (ascii_lower (ascii_strip s))) in
  let body := string_of_list_ascii l in
  if (body =? "inf")%string then Some (if neg then neg_infinity else infinity)
  else if (body =? "nan")%string then Some nan
  else
    let '(whole, frac) := split_point l in
    match (whole ++ frac)%list with
    | [] => None
    | ds =>
        match digits_value 0 ds with
        | None => None
        | Some 0 => Some (if neg then neg_zero else zero)
        | Some m =>
            let '(q, e, loc) :=
              SFdiv_core_binary prec emax m 0 (10 ^ Z.of_nat (List.length frac)) 0 in
            Some (SF2Prim (binary_round_aux prec emax neg q e loc))
        end
    end.

#[export] Instance decimal_parsers : Parsers := {|
  py_float := decimal_float;
  py_int := decimal_int
|}.

(** ** Two interpreters

    CPython 3.11 and CPython 3.12 as they are installed: both with the limit
    of 4300 digits, the second with the compensated sum. *)

Definition cpython_3_11 : Interpreter := {|
  sum_compensated := false;
  int_max_str_digits := 4300;
  int_max_str_digits_range := or_intror (Zle_bool_imp_le 640 4300 eq_refl)
|}.

Definition cpython_3_12 : Interpreter := {|
  sum_compensated := true;
  int_max_str_digits := 4300;
  int_max_str_digits_range := or_intror (Zle_bool_imp_le 640 4300 eq_refl)
|}.

(** ** Vocabulary of the specification *)

(** One call [add_item(name, price, quantity)]. *)
Record call : Type := mkCall {
  call_name : string;
  call_price : float;
  call_quantity : Z
}.

Section Calls.
Context {SM : StrMethods}.

(** The calls of a sequence, made in order. *)
Definition add_items (cart : CashierCart.t) (calls : list call) : CashierCart.t :=
  fold_left
    (fun c k => CashierCart.add_item c (call_name k) (call_price k) (call_quantity k))
    calls cart.

(** What the caller checks before [add_item]: the name is not empty once
    trimmed, the price is not negative, the quantity is positive. *)
Definition add_precondition (name : string) (price : float) (quantity : Z) : Prop :=
  str_strip name <> "" /\ (0 <=? price)%float = true /\ 0 < quantity.

(** The states a session goes through. *)
Inductive reachable : CashierCart.t -> Prop :=
| reach_new : reachable CashierCart.new
| reach_add_item cart name price quantity :
    reachable cart -> add_precondition name price quantity ->
    reachable (CashierCart.add_item cart name price quantity)
| reach_remove_item cart name :
    reachable cart -> reachable (snd (CashierCart.remove_item cart name))
| reach_update_quantity cart name quantity :
    reachable cart -> reachable (snd (CashierCart.update_quantity cart name quantity))
| reach_clear cart :
    reachable cart -> reachable (CashierCart.clear cart)
| reach_discount cart p :
    reachable cart -> reachable (CashierCart.with_discount_percent cart p)
| reach_tax cart p :
    reachable cart -> reachable (CashierCart.with_tax_percent cart p).
End Calls.

Definition sum_quantities (calls : list call) : Z :=
  fold_right (fun k acc => call_quantity k + acc) 0 calls.

(** The quantity stored under a key, 0 when there is none. *)
Definition stored_quantity (cart : CashierCart.t) (key : string) : Z :=
  match PyDict.get key (CashierCart.items cart) with
  | Some it => CartItem.quantity it
  | None => 0
  end.

(** Every stored item has a positive quantity and a price that is not
    negative. *)
Definition item_ok (it : CartItem.t) : Prop :=
  0 < CartItem.quantity it /\ (0 <=? CartItem.price it)%float = true.

Definition cart_invariant (cart : CashierCart.t) : Prop :=
  Forall item_ok (PyDict.values (CashierCart.items cart)).

(** The float nearest to an [int], infinite beyond the range. *)
Definition nearest_float (z : Z) : float :=
  SF2Prim (binary_normalize prec emax z 0 false).

(** The quantity converts to a float: it is within the range. *)
Definition fits_float (z : Z) : Prop := float_of_int z = Ok (nearest_float z).

Definition quantities_fit (cart : CashierCart.t) : Prop :=
  Forall (fun it => fits_float (CartItem.quantity it))
         (PyDict.values (CashierCart.items cart)).

(** [lineTotal = unitPrice * quantity], in floats. *)
Definition line_total (it : CartItem.t) : float :=
  (CartItem.price it * nearest_float (CartItem.quantity it))%float.

(** An [int] or a [float] as a float operand. *)
Definition as_float (n : number) : float :=
  match n with
  | Int z => nearest_float z
  | Float f => f
  end.

(** Σ over floats, term by term from left to right, each addition
    rounded. *)
Fixpoint sum_from (acc : float) (xs : list float) : float :=
  match xs with
  | [] => acc
  | x :: xs' => sum_from (acc + x)%float xs'
  end.

(** The rounding error of [a + b], as far as a float holds it: what the
    smaller of the two lost in the sum. *)
Definition lost_in_add (a b : float) : float :=
  if (abs b <=? abs a)%float then ((a - (a + b)) + b)%float
  else ((b - (a + b)) + a)%float.

(** Σ with the errors of the additions collected in [err] and added at the
    end, unless they come to zero or are not finite. *)
Fixpoint compensated_sum_from (acc err : float) (xs : list float) : float :=
  match xs with
  | [] => if is_finite err && negb (err =? 0)%float then (acc + err)%float else acc
  | x :: xs' => compensated_sum_from (acc + x)%float (err + lost_in_add acc x)%float xs'
  end.

Section SpecAmounts.
Context {PY : Interpreter}.

(** Σ as the interpreter's [sum] computes it: the [int] 0 for no term,
    else the terms added to 0. *)
Definition float_sum (xs : list float) : number :=
  match xs with
  | [] => Int 0
  | x :: xs' =>
      Float (if sum_compensated then compensated_sum_from (0 + x) 0 xs'
             else sum_from (0 + x) xs')
  end.

(** The four amounts of the data model, written as its invariant states
    them, with the operations of floats. *)
Definition spec_subtotal (cart : CashierCart.t) : number :=
  float_sum (map line_total (PyDict.values (CashierCart.items cart))).

Definition spec_discount_amount (cart : CashierCart.t) : float :=
  (as_float (spec_subtotal cart) * (CashierCart.discount_percent cart / 100))%float.

Definition spec_tax_amount (cart : CashierCart.t) : float :=
  ((as_float (spec_subtotal cart) - spec_discount_amount cart)
   * (CashierCart.tax_percent cart / 100))%float.

Definition spec_total_due (cart : CashierCart.t) : float :=
  (as_float (spec_subtotal cart) - spec_discount_amount cart
   + spec_tax_amount cart)%float.

(** Neither infinite nor NaN, on the specification of floats. *)
Definition sf_finite (x : spec_float) : bool :=
  match x with
  | S754_zero _ | S754_finite _ _ _ => true
  | _ => false
  end.

(** The rows of the receipt as the export interface lists them. *)
Definition receipt_item_row (it : CartItem.t) : row :=
  [CartItem.name it; str_of_int (CartItem.quantity it);
   format_f false 2 (CartItem.price it); format_f false 2 (line_total it)].

Definition receipt_summary (cart : CashierCart.t) : list row :=
  [ ["Subtotal"; format_f false 2 (as_float (spec_subtotal cart))];
    ["Discount %"; format_f false 1 (CashierCart.discount_percent cart)];
    ["Discount Amount"; format_f false 2 (spec_discount_amount cart)];
    ["Tax %"; format_f false 1 (CashierCart.tax_percent cart)];
    ["Tax Amount"; format_f false 2 (spec_tax_amount cart)];
    ["Total Due"; format_f false 2 (spec_total_due cart)] ].

Definition receipt_rows (cart : CashierCart.t) : list row :=
  (["Item"; "Qty"; "Price"; "Total"]
   :: map receipt_item_row (PyDict.values (CashierCart.items cart)))
  ++ [[]] ++ receipt_summary cart.
End SpecAmounts.

(** What a turn of the menu writes before it reads the choice. *)
Definition menu_text : list string :=
  [ nl ++ "اختر عملية / Choose action:" ++ nl;
    "1) عرض السلة / View cart" ++ nl;
    "2) إضافة صنف / Add item" ++ nl;
    "3) تعديل الكمية / Update quantity" ++ nl;
    "4) حذف صنف / Remove item" ++ nl;
    "5) إضافة خصم % / Set discount %" ++ nl;
    "6) إضافة ضريبة % / Set tax %" ++ nl;
    "7) إنهاء وحفظ الفاتورة / Checkout & save" ++ nl;
    "8) تفريغ السلة / Clear cart" ++ nl;
    "0) خروج / Exit" ++ nl;
    nl ++ "اختيارك / Your choice: " ].

Definition empty_cart_warning : string :=
  "⚠️  السلة فارغة / Cart is empty." ++ nl.

(** The file a checkout writes at the time of the clock. *)
Definition receipt_path_at (w : world) : string :=
  match timestamp_now w with
  | (Ok timestamp, _) => "receipts" ++ "/" ++ "receipt_" ++ timestamp ++ ".csv"
  | (Raise _, _) => ""
  end.

(** [m] returns [a] and writes [out] to the console, and does nothing
    else. *)
Definition writes {A : Type} (m : IO A) (a : A) (out : list string) : Prop :=
  forall w, m w = (Ok a, with_stdout w (stdout w ++ out)).

(** [m] appends [rows] to the file at [path], once it is open, and does
    nothing else. *)
Definition appends {A : Type} (path : string) (m : IO A) (a : A) (rows : list row)
  : Prop :=
  forall w rows0,
    PyDict.get path (files w) = Some rows0 ->
    m w = (Ok a, with_files w (PyDict.set path (rows0 ++ rows)%list (files w))).

(** [m] reads lines, if any, and puts none back. *)
Definition reads {A : Type} (m : IO A) : Prop :=
  forall w, (List.length (stdin (snd (m w))) <= List.length (stdin w))%nat.

(** ** Example states, run with the ASCII instance *)

(** Scenario A: [add("Coffee", 3.50, 2)]. *)
Definition cart_coffee : CashierCart.t :=
  CashierCart.add_item CashierCart.new "Coffee" 3.5%float 2.

(** A quantity that was set, not added. *)
Definition cart_coffee_5 : CashierCart.t :=
  snd (CashierCart.update_quantity cart_coffee " coffee" 5).

(** A quantity beyond the range of the floats. *)
Definition cart_huge : CashierCart.t :=
  CashierCart.add_item CashierCart.new "Gold" 1%float (10 ^ 400).

(** No item, and an infinite discount. *)
Definition cart_inf : CashierCart.t := CashierCart.mk [] infinity 0%float.

(** Scenario B: a subtotal of 100.00, 10 % off, 5 % tax. *)
Definition cart_b : CashierCart.t :=
  CashierCart.with_tax_percent
    (CashierCart.with_discount_percent
       (CashierCart.add_item CashierCart.new "Tea" 25%float 4) 10%float)
    5%float.

(** A console where the checkout command was typed. *)
Definition world_checkout : world :=
  mkWorld [" 7 "] [] [] [] (mkDatetime 2024 3 5 9 7 1).

(** ** Further vocabulary *)

Section Keys.
Context {SM : StrMethods}.

(** Every key is its item's display name in lower case. *)
Definition keys_normalized (cart : CashierCart.t) : Prop :=
  Forall (fun entry => fst entry = str_lower (CartItem.name (snd entry)))
         (CashierCart.items cart).
End Keys.

(** What the session keeps of every stored item: a positive quantity and a
    price that is not below zero (which a NaN is not either). *)
Definition item_stored_ok (it : CartItem.t) : Prop :=
  0 < CartItem.quantity it /\ (CartItem.price it <? 0)%float = false.

Definition stored_ok (cart : CashierCart.t) : Prop :=
  Forall item_stored_ok (PyDict.values (CashierCart.items cart)).

(** [m], when it returns, returns a value that satisfies [Q]. *)
Definition returns_only {A : Type} (m : IO A) (Q : A -> Prop) : Prop :=
  forall w a w', m w = (Ok a, w') -> Q a.

(** [m] leaves the files and the directories as they are, also when it
    raises. *)
Definition keeps_files {A : Type} (m : IO A) : Prop :=
  forall w, files (snd (m w)) = files w /\ dirs (snd (m w)) = dirs w.

(** [m] only writes to the console, also when it raises. *)
Definition console_only {A : Type} (m : IO A) : Prop :=
  forall w, exists out, snd (m w) = with_stdout w (stdout w ++ out).

Section Accepted.
Context {SM : StrMethods} {PA : Parsers}.

(** The number that [prompt_float] takes from a line, if it takes one: the
    line is a number, and the number is not below zero. *)
Definition accepted_float (line : string) : option float :=
  match py_float (str_strip line) with
  | Some value => if (value <? 0)%float then None else Some value
  | None => None
  end.

(** The warning that answers a line [prompt_float] does not take: the line
    is not a number, or the number is below zero. *)
Definition float_warning (line : string) : string :=
  match py_float (str_strip line) with
  | None => "⚠️  أدخل رقم صالح / Enter a valid number." ++ nl
  | Some _ => "⚠️  الرقم يجب أن يكون موجب / Must be non-negative." ++ nl
  end.
End Accepted.

(** The warning that answers a line [prompt_int] does not take. *)
Definition int_warning : string := "⚠️  أدخل رقم صحيح / Enter an integer." ++ nl.

(** What a prompt writes while it reads the lines [skipped] and one more:
    the message before every line, and the warning after each line it does
    not take. *)
Definition prompt_output (message : string) (warning : string -> string)
           (skipped : list string) : list string :=
  (flat_map (fun line => [message; warning line]) skipped ++ [message])%list.

(** What [print_header] writes. *)
Definition header_text : list string :=
  [ repeat_string 50 "=" ++ nl;
    "نظام كاشير بسيط - تشغيل محلي" ++ nl;
    "Simple Cashier System - Local Run" ++ nl;
    repeat_string 50 "=" ++ nl ].

(** [m] appends [rows] to the file at [path], once it is open, and then
    raises [e]. *)
Definition appends_then_raises {A : Type} (path : string) (m : IO A) (e : exn)
           (rows : list row) : Prop :=
  forall w rows0,
    PyDict.get path (files w) = Some rows0 ->
    m w = (Raise e, with_files w (PyDict.set path (rows0 ++ rows)%list (files w))).

(** A text without its commas. *)
Fixpoint remove_commas (s : string) : string :=
  match s with
  | EmptyString => EmptyString
  | String c s' =>
      if Ascii.eqb c ","%char then remove_commas s' else String c (remove_commas s')
  end.

Definition is_digit (c : ascii) : bool :=
  ((48 <=? N_of_ascii c) && (N_of_ascii c <=? 57))%N.

(** The digits after the point in [fixed_digits] with two decimals. *)
Definition two_decimals (k : Z) : string :=
  repeat_string (2 - String.length (str_of_int k)) "0" ++ str_of_int k.

Definition is_two_digits (s : string) : bool :=
  match s with
  | String a (String b EmptyString) => is_digit a && is_digit b
  | _ => false
  end.

(** The digit after the point in [fixed_digits] with one decimal. *)
Definition one_decimal (k : Z) : string :=
  repeat_string (1 - String.length (str_of_int k)) "0" ++ str_of_int k.

Definition is_one_digit (s : string) : bool :=
  match s with
  | String a EmptyString => is_digit a
  | _ => false
  end.

(** A text with [n] decimals: a whole part, a point and [n] digits. *)
Definition has_decimals (n : nat) (s : string) : Prop :=
  exists whole frac,
    s = whole ++ "." ++ frac
    /\ String.length frac = n
    /\ forallb is_digit (list_ascii_of_string frac) = true.

(** A time of the clock as [datetime] has them and [strftime] writes them
    with four digits for the year and two for each other field. *)
Definition valid_datetime (t : datetime) : Prop :=
  1000 <= year t <= 9999 /\ 1 <= month t <= 12 /\ 1 <= day t <= 31
  /\ 0 <= hour t <= 23 /\ 0 <= minute t <= 59 /\ 0 <= second t <= 59.

(** [zero_pad width k] has [width] characters and reads back as [k]. *)
Definition pads_back (width : nat) (k : Z) : bool :=
  (String.length (zero_pad width k) =? width)%nat
  && match digits_value 0 (list_ascii_of_string (zero_pad width k)) with
     | Some v => v =? k
     | None => false
     end.

(** An item whose quantity fits, then one whose quantity does not. *)
Definition cart_tea_gold : CashierCart.t :=
  CashierCart.add_item
    (CashierCart.add_item CashierCart.new "Tea" 2%float 1) "Gold" 1%float (10 ^ 400).

(** A console on which something was typed. *)
Definition world_typing (lines : list string) : world :=
  mkWorld lines [] [] [] (mkDatetime 2024 3 5 9 7 1).

(** Three items whose line totals the two sums add differently, and a
    discount of 25 %. *)
Definition cart_three : CashierCart.t :=
  CashierCart.with_discount_percent
    (CashierCart.add_item
       (CashierCart.add_item
          (CashierCart.add_item CashierCart.new "Milk" 0x1.7b5c28f5c28f6p+5%float 4)
          "Bread" 0x1.a947ae147ae14p+4%float 1)
       "Rice" 0x1.80ccccccccccdp+5%float 2)
    25%float.

(** A subtotal of 7.0 and a discount of 10 %. *)
Definition cart_coffee_10 : CashierCart.t :=
  CashierCart.with_discount_percent cart_coffee 10%float.

(** An infinite price, which the add command accepts. *)
Definition cart_inf_price : CashierCart.t :=
  CashierCart.add_item CashierCart.new "Gold" infinity 1.

(** A quantity of 4300 digits, and 1 more of the same item. *)
Definition cart_digits : CashierCart.t :=
  CashierCart.add_item
    (CashierCart.add_item CashierCart.new "Gold" 1%float (10 ^ 4300 - 1))
    " gold" 1%float 1.

(** * Proofs *)

(** ** Facts on dicts *)

Section DictFacts.
Context {V : Type}.
Implicit Types (d : PyDict.t V) (k : string) (v : V).

Lemma get_set_same k v d : PyDict.get k (PyDict.set k v d) = Some v.
Proof.
  induction d as [|[k' v'] d IH]; simpl.
  - now rewrite String.eqb_refl.
  - destruct (String.eqb k k') eqn:E; simpl; rewrite E; auto.
Qed.

Lemma get_set_other k k' v d :
  k' <> k -> PyDict.get k' (PyDict.set k v d) = PyDict.get k' d.
Proof.
  intros Hne. induction d as [|[k0 v0] d IH]; simpl.
  - apply String.eqb_neq in Hne. now rewrite Hne.
  - destruct (String.eqb k k0) eqn:E; simpl.
    + apply String.eqb_eq in E. subst k0.
      apply String.eqb_neq in Hne. now rewrite Hne.
    + now rewrite IH.
Qed.

Lemma keys_set_present k v v0 d :
  PyDict.get k d = Some v0 -> PyDict.keys (PyDict.set k v d) = PyDict.keys d.
Proof.
  induction d as [|[k' v'] d IH]; simpl; [discriminate|].
  destruct (String.eqb k k') eqn:E; simpl; intros H; [reflexivity|].
  f_equal. auto.
Qed.

Lemma set_absent k v d :
  PyDict.get k d = None -> PyDict.set k v d = (d ++ [(k, v)])%list.
Proof.
  induction d as [|[k' v'] d IH]; simpl; [reflexivity|].
  destruct (String.eqb k k') eqn:E; [discriminate|].
  intros H. now rewrite IH.
Qed.

Lemma get_none_not_in k d :
  PyDict.get k d = None <-> ~ In k (PyDict.keys d).
Proof.
  induction d as [|[k' v'] d IH]; simpl.
  - tauto.
  - destruct (String.eqb k k') eqn:E.
    + apply String.eqb_eq in E. subst. split; [discriminate | tauto].
    + apply String.eqb_neq in E. rewrite IH. split.
      * intros H [H1 | H1]; [congruence | tauto].
      * tauto.
Qed.

Lemma remove_absent k d : PyDict.get k d = None -> PyDict.remove k d = d.
Proof.
  induction d as [|[k' v'] d IH]; simpl; [reflexivity|].
  destruct (String.eqb k k') eqn:E; [discriminate|].
  intros H. now rewrite IH.
Qed.

Lemma get_remove_other k k' d :
  k' <> k -> PyDict.get k' (PyDict.remove k d) = PyDict.get k' d.
Proof.
  intros Hne. induction d as [|[k0 v0] d IH]; simpl; [reflexivity|].
  destruct (String.eqb k k0) eqn:E; simpl.
  - apply String.eqb_eq in E. subst k0.
    apply String.eqb_neq in Hne. now rewrite Hne.
  - now rewrite IH.
Qed.

Lemma get_remove_same k d :
  PyDict.wf d -> PyDict.get k (PyDict.remove k d) = None.
Proof.
  unfold PyDict.wf.
  induction d as [|[k' v'] d IH]; simpl; [reflexivity|].
  intros Hnd. inversion Hnd as [|? ? Hnotin Hnd']; subst.
  destruct (String.eqb k k') eqn:E; simpl.
  - apply String.eqb_eq in E. subst k'. now apply get_none_not_in.
  - rewrite E. auto.
Qed.

Lemma in_keys_remove k k' d :
  In k' (PyDict.keys (PyDict.remove k d)) -> In k' (PyDict.keys d).
Proof.
  induction d as [|[k0 v0] d IH]; simpl; [tauto|].
  destruct (String.eqb k k0); simpl; tauto.
Qed.

Lemma wf_remove k d : PyDict.wf d -> PyDict.wf (PyDict.remove k d).
Proof.
  unfold PyDict.wf.
  induction d as [|[k' v'] d IH]; simpl; [auto|].
  intros Hnd. inversion Hnd as [|? ? Hnotin Hnd']; subst.
  destruct (String.eqb k k'); simpl; [assumption|].
  constructor; [|auto].
  intros Hin. apply Hnotin. eapply in_keys_remove; eauto.
Qed.

Lemma in_keys_set k k' v d :
  In k' (PyDict.keys (PyDict.set k v d)) -> k' = k \/ In k' (PyDict.keys d).
Proof.
  induction d as [|[k0 v0] d IH]; simpl.
  - intuition auto.
  - destruct (String.eqb k k0); simpl; intuition auto.
Qed.

Lemma wf_set k v d : PyDict.wf d -> PyDict.wf (PyDict.set k v d).
Proof.
  unfold PyDict.wf.
  induction d as [|[k' v'] d IH]; simpl.
  - intros _. constructor; [simpl; tauto | constructor].
  - intros Hnd. inversion Hnd as [|? ? Hnotin Hnd']; subst.
    destruct (String.eqb k k') eqn:E; simpl.
    + constructor; assumption.
    + constructor; [|auto].
      intros Hin. apply in_keys_set in Hin. destruct Hin as [-> | Hin].
      * rewrite String.eqb_refl in E. discriminate.
      * contradiction.
Qed.

Lemma in_values_set v' k v d :
  In v' (PyDict.values (PyDict.set k v d)) -> v' = v \/ In v' (PyDict.values d).
Proof.
  induction d as [|[k0 v0] d IH]; simpl.
  - intuition auto.
  - destruct (String.eqb k k0); simpl; intuition auto.
Qed.

Lemma in_values_remove v' k d :
  In v' (PyDict.values (PyDict.remove k d)) -> In v' (PyDict.values d).
Proof.
  induction d as [|[k0 v0] d IH]; simpl; [tauto|].
  destruct (String.eqb k k0); simpl; tauto.
Qed.

Lemma set_set k v1 v2 d : PyDict.set k v2 (PyDict.set k v1 d) = PyDict.set k v2 d.
Proof.
  induction d as [|[k0 v0] d IH]; simpl.
  - now rewrite String.eqb_refl.
  - destruct (String.eqb k k0) eqn:E; simpl; rewrite E; [reflexivity|].
    now rewrite IH.
Qed.

Lemma set_get_same k v d : PyDict.get k d = Some v -> PyDict.set k v d = d.
Proof.
  induction d as [|[k0 v0] d IH]; simpl; [discriminate|].
  destruct (String.eqb k k0) eqn:E.
  - now intros [= ->].
  - intros H. now rewrite IH.
Qed.

Lemma get_in_values k v d : PyDict.get k d = Some v -> In v (PyDict.values d).
Proof.
  induction d as [|[k0 v0] d IH]; simpl; [discriminate|].
  destruct (String.eqb k k0); [intros [= ->]; auto | auto].
Qed.
End DictFacts.

(** ** The cart model *)

Section CartModel.
Context {SM : StrMethods}.
Implicit Types (cart : CashierCart.t) (name key : string) (it : CartItem.t).

Lemma add_item_present cart name price quantity it :
  PyDict.get (CashierCart.normalized_key name) (CashierCart.items cart) = Some it ->
  CashierCart.add_item cart name price quantity =
  CashierCart.with_items cart
    (PyDict.set (CashierCart.normalized_key name)
       (CartItem.mk (CartItem.name it) price (CartItem.quantity it + quantity))
       (CashierCart.items cart)).
Proof.
  unfold CashierCart.add_item, CashierCart.normalized_key. now intros ->.
Qed.

Lemma add_item_absent cart name price quantity :
  PyDict.get (CashierCart.normalized_key name) (CashierCart.items cart) = None ->
  CashierCart.add_item cart name price quantity =
  CashierCart.with_items cart
    (CashierCart.items cart
     ++ [(CashierCart.normalized_key name,
          CartItem.mk (str_strip name) price quantity)])%list.
Proof.
  unfold CashierCart.add_item, CashierCart.normalized_key. intros H.
  rewrite H. now rewrite set_absent.
Qed.

Lemma wf_add_item cart name price quantity :
  PyDict.wf (CashierCart.items cart) ->
  PyDict.wf (CashierCart.items (CashierCart.add_item cart name price quantity)).
Proof.
  intros Hwf. unfold CashierCart.add_item.
  destruct (PyDict.get _ _); simpl; now apply wf_set.
Qed.

(** C3. [update_quantity] returns [False] and changes nothing when the key
    is absent; when the key is present it returns [True], and removes the
    item if the quantity is not positive, or else stores the quantity in
    it.  The other items, the order and the two percentages are kept. *)
Theorem update_quantity_spec cart name quantity :
  PyDict.wf (CashierCart.items cart) ->
  let key := CashierCart.normalized_key name in
  let result := CashierCart.update_quantity cart name quantity in
  (PyDict.get key (CashierCart.items cart) = None -> result = (false, cart))
  /\ (forall it,
        PyDict.get key (CashierCart.items cart) = Some it -> quantity <= 0 ->
        fst result = true
        /\ PyDict.get key (CashierCart.items (snd result)) = None
        /\ CashierCart.items (snd result) = PyDict.remove key (CashierCart.items cart))
  /\ (forall it,
        PyDict.get key (CashierCart.items cart) = Some it -> 0 < quantity ->
        fst result = true
        /\ PyDict.get key (CashierCart.items (snd result))
           = Some (CartItem.mk (CartItem.name it) (CartItem.price it) quantity)
        /\ PyDict.keys (CashierCart.items (snd result))
           = PyDict.keys (CashierCart.items cart))
  /\ (forall k, k <> key ->
        PyDict.get k (CashierCart.items (snd result))
        = PyDict.get k (CashierCart.items cart))
  /\ CashierCart.discount_percent (snd result) = CashierCart.discount_percent cart
  /\ CashierCart.tax_percent (snd result) = CashierCart.tax_percent cart.
Proof.
  intros Hwf key result. subst result.
  unfold CashierCart.update_quantity. fold (CashierCart.normalized_key name).
  fold key. destruct (PyDict.get key (CashierCart.items cart)) as [it0|] eqn:Hget.
  - destruct (Z.leb_spec quantity 0) as [Hle | Hgt]; simpl.
    + split; [discriminate|]. split; [|split; [intros it _ Hq; lia|]].
      * intros it _ _. split; [reflexivity|]. split; [|reflexivity].
        now apply get_remove_same.
      * split; [|split; reflexivity].
        intros k Hk. now apply get_remove_other.
    + split; [discriminate|]. split; [intros it _ Hq; lia|]. split.
      * intros it [= <-] _. split; [reflexivity|]. split.
        -- apply get_set_same.
        -- eapply keys_set_present; eauto.
      * split; [|split; reflexivity].
        intros k Hk. now apply get_set_other.
  - split; [reflexivity|]. split; [discriminate|]. split; [discriminate|].
    split; [reflexivity | split; reflexivity].
Qed.

(** C6. [remove_item] returns [False] and changes nothing when the key is
    absent, and never fails; when the key is present it returns [True] and
    removes that entry and no other. *)
Theorem remove_item_spec cart name :
  PyDict.wf (CashierCart.items cart) ->
  let key := CashierCart.normalized_key name in
  let result := CashierCart.remove_item cart name in
  (PyDict.get key (CashierCart.items cart) = None -> result = (false, cart))
  /\ (forall it,
        PyDict.get key (CashierCart.items cart) = Some it ->
        fst result = true
        /\ PyDict.get key (CashierCart.items (snd result)) = None
        /\ CashierCart.items (snd result) = PyDict.remove key (CashierCart.items cart))
  /\ (forall k, k <> key ->
        PyDict.get k (CashierCart.items (snd result))
        = PyDict.get k (CashierCart.items cart))
  /\ CashierCart.discount_percent (snd result) = CashierCart.discount_percent cart
  /\ CashierCart.tax_percent (snd result) = CashierCart.tax_percent cart.
Proof.
  intros Hwf key result. subst result.
  unfold CashierCart.remove_item, PyDict.pop.
  fold (CashierCart.normalized_key name). fold key. simpl.
  split; [|split; [|split; [|split; reflexivity]]].
  - intros Hnone. rewrite Hnone, (remove_absent _ _ Hnone).
    now destruct cart.
  - intros it Hsome. rewrite Hsome. split; [reflexivity|]. split; [|reflexivity].
    now apply get_remove_same.
  - intros k Hk. now apply get_remove_other.
Qed.

(** C10. When an item is already stored under the key of the name,
    [add_item] keeps its display name, adds the quantity and replaces the
    price; the other items, the order and the percentages are kept.  So the
    display name is the trimmed name of the call that inserted the item. *)
Theorem add_item_keeps_display_name cart name price quantity it :
  PyDict.get (CashierCart.normalized_key name) (CashierCart.items cart) = Some it ->
  let key := CashierCart.normalized_key name in
  let cart' := CashierCart.add_item cart name price quantity in
  PyDict.get key (CashierCart.items cart')
  = Some (CartItem.mk (CartItem.name it) price (CartItem.quantity it + quantity))
  /\ (forall k, k <> key ->
        PyDict.get k (CashierCart.items cart') = PyDict.get k (CashierCart.items cart))
  /\ PyDict.keys (CashierCart.items cart') = PyDict.keys (CashierCart.items cart)
  /\ CashierCart.discount_percent cart' = CashierCart.discount_percent cart
  /\ CashierCart.tax_percent cart' = CashierCart.tax_percent cart
  /\ (forall cart0 name0 price0 quantity0,
        PyDict.get key (CashierCart.items cart0) = None ->
        CashierCart.normalized_key name0 = key ->
        cart = CashierCart.add_item cart0 name0 price0 quantity0 ->
        CartItem.name it = str_strip name0).
Proof.
  intros Hget key cart'. subst cart'.
  rewrite (add_item_present _ _ _ _ _ Hget). fold key. simpl.
  split; [apply get_set_same|].
  split; [intros k Hk; now apply get_set_other|].
  split; [eapply keys_set_present; eauto|].
  split; [reflexivity|]. split; [reflexivity|].
  intros cart0 name0 price0 quantity0 Hnone Hkey ->.
  rewrite <- Hkey in Hnone. rewrite (add_item_absent _ _ _ _ Hnone) in Hget.
  simpl in Hget. rewrite <- set_absent in Hget by exact Hnone.
  fold key in Hget. rewrite Hkey in Hget. rewrite get_set_same in Hget.
  now injection Hget as <-.
Qed.
End CartModel.

(** C8. [clear] leaves no item and both percentages at 0, and clearing
    twice is clearing once. *)
Theorem clear_spec (cart : CashierCart.t) :
  CashierCart.items (CashierCart.clear cart) = []
  /\ CashierCart.discount_percent (CashierCart.clear cart) = 0%float
  /\ CashierCart.tax_percent (CashierCart.clear cart) = 0%float
  /\ CashierCart.clear (CashierCart.clear cart) = CashierCart.clear cart.
Proof. repeat split. Qed.

(** ** Sequences of calls, and the states a session reaches *)

Section Sequences.
Context {SM : StrMethods}.
Implicit Types (cart : CashierCart.t) (name key : string) (calls : list call).

Lemma add_item_get cart name price quantity :
  let key := CashierCart.normalized_key name in
  PyDict.get key (CashierCart.items (CashierCart.add_item cart name price quantity))
  = Some (CartItem.mk
            match PyDict.get key (CashierCart.items cart) with
            | Some it0 => CartItem.name it0
            | None => str_strip name
            end
            price (stored_quantity cart key + quantity)).
Proof.
  intros key. unfold stored_quantity, CashierCart.add_item.
  fold (CashierCart.normalized_key name). fold key.
  destruct (PyDict.get key (CashierCart.items cart)) as [it0|]; simpl;
    now rewrite get_set_same.
Qed.

Lemma last_cons_default {A : Type} (l : list A) (a d : A) :
  last (a :: l) d = last l a.
Proof.
  revert a d. induction l as [|b l IH]; intros a d; [reflexivity|].
  change (last (a :: b :: l) d) with (last (b :: l) d).
  now rewrite !IH.
Qed.

Lemma add_items_same_key_get calls : forall cart key n0 d0 q0,
  Forall (fun k => CashierCart.normalized_key (call_name k) = key) calls ->
  PyDict.get key (CashierCart.items cart)
  = Some (CartItem.mk n0 (call_price d0) q0) ->
  PyDict.get key (CashierCart.items (add_items cart calls))
  = Some (CartItem.mk n0 (call_price (last calls d0)) (q0 + sum_quantities calls)).
Proof.
  induction calls as [|k rest IH]; intros cart key n0 d0 q0 Hall Hget.
  - simpl. rewrite Hget. do 2 f_equal. lia.
  - inversion Hall as [|? ? Hk Hrest]; subst.
    pose proof (add_item_get cart (call_name k) (call_price k) (call_quantity k)) as Hstep.
    simpl in Hstep. unfold stored_quantity in Hstep. rewrite Hget in Hstep.
    simpl in Hstep.
    change (add_items cart (k :: rest))
      with (add_items (CashierCart.add_item cart (call_name k) (call_price k)
                         (call_quantity k)) rest).
    rewrite (IH _ _ _ k _ Hrest Hstep), last_cons_default.
    simpl. do 2 f_equal. lia.
Qed.

(** C1, amended.  After a sequence of at least one [add_item] whose names
    have the same normalized key, the quantity stored under the key is the
    quantity stored before (0 when the key was absent) plus the sum of the
    quantities added, the stored price is the price of the last call, and
    the display name is the one stored before or, when the key was absent,
    the trimmed name of the first call; an [add_item] on an absent key
    appends a new item whose display name is the trimmed name. *)
Theorem add_items_same_key cart calls key first :
  Forall (fun k => CashierCart.normalized_key (call_name k) = key) calls ->
  hd_error calls = Some first ->
  (forall d,
     PyDict.get key (CashierCart.items (add_items cart calls))
     = Some (CartItem.mk
               match PyDict.get key (CashierCart.items cart) with
               | Some it0 => CartItem.name it0
               | None => str_strip (call_name first)
               end
               (call_price (last calls d))
               (stored_quantity cart key + sum_quantities calls)))
  /\ (PyDict.get key (CashierCart.items cart) = None ->
      CashierCart.items
        (CashierCart.add_item cart (call_name first) (call_price first)
           (call_quantity first))
      = (CashierCart.items cart
         ++ [(key, CartItem.mk (str_strip (call_name first)) (call_price first)
                     (call_quantity first))])%list).
Proof.
  intros Hall Hfirst.
  destruct calls as [|k rest]; [discriminate|].
  injection Hfirst as ->. inversion Hall as [|? ? Hk Hrest]; subst.
  split.
  - intros d.
    pose proof (add_item_get cart (call_name first) (call_price first)
                  (call_quantity first)) as Hstep.
    simpl in Hstep.
    change (add_items cart (first :: rest))
      with (add_items (CashierCart.add_item cart (call_name first) (call_price first)
                         (call_quantity first)) rest).
    rewrite (add_items_same_key_get rest _ _ _ first _ Hrest Hstep).
    rewrite last_cons_default. simpl. do 2 f_equal. lia.
  - intros Hnone. rewrite add_item_absent by exact Hnone. reflexivity.
Qed.

(** C4. Every state reached from the empty cart by [add_item] under the
    caller's checks, [remove_item], [update_quantity], [clear] and the
    setting of the percentages stores only items with a positive quantity
    and a price that is not negative. *)
Theorem reachable_invariant cart : reachable cart -> cart_invariant cart.
Proof.
  unfold cart_invariant.
  induction 1 as [ | cart name price quantity _ IH [_ [Hp Hq]]
                   | cart name _ IH | cart name quantity _ IH
                   | cart _ IH | cart p _ IH | cart p _ IH ];
    try exact IH; try (now constructor).
  - rewrite Forall_forall in IH |- *. intros it Hin.
    unfold CashierCart.add_item in Hin.
    destruct (PyDict.get _ _) as [it0|] eqn:Hget; simpl in Hin;
      apply in_values_set in Hin; destruct Hin as [-> | Hin]; auto.
    + apply get_in_values, IH in Hget. destruct Hget as [Hq0 _].
      split; simpl; [lia | assumption].
    + split; simpl; assumption.
  - rewrite Forall_forall in IH |- *. intros it Hin.
    apply in_values_remove in Hin. auto.
  - rewrite Forall_forall in IH |- *. intros it Hin.
    unfold CashierCart.update_quantity in Hin.
    destruct (PyDict.get _ _) as [it0|] eqn:Hget; [|auto].
    destruct (Z.leb_spec quantity 0) as [Hle | Hgt]; simpl in Hin.
    + apply in_values_remove in Hin. auto.
    + apply in_values_set in Hin. destruct Hin as [-> | Hin]; auto.
      apply get_in_values, IH in Hget. destruct Hget as [_ Hp0].
      split; simpl; assumption.
Qed.

(** The keys of a reached state are pairwise distinct. *)
Lemma reachable_wf cart : reachable cart -> PyDict.wf (CashierCart.items cart).
Proof.
  induction 1 as [ | cart name price quantity _ IH _
                   | cart name _ IH | cart name quantity _ IH
                   | cart _ IH | cart p _ IH | cart p _ IH ];
    try exact IH; try (now constructor).
  - now apply wf_add_item.
  - now apply wf_remove.
  - unfold CashierCart.update_quantity.
    destruct (PyDict.get _ _); [|exact IH].
    destruct (quantity <=? 0); simpl; [now apply wf_remove | now apply wf_set].
Qed.
End Sequences.

(** ** Facts on floats

    The operations of the primitive floats are specified by [SpecFloat];
    the classification and the bound below are read off that
    specification. *)

Lemma is_finite_spec (x : float) : is_finite x = sf_finite (Prim2SF x).
Proof.
  unfold is_finite, is_nan, is_infinity.
  rewrite !eqb_spec, abs_spec.
  change (Prim2SF infinity) with (S754_infinity false).
  destruct (Prim2SF x) as [s|s| |s m e]; try reflexivity.
  - now destruct s.
  - unfold SFeqb; simpl. rewrite Z.compare_refl, Pos.compare_cont_refl.
    now destruct s.
Qed.

Lemma digits2_pos_bounds (p : positive) :
  2 ^ (Z.pos (digits2_pos p) - 1) <= Z.pos p < 2 ^ Z.pos (digits2_pos p).
Proof.
  induction p as [p IH | p IH |]; simpl digits2_pos.
  - rewrite Pos2Z.inj_succ.
    replace (Z.succ (Z.pos (digits2_pos p)) - 1) with (Z.succ (Z.pos (digits2_pos p) - 1)) by lia.
    rewrite !Z.pow_succ_r by lia. lia.
  - rewrite Pos2Z.inj_succ.
    replace (Z.succ (Z.pos (digits2_pos p)) - 1) with (Z.succ (Z.pos (digits2_pos p) - 1)) by lia.
    rewrite !Z.pow_succ_r by lia. lia.
  - simpl. lia.
Qed.

Lemma Zdigits2_nonneg m : 0 <= Zdigits2 m.
Proof. destruct m; simpl; lia. Qed.

Lemma Zdigits2_lt m : 0 <= m -> m < 2 ^ Zdigits2 m.
Proof.
  destruct m as [|p|p]; simpl; intros H; try lia.
  apply digits2_pos_bounds.
Qed.

Lemma Zdigits2_le m k : 0 <= m -> 0 <= k -> m < 2 ^ k -> Zdigits2 m <= k.
Proof.
  destruct m as [|p|p]; simpl; intros H Hk Hlt; try lia.
  destruct (Z_le_gt_dec (Z.pos (digits2_pos p)) k) as [|Hgt]; [assumption|].
  exfalso. pose proof (digits2_pos_bounds p) as [Hlo _].
  assert (2 ^ k <= 2 ^ (Z.pos (digits2_pos p) - 1)) by (apply Z.pow_le_mono_r; lia).
  lia.
Qed.

Lemma shr_1_m r : 0 <= shr_m r -> shr_m (shr_1 r) = shr_m r / 2.
Proof.
  destruct r as [m rb sb]. simpl. intros H.
  destruct m as [|[p|p|]|p]; simpl; try lia; try reflexivity.
  - rewrite Pos2Z.inj_xI. apply Z.div_unique with 1; lia.
  - rewrite Pos2Z.inj_xO. apply Z.div_unique with 0; lia.
Qed.

Lemma iter_shr_1_m n : forall r,
  0 <= shr_m r -> shr_m (iter_pos shr_1 n r) = shr_m r / 2 ^ Z.pos n.
Proof.
  assert (Hnn : forall r, 0 <= shr_m r -> 0 <= shr_m (shr_1 r)).
  { intros r H. rewrite shr_1_m by assumption. apply Z.div_pos; lia. }
  induction n as [n IH | n IH |]; intros r H; simpl iter_pos.
  - assert (Hp : 0 < 2 ^ Z.pos n) by (apply Z.pow_pos_nonneg; lia).
    assert (H1 : 0 <= shr_m (iter_pos shr_1 n (shr_1 r))).
    { rewrite IH by now apply Hnn. apply Z.div_pos; [now apply Hnn | assumption]. }
    rewrite (IH _ H1), (IH _ (Hnn _ H)), shr_1_m by assumption.
    rewrite !Z.div_div by lia. f_equal.
    replace (Z.pos n~1) with (1 + Z.pos n + Z.pos n) by lia.
    rewrite !Z.pow_add_r by lia. lia.
  - assert (Hp : 0 < 2 ^ Z.pos n) by (apply Z.pow_pos_nonneg; lia).
    assert (H1 : 0 <= shr_m (iter_pos shr_1 n r)).
    { rewrite IH by assumption. apply Z.div_pos; assumption. }
    rewrite (IH _ H1), (IH _ H).
    rewrite !Z.div_div by lia. f_equal.
    replace (Z.pos n~0) with (Z.pos n + Z.pos n) by lia.
    rewrite !Z.pow_add_r by lia. lia.
  - now rewrite shr_1_m.
Qed.

Lemma shr_record_of_loc_m m l : shr_m (shr_record_of_loc m l) = m.
Proof. now destruct l as [|[| |]]. Qed.

(** After the shift to the exponent of the format the mantissa is still
    not negative, the exponent is the larger of the two, and the number of
    digits went down by the shift. *)
Lemma shr_fexp_bounds m e l :
  0 <= m ->
  let '(r, e1) := shr_fexp prec emax m e l in
  0 <= shr_m r
  /\ e1 = Z.max e (fexp prec emax (Zdigits2 m + e))
  /\ Zdigits2 (shr_m r) + e1 <= Z.max (Zdigits2 m + e) e1.
Proof.
  intros Hm. unfold shr_fexp, shr.
  set (X := fexp prec emax (Zdigits2 m + e)).
  destruct (X - e) as [|n|n] eqn:Hn.
  - rewrite shr_record_of_loc_m. repeat split; lia.
  - rewrite iter_shr_1_m by now rewrite shr_record_of_loc_m.
    rewrite shr_record_of_loc_m.
    assert (Hpow : 0 < 2 ^ Z.pos n) by (apply Z.pow_pos_nonneg; lia).
    assert (Hq : 0 <= m / 2 ^ Z.pos n) by (apply Z.div_pos; lia).
    split; [assumption|]. split; [lia|].
    pose proof (Zdigits2_nonneg m) as Hd.
    destruct (Z_le_gt_dec (Z.pos n) (Zdigits2 m)) as [Hle | Hgt].
    + assert (Zdigits2 (m / 2 ^ Z.pos n) <= Zdigits2 m - Z.pos n); [|lia].
      apply Zdigits2_le; [assumption | lia |].
      apply Z.div_lt_upper_bound; [assumption|].
      rewrite <- Z.pow_add_r by lia.
      replace (Z.pos n + (Zdigits2 m - Z.pos n)) with (Zdigits2 m) by lia.
      now apply Zdigits2_lt.
    + assert (m / 2 ^ Z.pos n = 0) as ->; [|simpl; lia].
      apply Z.div_small. split; [assumption|].
      apply Z.lt_le_trans with (2 ^ Zdigits2 m); [now apply Zdigits2_lt|].
      apply Z.pow_le_mono_r; lia.
  - rewrite shr_record_of_loc_m. repeat split; lia.
Qed.

Lemma round_nearest_even_bounds m l :
  0 <= m ->
  0 <= round_nearest_even m l
  /\ Zdigits2 (round_nearest_even m l) <= Zdigits2 m + 1.
Proof.
  intros Hm.
  assert (H1 : Zdigits2 (m + 1) <= Zdigits2 m + 1).
  { pose proof (Zdigits2_nonneg m). pose proof (Zdigits2_lt m Hm).
    apply Zdigits2_le; try lia. rewrite Z.pow_add_r by lia. lia. }
  unfold round_nearest_even.
  destruct l as [|[| |]]; try destruct (Z.even m); split; lia.
Qed.

(** No overflow in the rounding of a quotient or product of small enough
    magnitude. *)
Lemma binary_round_aux_finite s mx ex lx :
  0 <= mx -> ex <= 971 -> Zdigits2 mx + ex <= 1023 ->
  sf_finite (binary_round_aux prec emax s mx ex lx) = true.
Proof.
  intros Hm He Hd. unfold binary_round_aux.
  pose proof (shr_fexp_bounds mx ex lx Hm) as H1.
  destruct (shr_fexp prec emax mx ex lx) as [r1 e1].
  destruct H1 as (Hr1 & He1 & Hd1).
  pose proof (round_nearest_even_bounds (shr_m r1) (loc_of_shr_record r1) Hr1)
    as [Hm2 Hd2].
  set (m2 := round_nearest_even (shr_m r1) (loc_of_shr_record r1)) in *.
  pose proof (shr_fexp_bounds m2 e1 loc_Exact Hm2) as H2.
  destruct (shr_fexp prec emax m2 e1 loc_Exact) as [r2 e2].
  destruct H2 as (Hr2 & He2 & _).
  destruct (shr_m r2) as [|p|p]; [reflexivity | | lia].
  assert (Hle : e2 <= emax - prec); [|apply Z.leb_le in Hle; now rewrite Hle].
  unfold fexp, emin, emax, prec in *. lia.
Qed.

Lemma bounded_digits m e :
  bounded prec emax m e = true -> Z.pos (digits2_pos m) + e <= 1024.
Proof.
  unfold bounded, canonical_mantissa, fexp, emin, emax, prec.
  intros H. apply andb_prop in H. destruct H as [H1 H2].
  apply Z.eqb_eq in H1. apply Z.leb_le in H2. lia.
Qed.

(** A finite float divided by 100 is finite. *)
Lemma div_100_finite (p : float) :
  is_finite p = true -> is_finite (p / 100)%float = true.
Proof.
  rewrite !is_finite_spec, div_spec.
  change (Prim2SF 100) with (S754_finite false 7036874417766400 (-46)).
  pose proof (Prim2SF_valid p) as Hv.
  destruct (Prim2SF p) as [s|s| |s m e]; try discriminate; [reflexivity|].
  intros _. simpl in Hv. apply bounded_digits in Hv.
  unfold SF64div, SFdiv, SFdiv_core_binary.
  change (Zdigits2 7036874417766400) with 53.
  change (Zdigits2 (Z.pos m)) with (Z.pos (digits2_pos m)).
  set (d1 := Z.pos (digits2_pos m)) in *.
  set (e' := Z.min (fexp prec emax (d1 + e - (53 + -46))) (e - -46)).
  assert (He' : e' <= 964 /\ e' <= e + 46 /\ (d1 + e - 60 <= e' \/ e' = e + 46)).
  { subst e'. unfold fexp, emin, emax, prec. lia. }
  set (sh := e - -46 - e').
  assert (Hsh : 0 <= sh) by (subst sh; lia).
  set (m' := match sh with
             | 0 => Z.pos m
             | Z.pos _ => Z.shiftl (Z.pos m) sh
             | Z.neg _ => 0
             end).
  assert (Hm' : m' = Z.pos m * 2 ^ sh).
  { subst m'. destruct sh as [|n|n] eqn:E; [rewrite Z.pow_0_r; lia | | lia].
    now rewrite Z.shiftl_mul_pow2 by lia. }
  assert (Hpow : 0 < 2 ^ sh) by (apply Z.pow_pos_nonneg; lia).
  assert (Hm'lt : 0 <= m' < 2 ^ (d1 + sh)).
  { pose proof (digits2_pos_bounds m) as [_ Hlt]. fold d1 in Hlt.
    rewrite Z.pow_add_r by lia. nia. }
  pose proof (Z_div_mod m' 7036874417766400 eq_refl) as Hdiv.
  destruct (Z.div_eucl m' 7036874417766400) as [q r].
  destruct Hdiv as [Hq Hr].
  assert (Hq0 : 0 <= q) by nia.
  apply binary_round_aux_finite; [assumption | lia |].
  destruct (Z_le_gt_dec 52 (d1 + sh)) as [Hge | Hlt].
  - assert (Zdigits2 q <= d1 + sh - 52); [|subst sh; lia].
    apply Zdigits2_le; [assumption | lia |].
    replace (d1 + sh) with (d1 + sh - 52 + 52) in Hm'lt by lia.
    rewrite Z.pow_add_r in Hm'lt by lia.
    change (2 ^ 52) with 4503599627370496 in Hm'lt.
    assert (0 < 2 ^ (d1 + sh - 52)) by (apply Z.pow_pos_nonneg; lia).
    nia.
  - assert (q = 0) as ->; [|simpl; lia].
    assert (2 ^ (d1 + sh) <= 2 ^ 52) by (apply Z.pow_le_mono_r; lia).
    change (2 ^ 52) with 4503599627370496 in *. nia.
Qed.

Lemma mul_zero_finite (a q : float) (sa : bool) :
  Prim2SF a = S754_zero sa -> is_finite q = true ->
  exists s, Prim2SF (a * q)%float = S754_zero s.
Proof.
  rewrite is_finite_spec, mul_spec. intros ->. unfold SF64mul.
  destruct (Prim2SF q) as [s|s| |s m e]; try discriminate; intros _; simpl; eauto.
Qed.

Lemma zero_sub_zero (z : float) (s : bool) :
  Prim2SF z = S754_zero s -> Prim2SF (0 - z)%float = S754_zero false.
Proof.
  rewrite sub_spec. intros ->. change (Prim2SF 0) with (S754_zero false).
  now destruct s.
Qed.

Lemma zero_add_zero (a z : float) (s : bool) :
  Prim2SF a = S754_zero false -> Prim2SF z = S754_zero s ->
  Prim2SF (a + z)%float = S754_zero false.
Proof.
  rewrite add_spec. intros -> ->. now destruct s.
Qed.

Lemma zero_eqb (z : float) (s : bool) :
  Prim2SF z = S754_zero s -> (z =? 0)%float = true.
Proof.
  rewrite eqb_spec. intros ->. reflexivity.
Qed.

Lemma digits2_pos_iter_xO (m d : positive) :
  Z.pos (digits2_pos (Pos.iter xO m d)) = Z.pos (digits2_pos m) + Z.pos d.
Proof.
  induction d as [|d IH] using Pos.peano_ind.
  - simpl. lia.
  - rewrite Pos.iter_succ. simpl digits2_pos. lia.
Qed.

(** The conversion of an [int] below 2^1023 in magnitude does not
    overflow. *)
Lemma fits_float_below (z : Z) : Z.abs z < 2 ^ 1023 -> fits_float z.
Proof.
  intros Hz. unfold fits_float, float_of_int, nearest_float.
  assert (H : sf_finite (binary_normalize prec emax z 0 false) = true).
  { destruct z as [|m|m]; [reflexivity | |];
      unfold binary_normalize, binary_round, shl_align;
      (assert (Hd : Z.pos (digits2_pos m) <= 1023)
        by (apply (Zdigits2_le (Z.pos m)); simpl in Hz; lia));
      set (D := Z.pos (digits2_pos m)) in *;
      (destruct (fexp prec emax (D + 0) - 0) as [|d|d] eqn:Hf;
       [ apply binary_round_aux_finite; simpl; fold D; lia
       | apply binary_round_aux_finite; simpl; fold D; lia
       | apply binary_round_aux_finite;
         [ lia
         | unfold fexp, emin, emax, prec in *; lia
         | change (Zdigits2 (Z.pos (Pos.iter xO m d)))
             with (Z.pos (digits2_pos (Pos.iter xO m d)));
           rewrite digits2_pos_iter_xO; fold D;
           unfold fexp, emin, emax, prec in *; lia ] ]). }
  now destruct (binary_normalize prec emax z 0 false).
Qed.

(** ** Beyond the range of floats *)

Lemma shr_fexp_value m e l :
  0 <= m ->
  shr_m (fst (shr_fexp prec emax m e l)) = m / 2 ^ (snd (shr_fexp prec emax m e l) - e).
Proof.
  intros Hm. unfold shr_fexp, shr.
  destruct (fexp prec emax (Zdigits2 m + e) - e) as [|n|n] eqn:Hn; simpl.
  - rewrite shr_record_of_loc_m, Z.sub_diag. simpl. now rewrite Z.div_1_r.
  - rewrite iter_shr_1_m by now rewrite shr_record_of_loc_m.
    rewrite shr_record_of_loc_m. do 2 f_equal. lia.
  - rewrite shr_record_of_loc_m, Z.sub_diag. simpl. now rewrite Z.div_1_r.
Qed.

Lemma round_nearest_even_ge m l : m <= round_nearest_even m l.
Proof.
  unfold round_nearest_even.
  destruct l as [|[| |]]; try destruct (Z.even m); lia.
Qed.

Lemma binary_round_aux_overflow s m :
  2 ^ 1024 <= Z.pos m ->
  binary_round_aux prec emax s (Z.pos m) 0 loc_Exact = S754_infinity s.
Proof.
  intros Hm. unfold binary_round_aux.
  pose proof (digits2_pos_bounds m) as [Hlo Hhi].
  set (D := Z.pos (digits2_pos m)) in *.
  assert (HD : 1025 <= D).
  { destruct (Z_lt_le_dec D 1025) as [Hlt|]; [|assumption]. exfalso.
    assert (2 ^ D <= 2 ^ 1024) by (apply Z.pow_le_mono_r; lia). lia. }
  pose proof (shr_fexp_bounds (Z.pos m) 0 loc_Exact ltac:(lia)) as H1.
  pose proof (shr_fexp_value (Z.pos m) 0 loc_Exact ltac:(lia)) as V1.
  destruct (shr_fexp prec emax (Z.pos m) 0 loc_Exact) as [r1 e1].
  destruct H1 as (Hr1 & He1 & Hd1). simpl in V1.
  change (Zdigits2 (Z.pos m)) with D in *.
  assert (He1' : e1 = D - 53) by (unfold fexp, emin, emax, prec in He1; lia).
  assert (Hm1 : 2 ^ 52 <= shr_m r1).
  { rewrite V1, Z.sub_0_r, He1'. apply Z.div_le_lower_bound.
    - apply Z.pow_pos_nonneg; lia.
    - rewrite <- Z.pow_add_r by lia.
      replace (D - 53 + 52) with (D - 1) by lia. exact Hlo. }
  pose proof (round_nearest_even_bounds (shr_m r1) (loc_of_shr_record r1) Hr1)
    as [Hm2 Hd2].
  pose proof (round_nearest_even_ge (shr_m r1) (loc_of_shr_record r1)) as Hge.
  set (m2 := round_nearest_even (shr_m r1) (loc_of_shr_record r1)) in *.
  pose proof (shr_fexp_bounds m2 e1 loc_Exact Hm2) as H2.
  pose proof (shr_fexp_value m2 e1 loc_Exact Hm2) as V2.
  destruct (shr_fexp prec emax m2 e1 loc_Exact) as [r2 e2].
  destruct H2 as (Hr2 & He2 & _). simpl in V2.
  assert (He2' : e1 <= e2 <= e1 + 1).
  { unfold fexp, emin, emax, prec in He2. lia. }
  assert (Hpos : 0 < shr_m r2).
  { rewrite V2. apply Z.div_str_pos. split.
    - apply Z.pow_pos_nonneg; lia.
    - apply Z.le_trans with (2 ^ 1); [apply Z.pow_le_mono_r; lia|].
      change (2 ^ 52) with 4503599627370496 in Hm1. simpl. lia. }
  destruct (shr_m r2) as [|p|p]; try lia.
  assert (Hgt : (e2 <=? emax - prec) = false).
  { apply Z.leb_gt. unfold emax, prec. lia. }
  now rewrite Hgt.
Qed.

Lemma float_of_int_overflow (z : Z) :
  2 ^ 1024 <= Z.abs z -> float_of_int z = Raise OverflowError.
Proof.
  intros Hz. unfold float_of_int.
  destruct z as [|m|m]; simpl in Hz.
  - exfalso. assert (0 < 2 ^ 1024) by (apply Z.pow_pos_nonneg; lia). lia.
  - unfold binary_normalize, binary_round, shl_align.
    pose proof (digits2_pos_bounds m) as [_ Hhi].
    set (D := Z.pos (digits2_pos m)) in *.
    assert (HD : 1025 <= D).
    { destruct (Z_lt_le_dec D 1025) as [Hlt|]; [|assumption]. exfalso.
      assert (2 ^ D <= 2 ^ 1024) by (apply Z.pow_le_mono_r; lia). lia. }
    destruct (fexp prec emax (D + 0) - 0) as [|d|d] eqn:Hf;
      try (unfold fexp, emin, emax, prec in Hf; lia);
      now rewrite binary_round_aux_overflow.
  - unfold binary_normalize, binary_round, shl_align.
    pose proof (digits2_pos_bounds m) as [_ Hhi].
    set (D := Z.pos (digits2_pos m)) in *.
    assert (HD : 1025 <= D).
    { destruct (Z_lt_le_dec D 1025) as [Hlt|]; [|assumption]. exfalso.
      assert (2 ^ D <= 2 ^ 1024) by (apply Z.pow_le_mono_r; lia). lia. }
    destruct (fexp prec emax (D + 0) - 0) as [|d|d] eqn:Hf;
      try (unfold fexp, emin, emax, prec in Hf; lia);
      now rewrite binary_round_aux_overflow.
Qed.

(** ** The digits of an int *)

Lemma length_string_of_uint (d : Decimal.uint) :
  String.length (NilEmpty.string_of_uint d) = Decimal.nb_digits d.
Proof. induction d; simpl; congruence. Qed.

Lemma of_uint_acc_ge (d : Decimal.uint) : forall acc,
  Z.pos acc * 10 ^ Z.of_nat (Decimal.nb_digits d) <= Z.pos (Pos.of_uint_acc d acc).
Proof.
  induction d; intros acc; cbn [Pos.of_uint_acc Decimal.nb_digits];
    [rewrite Z.pow_0_r; lia | ..];
    rewrite Nat2Z.inj_succ, Z.pow_succ_r by lia;
    (eapply Z.le_trans; [|apply IHd]);
    assert (0 < 10 ^ Z.of_nat (Decimal.nb_digits d)) by (apply Z.pow_pos_nonneg; lia);
    nia.
Qed.

(** A positive number with [n] digits is at least [10 ^ (n - 1)]. *)
Lemma to_uint_digits (p : positive) :
  10 ^ (Z.of_nat (Decimal.nb_digits (Pos.to_uint p)) - 1) <= Z.pos p.
Proof.
  pose proof (DecimalPos.Unsigned.of_to p) as Hof.
  pose proof (DecimalPos.Unsigned.to_of (Pos.to_uint p)) as Hnorm.
  rewrite Hof in Hnorm. change (N.to_uint (N.pos p)) with (Pos.to_uint p) in Hnorm.
  destruct (Pos.to_uint p) as [|d|d|d|d|d|d|d|d|d|d] eqn:E;
    [discriminate Hof | ..].
  1: { exfalso. unfold Decimal.unorm in Hnorm. cbn [Decimal.nzhead] in Hnorm.
       pose proof (DecimalFacts.nb_digits_nzhead d) as Hle.
       destruct (Decimal.nzhead d) eqn:En; try discriminate.
       - injection Hnorm as Hd. subst d. discriminate Hof.
       - injection Hnorm as Hd. rewrite <- Hd in Hle. simpl in Hle. lia. }
  all: cbn [Pos.of_uint] in Hof; injection Hof as Hof;
    cbn [Decimal.nb_digits];
    rewrite Nat2Z.inj_succ;
    replace (Z.succ (Z.of_nat (Decimal.nb_digits d)) - 1)
      with (Z.of_nat (Decimal.nb_digits d)) by lia;
    rewrite <- Hof;
    (eapply Z.le_trans; [|apply of_uint_acc_ge]);
    assert (0 < 10 ^ Z.of_nat (Decimal.nb_digits d)) by (apply Z.pow_pos_nonneg; lia);
    nia.
Qed.

Lemma str_of_int_length (z n : Z) :
  0 <= z < 10 ^ n -> 0 < n -> Z.of_nat (String.length (str_of_int z)) <= n.
Proof.
  intros [Hz Hlt] Hn. unfold str_of_int.
  destruct z as [|p|p]; [simpl; lia | | lia].
  cbn [Z.to_int NilZero.string_of_int]. unfold NilZero.string_of_uint.
  pose proof (to_uint_digits p) as Hd.
  pose proof (DecimalPos.Unsigned.to_uint_nonnil p) as Hnn.
  destruct (Pos.to_uint p) eqn:E; [contradiction | ..];
    rewrite length_string_of_uint;
    (destruct (Z.le_gt_cases (Z.of_nat (Decimal.nb_digits (Pos.to_uint p))) n)
       as [Hle|Hgt];
     [rewrite E in Hle; exact Hle|]);
    exfalso; rewrite <- E in Hd;
    assert (10 ^ n <= 10 ^ (Z.of_nat (Decimal.nb_digits (Pos.to_uint p)) - 1))
      by (apply Z.pow_le_mono_r; lia);
    lia.
Qed.

(** A quantity that converts to a float has at most 309 digits, fewer than
    any limit of the interpreter: [str] returns its decimal notation. *)
Lemma py_str_int_fits {PY : Interpreter} (z : Z) :
  fits_float z -> py_str_int z = Ok (str_of_int z).
Proof.
  intros Hfit. unfold py_str_int.
  assert (Hlt : Z.abs z < 2 ^ 1024).
  { destruct (Z.lt_ge_cases (Z.abs z) (2 ^ 1024)) as [H|H]; [exact H|].
    apply float_of_int_overflow in H. unfold fits_float in Hfit.
    rewrite H in Hfit. discriminate. }
  assert (Hpow : 2 ^ 1024 < 10 ^ 640) by (apply Z.ltb_lt; vm_compute; reflexivity).
  pose proof (str_of_int_length (Z.abs z) 640) as Hlen.
  specialize (Hlen ltac:(split; [apply Z.abs_nonneg | lia]) ltac:(lia)).
  destruct int_max_str_digits_range as [H0 | H640].
  - now rewrite H0.
  - replace (int_max_str_digits <? Z.of_nat (String.length (str_of_int (Z.abs z))))
      with false by (symmetry; apply Z.ltb_ge; lia).
    now rewrite andb_false_r.
Qed.

(** ** The amounts *)

Lemma mapM_total_fits (l : list CartItem.t) :
  Forall (fun it => fits_float (CartItem.quantity it)) l ->
  mapM CartItem.total l = Ok (map line_total l).
Proof.
  induction 1 as [|it l Hit _ IH]; simpl; [reflexivity|].
  unfold CartItem.total at 1. rewrite Hit. simpl. now rewrite IH.
Qed.

Lemma fold_add_sum_from (xs : list float) : forall acc,
  fold_left PrimFloat.add xs acc = sum_from acc xs.
Proof. induction xs as [|x xs IH]; intros acc; simpl; [reflexivity | apply IH]. Qed.

Lemma fold_compensated_add (xs : list float) : forall f c,
  (let '(f', c') := fold_left compensated_add xs (f, c) in
   if negb (c' =? 0)%float && is_finite c' then (f' + c')%float else f')
  = compensated_sum_from f c xs.
Proof.
  induction xs as [|x xs IH]; intros f c.
  - simpl. now rewrite andb_comm.
  - cbn [fold_left compensated_sum_from]. unfold compensated_add at 2.
    unfold lost_in_add.
    destruct (abs x <=? abs f)%float; apply IH.
Qed.

(** [sum] computes the Σ of the specification. *)
Lemma py_sum_float_sum {PY : Interpreter} (xs : list float) :
  py_sum xs = float_sum xs.
Proof.
  destruct xs as [|x xs]; [reflexivity|]. unfold py_sum, float_sum.
  destruct sum_compensated.
  - rewrite <- fold_compensated_add.
    now destruct (fold_left compensated_add xs ((0 + x)%float, 0%float)).
  - now rewrite fold_add_sum_from.
Qed.

Lemma to_float_float_sum {PY : Interpreter} (xs : list float) :
  to_float (float_sum xs) = Ok (as_float (float_sum xs)).
Proof. now destruct xs. Qed.

Lemma subtotal_fits {PY : Interpreter} (cart : CashierCart.t) :
  quantities_fit cart -> CashierCart.subtotal cart = Ok (spec_subtotal cart).
Proof.
  intros H. unfold CashierCart.subtotal. rewrite (mapM_total_fits _ H). simpl.
  now rewrite py_sum_float_sum.
Qed.

Lemma discount_amount_fits {PY : Interpreter} (cart : CashierCart.t) :
  quantities_fit cart ->
  CashierCart.discount_amount cart = Ok (spec_discount_amount cart).
Proof.
  intros H. unfold CashierCart.discount_amount.
  rewrite (subtotal_fits _ H). simpl. unfold spec_subtotal.
  now rewrite to_float_float_sum.
Qed.

Lemma tax_amount_fits {PY : Interpreter} (cart : CashierCart.t) :
  quantities_fit cart -> CashierCart.tax_amount cart = Ok (spec_tax_amount cart).
Proof.
  intros H. unfold CashierCart.tax_amount.
  rewrite (subtotal_fits _ H), (discount_amount_fits _ H). simpl.
  unfold spec_subtotal. now rewrite to_float_float_sum.
Qed.

Lemma total_due_fits {PY : Interpreter} (cart : CashierCart.t) :
  quantities_fit cart -> CashierCart.total_due cart = Ok (spec_total_due cart).
Proof.
  intros H. unfold CashierCart.total_due.
  rewrite (subtotal_fits _ H), (discount_amount_fits _ H), (tax_amount_fits _ H).
  simpl. unfold spec_subtotal. now rewrite to_float_float_sum.
Qed.

(** C2, amended.  In a cart whose quantities all convert to a float, the
    four methods return the amounts of the data model, computed in floats:
    the subtotal is the sum of the line totals as [sum] adds them
    ([float_sum]: the [int] 0 for no item, else the line totals added to 0
    one by one from left to right, and from CPython 3.12 on with the
    rounding errors of the additions collected and added at the end), the
    discount amount is subtotal * (discount_percent / 100), the tax amount
    is (subtotal - discount amount) * (tax_percent / 100), and the total due
    is (subtotal - discount amount) + tax amount.  With a subtotal of 100.0,
    a discount of 10 and a tax of 5 they are 10.0, 4.5 and 94.5. *)
Theorem amounts_spec {PY : Interpreter} (cart : CashierCart.t) :
  quantities_fit cart ->
  CashierCart.subtotal cart = Ok (spec_subtotal cart)
  /\ CashierCart.discount_amount cart = Ok (spec_discount_amount cart)
  /\ CashierCart.tax_amount cart = Ok (spec_tax_amount cart)
  /\ CashierCart.total_due cart = Ok (spec_total_due cart)
  /\ (CashierCart.subtotal cart = Ok (Float 100) ->
      CashierCart.discount_percent cart = 10%float ->
      CashierCart.tax_percent cart = 5%float ->
      CashierCart.discount_amount cart = Ok 10%float
      /\ CashierCart.tax_amount cart = Ok 4.5%float
      /\ CashierCart.total_due cart = Ok 94.5%float).
Proof.
  intros H.
  split; [now apply subtotal_fits|].
  split; [now apply discount_amount_fits|].
  split; [now apply tax_amount_fits|].
  split; [now apply total_due_fits|].
  intros Hs Hd Ht.
  rewrite (discount_amount_fits _ H), (tax_amount_fits _ H), (total_due_fits _ H).
  rewrite (subtotal_fits _ H) in Hs. injection Hs as Hs.
  unfold spec_total_due, spec_tax_amount, spec_discount_amount.
  rewrite Hs, Hd, Ht. simpl as_float.
  repeat split.
Qed.

(** C9, amended.  In a cart without items whose two percentages are
    finite, [subtotal] returns the [int] 0 and [discount_amount],
    [tax_amount] and [total_due] return a float that equals 0. *)
Theorem empty_cart_amounts {PY : Interpreter} (cart : CashierCart.t) :
  CashierCart.items cart = [] ->
  is_finite (CashierCart.discount_percent cart) = true ->
  is_finite (CashierCart.tax_percent cart) = true ->
  CashierCart.subtotal cart = Ok (Int 0)
  /\ exists d x t,
       CashierCart.discount_amount cart = Ok d
       /\ CashierCart.tax_amount cart = Ok x
       /\ CashierCart.total_due cart = Ok t
       /\ (d =? 0)%float = true /\ (x =? 0)%float = true /\ (t =? 0)%float = true.
Proof.
  intros Hitems Hd Ht.
  assert (Hfit : quantities_fit cart).
  { unfold quantities_fit. rewrite Hitems. constructor. }
  pose proof (subtotal_fits _ Hfit) as Hs.
  rewrite (discount_amount_fits _ Hfit), (tax_amount_fits _ Hfit),
    (total_due_fits _ Hfit), Hs.
  unfold spec_total_due, spec_tax_amount, spec_discount_amount, spec_subtotal.
  rewrite Hitems. simpl PyDict.values. simpl map. simpl float_sum.
  change (as_float (Int 0)) with 0%float.
  split; [reflexivity|].
  set (rate_d := (CashierCart.discount_percent cart / 100)%float).
  set (rate_t := (CashierCart.tax_percent cart / 100)%float).
  assert (Hrd : is_finite rate_d = true) by now apply div_100_finite.
  assert (Hrt : is_finite rate_t = true) by now apply div_100_finite.
  destruct (mul_zero_finite 0 rate_d false eq_refl Hrd) as [sd Hdz].
  pose proof (zero_sub_zero _ _ Hdz) as Hbase.
  destruct (mul_zero_finite _ rate_t false Hbase Hrt) as [sx Hxz].
  pose proof (zero_add_zero _ _ _ Hbase Hxz) as Htz.
  do 3 eexists. repeat split; eapply zero_eqb; eassumption.
Qed.

(** ** The console and the files *)

Lemma writes_ret {A : Type} (a : A) : writes (ret a) a [].
Proof. intros w. unfold ret. rewrite app_nil_r. now destruct w. Qed.

Lemma writes_print (s : string) : writes (print s) tt [s ++ nl].
Proof. intros w. reflexivity. Qed.

Lemma writes_lift {A : Type} (a : A) : writes (lift (Ok a)) a [].
Proof. intros w. unfold lift. rewrite app_nil_r. now destruct w. Qed.

Lemma writes_bind {A B : Type} (m : IO A) (k : A -> IO B) a b o1 o2 :
  writes m a o1 -> writes (k a) b o2 -> writes (io_bind m k) b (o1 ++ o2).
Proof.
  intros H1 H2 w. unfold io_bind. rewrite H1, H2. simpl.
  now rewrite app_assoc.
Qed.

Lemma print_menu_writes : writes print_menu tt (removelast menu_text).
Proof.
  unfold print_menu.
  repeat (eapply (writes_bind _ _ tt tt [_]); [apply writes_print|]).
  apply writes_print.
Qed.

Lemma writes_lift_eq {A : Type} (r : result A) (a : A) :
  r = Ok a -> writes (lift r) a [].
Proof. intros ->. apply writes_lift. Qed.

Lemma cart_line_fits {PY : Interpreter} (item : CartItem.t) :
  fits_float (CartItem.quantity item) -> exists line, cart_line item = Ok line.
Proof.
  intros H. unfold cart_line, CartItem.total.
  rewrite (py_str_int_fits _ H), H. simpl. eauto.
Qed.

Lemma for_each_cart_lines {PY : Interpreter} (l : list CartItem.t) :
  Forall (fun it => fits_float (CartItem.quantity it)) l ->
  exists out,
    writes (for_each l (fun item => line <- lift (cart_line item) ;; print line))
      tt out.
Proof.
  induction 1 as [|it l Hit _ [out IH]]; simpl.
  - eexists. apply writes_ret.
  - destruct (cart_line_fits _ Hit) as [line Hline].
    eexists. eapply writes_bind; [|exact IH].
    eapply writes_bind; [apply writes_lift_eq; exact Hline | apply writes_print].
Qed.

Lemma format_subtotal_fits {PY : Interpreter} (cart : CashierCart.t) (grouping : bool) :
  quantities_fit cart ->
  (let* s := CashierCart.subtotal cart in format_number grouping 2 s)
  = Ok (format_f grouping 2 (as_float (spec_subtotal cart))).
Proof.
  intros H. rewrite (subtotal_fits _ H). simpl.
  unfold format_number, spec_subtotal. now rewrite to_float_float_sum.
Qed.

Lemma subtotal_line_fits {PY : Interpreter} (cart : CashierCart.t) :
  quantities_fit cart -> exists line, subtotal_line cart = Ok line.
Proof.
  intros H. unfold subtotal_line, format_currency.
  rewrite (subtotal_fits _ H). simpl. unfold format_number, spec_subtotal.
  rewrite to_float_float_sum. simpl. eauto.
Qed.

Lemma discount_line_fits {PY : Interpreter} (cart : CashierCart.t) :
  quantities_fit cart -> exists line, discount_line cart = Ok line.
Proof.
  intros H. unfold discount_line. rewrite (discount_amount_fits _ H). simpl. eauto.
Qed.

Lemma tax_line_fits {PY : Interpreter} (cart : CashierCart.t) :
  quantities_fit cart -> exists line, tax_line cart = Ok line.
Proof.
  intros H. unfold tax_line. rewrite (tax_amount_fits _ H). simpl. eauto.
Qed.

Lemma total_due_line_fits {PY : Interpreter} (cart : CashierCart.t) :
  quantities_fit cart -> exists line, total_due_line cart = Ok line.
Proof.
  intros H. unfold total_due_line. rewrite (total_due_fits _ H). simpl. eauto.
Qed.

Ltac writes_step :=
  first
    [ apply writes_print
    | apply writes_ret
    | eassumption
    | apply writes_lift_eq; eassumption
    | eapply writes_bind ].

(** [print_cart] of a cart whose quantities fit only writes to the
    console. *)
Lemma print_cart_writes {PY : Interpreter} (cart : CashierCart.t) :
  quantities_fit cart -> exists out, writes (print_cart cart) tt out.
Proof.
  intros H. unfold print_cart.
  destruct (for_each_cart_lines _ H) as [lines Hlines].
  destruct (subtotal_line_fits _ H) as [ls Hs].
  destruct (discount_line_fits _ H) as [ld Hd].
  destruct (tax_line_fits _ H) as [lx Hx].
  destruct (total_due_line_fits _ H) as [lt Ht].
  destruct (CashierCart.items cart) as [|entry entries] eqn:Hitems.
  - eexists. apply writes_print.
  - rewrite <- Hitems in *.
    destruct (truthy (CashierCart.discount_percent cart));
      destruct (truthy (CashierCart.tax_percent cart));
      eexists; repeat writes_step.
Qed.

Lemma appends_ret {A : Type} (path : string) (a : A) : appends path (ret a) a [].
Proof.
  intros w rows0 Hget. unfold ret. rewrite app_nil_r.
  rewrite (set_get_same _ _ _ Hget). now destruct w.
Qed.

Lemma appends_lift_eq {A : Type} (path : string) (r : result A) (a : A) :
  r = Ok a -> appends path (lift r) a [].
Proof. intros ->. apply (appends_ret path a). Qed.

Lemma appends_writerow (path : string) (r : row) :
  appends path (writerow path r) tt [r].
Proof. intros w rows0 Hget. unfold writerow. now rewrite Hget. Qed.

Lemma appends_bind {A B : Type} path (m : IO A) (k : A -> IO B) a b r1 r2 :
  appends path m a r1 -> appends path (k a) b r2 ->
  appends path (io_bind m k) b (r1 ++ r2).
Proof.
  intros H1 H2 w rows0 Hget. unfold io_bind. rewrite (H1 _ _ Hget).
  rewrite (H2 _ (rows0 ++ r1)%list) by (simpl; apply get_set_same).
  simpl. unfold with_files. simpl. now rewrite set_set, app_assoc.
Qed.

Lemma item_row_fits {PY : Interpreter} (item : CartItem.t) :
  fits_float (CartItem.quantity item) -> item_row item = Ok (receipt_item_row item).
Proof.
  intros H. unfold item_row, CartItem.total.
  rewrite H. simpl. now rewrite (py_str_int_fits _ H).
Qed.

Lemma for_each_item_rows {PY : Interpreter} (path : string) (l : list CartItem.t) :
  Forall (fun it => fits_float (CartItem.quantity it)) l ->
  appends path
    (for_each l (fun item => r <- lift (item_row item) ;; writerow path r))
    tt (map receipt_item_row l).
Proof.
  induction 1 as [|it l Hit _ IH]; simpl.
  - apply appends_ret.
  - apply (appends_bind _ _ _ tt tt [receipt_item_row it]); [|exact IH].
    apply (appends_bind _ _ _ (receipt_item_row it) tt [] [_]).
    + apply appends_lift_eq. now apply item_row_fits.
    + apply appends_writerow.
Qed.

Ltac appends_step :=
  first
    [ apply appends_writerow
    | apply appends_ret
    | apply for_each_item_rows; assumption
    | apply appends_lift_eq;
      first [ now apply format_subtotal_fits
            | now apply discount_amount_fits
            | now apply tax_amount_fits
            | now apply total_due_fits ]
    | eapply appends_bind ].

(** [save_receipt] of a cart whose quantities fit makes the directory and
    leaves the rows of the receipt in the file named after the clock. *)
Lemma save_receipt_fits {PY : Interpreter} (cart : CashierCart.t) (w : world) :
  quantities_fit cart ->
  save_receipt cart "receipts" w
  = (Ok (receipt_path_at w),
     mkWorld (stdin w) (stdout w)
       (if existsb (String.eqb "receipts") (dirs w) then dirs w
        else dirs w ++ ["receipts"])
       (PyDict.set (receipt_path_at w) (receipt_rows cart) (files w))
       (clock w)).
Proof.
  intros H. unfold save_receipt.
  unfold io_bind at 1. unfold mkdir at 1.
  set (w1 := if existsb (String.eqb "receipts") (dirs w) then w
             else with_dirs w (dirs w ++ ["receipts"])).
  assert (Hw1 : stdin w1 = stdin w /\ stdout w1 = stdout w
                /\ files w1 = files w /\ clock w1 = clock w
                /\ dirs w1 = if existsb (String.eqb "receipts") (dirs w)
                             then dirs w else (dirs w ++ ["receipts"])%list).
  { subst w1. now destruct (existsb (String.eqb "receipts") (dirs w)). }
  destruct Hw1 as (Hin & Hout & Hfiles & Hclock & Hdirs).
  unfold io_bind at 1. unfold timestamp_now at 1. rewrite Hclock.
  unfold io_bind at 1. unfold open_w at 1.
  set (path := receipt_path_at w).
  match goal with
  | |- ?m ?w2 = _ =>
      assert (Happ : exists rows,
                 appends path m path rows /\ rows = receipt_rows cart)
  end.
  { unfold quantities_fit in H.
    eexists. split; [repeat appends_step | reflexivity]. }
  destruct Happ as (rows & Happ & ->).
  rewrite (Happ _ []) by (simpl; apply get_set_same).
  unfold with_files. simpl. now rewrite set_set, Hin, Hout, Hfiles, Hclock, Hdirs.
Qed.

(** ** The decimals of the formats *)

Lemma string_app_assoc (a b c : string) : (a ++ b) ++ c = a ++ (b ++ c).
Proof. induction a as [|x a IH]; simpl; [reflexivity | now rewrite IH]. Qed.

Lemma two_decimals_table :
  forallb (fun k => is_two_digits (two_decimals (Z.of_nat k))) (seq 0 100) = true.
Proof. vm_compute. reflexivity. Qed.

Lemma two_decimals_digits (k : Z) :
  0 <= k < 100 -> is_two_digits (two_decimals k) = true.
Proof.
  intros Hk. pose proof two_decimals_table as H.
  rewrite forallb_forall in H.
  rewrite <- (Z2Nat.id k) by lia. apply H. apply in_seq. lia.
Qed.

Lemma one_decimal_table :
  forallb (fun k => is_one_digit (one_decimal (Z.of_nat k))) (seq 0 10) = true.
Proof. vm_compute. reflexivity. Qed.

Lemma one_decimal_digit (k : Z) :
  0 <= k < 10 -> is_one_digit (one_decimal k) = true.
Proof.
  intros Hk. pose proof one_decimal_table as H.
  rewrite forallb_forall in H.
  rewrite <- (Z2Nat.id k) by lia. apply H. apply in_seq. lia.
Qed.

Lemma fixed_digits_has_decimals (grouping : bool) (decimals : nat) sign n :
  decimals = 1%nat \/ decimals = 2%nat ->
  has_decimals decimals (sign_prefix sign ++ fixed_digits grouping decimals n).
Proof.
  intros [-> | ->]; unfold fixed_digits, has_decimals.
  - change (10 ^ Z.of_nat 1) with 10.
    pose proof (one_decimal_digit (n mod 10) (Z.mod_pos_bound n 10 eq_refl)) as Hd.
    unfold one_decimal in Hd.
    exists (sign_prefix sign
            ++ (if grouping then group3 (str_of_int (n / 10))
                else str_of_int (n / 10))),
      (repeat_string (1 - String.length (str_of_int (n mod 10))) "0"
       ++ str_of_int (n mod 10)).
    split; [now rewrite string_app_assoc|].
    destruct (repeat_string (1 - String.length (str_of_int (n mod 10))) "0"
              ++ str_of_int (n mod 10)) as [|d1 [|c t]];
      try discriminate.
    simpl in Hd |- *. now rewrite Hd.
  - change (10 ^ Z.of_nat 2) with 100.
    pose proof (two_decimals_digits (n mod 100) (Z.mod_pos_bound n 100 eq_refl)) as Hd.
    unfold two_decimals in Hd.
    exists (sign_prefix sign
            ++ (if grouping then group3 (str_of_int (n / 100))
                else str_of_int (n / 100))),
      (repeat_string (2 - String.length (str_of_int (n mod 100))) "0"
       ++ str_of_int (n mod 100)).
    split; [now rewrite string_app_assoc|].
    destruct (repeat_string (2 - String.length (str_of_int (n mod 100))) "0"
              ++ str_of_int (n mod 100)) as [|d1 [|d2 [|c t]]];
      try discriminate.
    simpl in Hd |- *. apply andb_prop in Hd. destruct Hd as [-> ->]. now split.
Qed.

(** The formats [.1f] and [.2f] write a finite number with one and two
    decimals, and a number that is not finite as [inf], [-inf] or [nan]. *)
Lemma format_f_shape (grouping : bool) (decimals : nat) (x : float) :
  decimals = 1%nat \/ decimals = 2%nat ->
  if is_finite x then has_decimals decimals (format_f grouping decimals x)
  else In (format_f grouping decimals x) ["inf"; "-inf"; "nan"].
Proof.
  intros Hd. rewrite is_finite_spec. unfold format_f.
  destruct (Prim2SF x) as [s|s| |s m e]; simpl sf_finite; cbv iota.
  - now apply fixed_digits_has_decimals.
  - destruct s; simpl; tauto.
  - simpl; tauto.
  - now apply fixed_digits_has_decimals.
Qed.

Section Checkout.
Context {SM : StrMethods} {PA : Parsers} {PY : Interpreter}.

(** C5. The checkout command on a cart without items prints the warning
    after the menu, writes no file and makes no directory, and goes on with
    the same cart. *)
Theorem checkout_empty_cart (cart : CashierCart.t) (w : world) line rest :
  stdin w = line :: rest ->
  str_strip line = "7" ->
  CashierCart.items cart = [] ->
  menu_step cart w
  = (Ok (Some cart),
     mkWorld rest (stdout w ++ menu_text ++ [empty_cart_warning])
       (dirs w) (files w) (clock w)).
Proof.
  intros Hin Hchoice Hitems. unfold menu_step.
  unfold io_bind at 1. rewrite print_menu_writes.
  unfold io_bind at 1. unfold input at 1. simpl stdin. rewrite Hin.
  rewrite Hchoice. simpl. rewrite Hitems.
  unfold io_bind, print, ret, with_stdout, with_console; simpl.
  rewrite <- !app_assoc. reflexivity.
Qed.

(** C7, amended.  The checkout command on a cart with at least one item,
    all of whose quantities convert to a float, leaves in the receipt file
    the header row, one row for each item in the order of the cart (display
    name, quantity, price and line total in the format [.2f]), an empty row
    and the six summary rows (percentages in the format [.1f], amounts in
    the format [.2f], computed as in C2), and goes on with the cart
    cleared.  The formats [.2f] and [.1f] write a finite number with two
    decimals and with one, and a number that is not finite, which a price,
    a percentage and so an amount can be, as [inf], [-inf] or [nan]. *)
Theorem checkout_receipt (cart : CashierCart.t) (w : world) line rest :
  stdin w = line :: rest ->
  str_strip line = "7" ->
  CashierCart.items cart <> [] ->
  quantities_fit cart ->
  (exists out,
     menu_step cart w
     = (Ok (Some (CashierCart.mk [] 0%float 0%float)),
        mkWorld rest (stdout w ++ menu_text ++ out)
          (if existsb (String.eqb "receipts") (dirs w) then dirs w
           else dirs w ++ ["receipts"])
          (PyDict.set (receipt_path_at w) (receipt_rows cart) (files w))
          (clock w)))
  /\ (forall (decimals : nat) (x : float),
        decimals = 1%nat \/ decimals = 2%nat ->
        if is_finite x then has_decimals decimals (format_f false decimals x)
        else In (format_f false decimals x) ["inf"; "-inf"; "nan"]).
Proof.
  intros Hin Hchoice Hitems Hfit.
  split; [|intros decimals x; apply format_f_shape].
  destruct (print_cart_writes _ Hfit) as [out Hprint].
  exists (out ++ [(("✅ تم حفظ الفاتورة / Receipt saved: " ++ receipt_path_at w) ++ nl)%string])%list.
  unfold menu_step.
  unfold io_bind at 1. rewrite print_menu_writes.
  unfold io_bind at 1. unfold input at 1. simpl stdin. rewrite Hin.
  rewrite Hchoice. simpl.
  destruct (CashierCart.items cart) as [|entry entries] eqn:Hcart;
    [contradiction|].
  unfold io_bind at 1. rewrite Hprint.
  unfold io_bind at 1. rewrite (save_receipt_fits _ _ Hfit).
  unfold io_bind, print, ret, with_stdout, with_console; simpl.
  rewrite <- !app_assoc. reflexivity.
Qed.
End Checkout.

(** ** The loop ends

    Every turn of the menu reads at least one line and nothing puts lines
    back, so the turns that [run_cashier] allows are enough: the session
    ends with the choice 0 or with an exception, at the latest when the
    input is used up. *)

Lemma reads_ret {A : Type} (a : A) : reads (ret a).
Proof. intros w. simpl. lia. Qed.

Lemma reads_lift {A : Type} (r : result A) : reads (lift r).
Proof. intros w. simpl. lia. Qed.

Lemma reads_print (s : string) : reads (print s).
Proof. intros w. simpl. lia. Qed.

Lemma reads_input (prompt : string) : reads (input prompt).
Proof.
  intros w. unfold input.
  destruct (stdin w) as [|line rest] eqn:E; simpl; rewrite ?E; simpl; lia.
Qed.

Lemma reads_mkdir (path : string) : reads (mkdir path).
Proof. intros w. unfold mkdir. destruct (existsb _ _); simpl; lia. Qed.

Lemma reads_open_w (path : string) : reads (open_w path).
Proof. intros w. simpl. lia. Qed.

Lemma reads_writerow (path : string) (r : row) : reads (writerow path r).
Proof. intros w. simpl. lia. Qed.

Lemma reads_timestamp_now : reads timestamp_now.
Proof. intros w. simpl. lia. Qed.

Lemma reads_bind {A B : Type} (m : IO A) (k : A -> IO B) :
  reads m -> (forall a, reads (k a)) -> reads (io_bind m k).
Proof.
  intros Hm Hk w. unfold io_bind. specialize (Hm w).
  destruct (m w) as [[a|e] w1]; simpl in *; [|assumption].
  specialize (Hk a w1). lia.
Qed.

Lemma reads_for_each {A : Type} (l : list A) (body : A -> IO unit) :
  (forall a, reads (body a)) -> reads (for_each l body).
Proof.
  intros Hbody. induction l as [|a l IH]; simpl.
  - apply reads_ret.
  - apply reads_bind; auto.
Qed.

Lemma reads_if {A : Type} (b : bool) (m1 m2 : IO A) :
  reads m1 -> reads m2 -> reads (if b then m1 else m2).
Proof. now destruct b. Qed.

Ltac reads_step :=
  first
    [ apply reads_ret | apply reads_lift | apply reads_print | apply reads_input
    | apply reads_mkdir | apply reads_open_w | apply reads_writerow
    | apply reads_timestamp_now
    | apply reads_for_each; intros ?
    | apply reads_bind; [|intros ?]
    | apply reads_if ].

Lemma reads_print_cart {PY : Interpreter} (cart : CashierCart.t) : reads (print_cart cart).
Proof.
  unfold print_cart. destruct (CashierCart.items cart); repeat reads_step.
Qed.

Lemma reads_save_receipt {PY : Interpreter} (cart : CashierCart.t) (output_dir : string) :
  reads (save_receipt cart output_dir).
Proof. unfold save_receipt. repeat reads_step. Qed.

Section Loop.
Context {SM : StrMethods} {PA : Parsers} {PY : Interpreter}.

Lemma prompt_float_on_length (message : string) (lines : list string) :
  (List.length (snd (fst (prompt_float_on message lines))) <= List.length lines)%nat.
Proof.
  induction lines as [|line rest IH]; simpl; [lia|].
  destruct (py_float (str_strip line)) as [value|].
  - destruct (value <? 0)%float; simpl; [|lia].
    destruct (prompt_float_on message rest) as [[r rest'] out]. simpl in *. lia.
  - destruct (prompt_float_on message rest) as [[r rest'] out]. simpl in *. lia.
Qed.

Lemma prompt_int_on_length (message : string) (lines : list string) :
  (List.length (snd (fst (prompt_int_on message lines))) <= List.length lines)%nat.
Proof.
  induction lines as [|line rest IH]; simpl; [lia|].
  destruct (py_int (str_strip line)) as [value|]; simpl; [lia|].
  destruct (prompt_int_on message rest) as [[r rest'] out]. simpl in *. lia.
Qed.

Lemma reads_prompt_float (message : string) : reads (prompt_float message).
Proof.
  intros w. unfold prompt_float.
  pose proof (prompt_float_on_length message (stdin w)) as H.
  destruct (prompt_float_on message (stdin w)) as [[r rest] out]. exact H.
Qed.

Lemma reads_prompt_int (message : string) : reads (prompt_int message).
Proof.
  intros w. unfold prompt_int.
  pose proof (prompt_int_on_length message (stdin w)) as H.
  destruct (prompt_int_on message (stdin w)) as [[r rest] out]. exact H.
Qed.

(** A turn that goes on has read a line. *)
Lemma menu_step_reads_line (cart : CashierCart.t) (w : world) next w' :
  menu_step cart w = (Ok next, w') ->
  (List.length (stdin w') < List.length (stdin w))%nat.
Proof.
  unfold menu_step. unfold io_bind at 1. rewrite print_menu_writes.
  unfold io_bind at 1. unfold input at 1. simpl stdin.
  destruct (stdin w) as [|line rest] eqn:Hin; [discriminate|].
  match goal with
  | |- ?m ?w2 = _ -> _ => assert (Hrest : reads m)
  end.
  { repeat first
      [ apply reads_prompt_float | apply reads_prompt_int
      | apply reads_print_cart | apply reads_save_receipt
      | reads_step
      | match goal with
        | |- reads (let '(_, _) := ?p in _) => destruct p
        | |- reads (match ?d with [] => _ | _ :: _ => _ end) => destruct d
        end ]. }
  intros Hstep.
  match type of Hstep with
  | _ ?w2 = _ => specialize (Hrest w2)
  end.
  rewrite Hstep in Hrest. simpl in Hrest |- *. lia.
Qed.

Lemma run_loop_enough (fuel : nat) : forall cart w,
  (List.length (stdin w) < fuel)%nat -> run_loop fuel cart w <> None.
Proof.
  induction fuel as [|fuel IH]; intros cart w Hlt; [lia|]. simpl.
  destruct (menu_step cart w) as [[[next|]|e] w'] eqn:Hstep; try discriminate.
  apply IH. apply menu_step_reads_line in Hstep. lia.
Qed.

(** The session always ends. *)
Lemma run_cashier_ends (w : world) : run_cashier w <> None.
Proof.
  unfold run_cashier.
  destruct (print_header w) as [[u|e] w'] eqn:Hh; [|discriminate].
  apply run_loop_enough. lia.
Qed.
End Loop.

(** ** The theorems at work, and where the claims as first stated fail *)

Section Examples.
#[local] Existing Instance cpython_3_12.

Lemma wf_cart_coffee : PyDict.wf (CashierCart.items cart_coffee).
Proof. apply reachable_wf. apply reach_add_item; [constructor|]. now repeat split. Qed.

(** Scenario A. *)
Example scenario_a :
  CashierCart.subtotal cart_coffee = Ok (Float 7)
  /\ PyDict.get "coffee"
       (CashierCart.items (CashierCart.add_item cart_coffee "coffee" 4%float 1))
     = Some (CartItem.mk "Coffee" 4%float 3)
  /\ CashierCart.subtotal (CashierCart.add_item cart_coffee "coffee" 4%float 1)
     = Ok (Float 12).
Proof. repeat split. Qed.

Lemma update_quantity_spec_witness :
  PyDict.wf (CashierCart.items cart_coffee)
  /\ fst (CashierCart.update_quantity cart_coffee " COFFEE " 0) = true
  /\ CashierCart.items (snd (CashierCart.update_quantity cart_coffee " COFFEE " 0)) = []
  /\ PyDict.get "coffee"
       (CashierCart.items (snd (CashierCart.update_quantity cart_coffee "Coffee" 7)))
     = Some (CartItem.mk "Coffee" 3.5%float 7)
  /\ CashierCart.update_quantity cart_coffee "Tea" 7 = (false, cart_coffee).
Proof.
  split; [exact wf_cart_coffee|].
  destruct (update_quantity_spec cart_coffee " COFFEE " 0 wf_cart_coffee)
    as (_ & Hdel & _).
  destruct (Hdel (CartItem.mk "Coffee" 3.5%float 2) eq_refl) as (Ht & _ & Hd);
    [discriminate|].
  destruct (update_quantity_spec cart_coffee "Coffee" 7 wf_cart_coffee)
    as (_ & _ & Hset & _).
  destruct (Hset (CartItem.mk "Coffee" 3.5%float 2) eq_refl eq_refl) as (_ & Hs & _).
  destruct (update_quantity_spec cart_coffee "Tea" 7 wf_cart_coffee) as (Hnone & _).
  split; [exact Ht|]. split; [exact Hd|]. split; [exact Hs|].
  exact (Hnone eq_refl).
Defined.

Lemma remove_item_spec_witness :
  PyDict.wf (CashierCart.items cart_coffee)
  /\ fst (CashierCart.remove_item cart_coffee "COFFEE") = true
  /\ CashierCart.items (snd (CashierCart.remove_item cart_coffee "COFFEE")) = []
  /\ CashierCart.remove_item cart_coffee "Tea" = (false, cart_coffee).
Proof.
  split; [exact wf_cart_coffee|].
  destruct (remove_item_spec cart_coffee "COFFEE" wf_cart_coffee) as (_ & Hdel & _).
  destruct (Hdel (CartItem.mk "Coffee" 3.5%float 2) eq_refl) as (Ht & _ & Hd).
  destruct (remove_item_spec cart_coffee "Tea" wf_cart_coffee) as (Hnone & _).
  split; [exact Ht|]. split; [exact Hd|]. exact (Hnone eq_refl).
Defined.

Lemma add_item_keeps_display_name_witness :
  PyDict.get "coffee"
    (CashierCart.items (CashierCart.add_item cart_coffee "  COFFEE " 4%float 1))
  = Some (CartItem.mk "Coffee" 4%float 3)
  /\ "Coffee" = str_strip "Coffee".
Proof.
  destruct (add_item_keeps_display_name (SM := ascii_str) cart_coffee "  COFFEE " 4%float 1
              (CartItem.mk "Coffee" 3.5%float 2) eq_refl)
    as (Hget & _ & _ & _ & _ & Hfirst).
  split; [exact Hget|].
  exact (Hfirst CashierCart.new "Coffee" 3.5%float 2 eq_refl eq_refl eq_refl).
Defined.

(** C1 as first stated, without the quantity stored before: the cart holds
    5 under the key, set by [update_quantity]; one call adds 1; 6 is
    stored, and the quantities added sum to 1. *)
Lemma add_items_stored_quantity_counterexample :
  Forall (fun k => CashierCart.normalized_key (call_name k) = "coffee")
    [mkCall "Coffee" 4%float 1]
  /\ stored_quantity cart_coffee_5 "coffee" = 5
  /\ stored_quantity (add_items cart_coffee_5 [mkCall "Coffee" 4%float 1]) "coffee" = 6
  /\ sum_quantities [mkCall "Coffee" 4%float 1] = 1
  /\ stored_quantity (add_items cart_coffee_5 [mkCall "Coffee" 4%float 1]) "coffee"
     <> sum_quantities [mkCall "Coffee" 4%float 1].
Proof.
  split; [now repeat constructor|]. repeat split. discriminate.
Qed.

Lemma add_items_same_key_witness :
  PyDict.get "coffee"
    (CashierCart.items
       (add_items cart_coffee_5
          [mkCall "Coffee" 4%float 1; mkCall " COFFEE" 4.5%float 2]))
  = Some (CartItem.mk "Coffee" 4.5%float 8)
  /\ CashierCart.items (CashierCart.add_item CashierCart.new " Tea " 2%float 1)
     = [("tea", CartItem.mk "Tea" 2%float 1)].
Proof.
  destruct (add_items_same_key (SM := ascii_str) cart_coffee_5
              [mkCall "Coffee" 4%float 1; mkCall " COFFEE" 4.5%float 2]
              "coffee" (mkCall "Coffee" 4%float 1))
    as [Hseq _]; [now repeat constructor | reflexivity |].
  destruct (add_items_same_key (SM := ascii_str) CashierCart.new [mkCall " Tea " 2%float 1]
              "tea" (mkCall " Tea " 2%float 1))
    as [_ Hnew]; [now repeat constructor | reflexivity |].
  split; [exact (Hseq (mkCall "" 0%float 0)) | exact (Hnew eq_refl)].
Defined.

Lemma reachable_invariant_witness :
  reachable cart_coffee_5 /\ cart_invariant cart_coffee_5.
Proof.
  assert (H : reachable cart_coffee_5).
  { apply reach_update_quantity, reach_add_item; [constructor|].
    now repeat split. }
  split; [exact H | exact (reachable_invariant _ H)].
Defined.

(** C2 as first stated, in three places.

    For every cart: a quantity the caller accepts is too large for a float,
    and no amount is returned.

    The discount as subtotal * discountPercent / 100, the product first:
    with a subtotal of 7.0 and 10 % the code returns 0.7000000000000001,
    which is 7.0 * (10 / 100), and not 0.7, which is 7.0 * 10 / 100.

    The subtotal as the line totals added one by one: for 189.68, 26.58
    and 96.2 that sum is 312.45999999999998, and CPython 3.12 returns
    312.46000000000004. *)
Lemma amounts_counterexample :
  reachable cart_huge
  /\ CashierCart.subtotal cart_huge = Raise OverflowError
  /\ CashierCart.discount_amount cart_huge = Raise OverflowError
  /\ CashierCart.tax_amount cart_huge = Raise OverflowError
  /\ CashierCart.total_due cart_huge = Raise OverflowError
  /\ CashierCart.subtotal cart_coffee_10 = Ok (Float 7)
  /\ CashierCart.discount_amount cart_coffee_10 = Ok (7 * (10 / 100))%float
  /\ ((7 * (10 / 100)) =? (7 * 10 / 100))%float = false
  /\ format_f false 16 (7 * (10 / 100))%float = "0.7000000000000001"
  /\ format_f false 16 (7 * 10 / 100)%float = "0.7000000000000000"
  /\ map line_total (PyDict.values (CashierCart.items cart_three))
     = [0x1.7b5c28f5c28f6p+7; 0x1.a947ae147ae14p+4; 0x1.80ccccccccccdp+6]%float
  /\ CashierCart.subtotal (PY := cpython_3_12) cart_three
     = Ok (Float 0x1.3875c28f5c290p+8)
  /\ (0 + 0x1.7b5c28f5c28f6p+7 + 0x1.a947ae147ae14p+4 + 0x1.80ccccccccccdp+6)%float
     = 0x1.3875c28f5c28fp+8%float
  /\ format_f false 14 0x1.3875c28f5c290p+8 = "312.46000000000004"
  /\ format_f false 14 0x1.3875c28f5c28fp+8 = "312.45999999999998".
Proof.
  split.
  - apply reach_add_item; [constructor|]. now repeat split.
  - repeat split; vm_compute; reflexivity.
Qed.

(** Scenario B on both interpreters, and the three items, whose subtotal
    and discount the receipt shows as 312.46 and 78.11 on CPython 3.11 and
    as 312.46 and 78.12 on CPython 3.12. *)
Lemma amounts_spec_witness :
  quantities_fit cart_b
  /\ CashierCart.subtotal (PY := cpython_3_11) cart_b = Ok (Float 100)
  /\ CashierCart.subtotal (PY := cpython_3_12) cart_b = Ok (Float 100)
  /\ CashierCart.discount_amount (PY := cpython_3_12) cart_b = Ok 10%float
  /\ CashierCart.tax_amount (PY := cpython_3_12) cart_b = Ok 4.5%float
  /\ CashierCart.total_due (PY := cpython_3_12) cart_b = Ok 94.5%float
  /\ quantities_fit cart_three
  /\ CashierCart.subtotal (PY := cpython_3_11) cart_three
     = Ok (Float 0x1.3875c28f5c28fp+8)
  /\ CashierCart.subtotal (PY := cpython_3_12) cart_three
     = Ok (Float 0x1.3875c28f5c290p+8)
  /\ CashierCart.discount_amount (PY := cpython_3_11) cart_three
     = Ok 0x1.3875c28f5c28fp+6%float
  /\ CashierCart.discount_amount (PY := cpython_3_12) cart_three
     = Ok 0x1.3875c28f5c290p+6%float
  /\ format_f false 2 0x1.3875c28f5c28fp+6 = "78.11"
  /\ format_f false 2 0x1.3875c28f5c290p+6 = "78.12".
Proof.
  assert (H : quantities_fit cart_b) by (now repeat constructor).
  assert (H3 : quantities_fit cart_three) by (now repeat constructor).
  destruct (amounts_spec (PY := cpython_3_11) cart_b H) as (Hs11 & _).
  destruct (amounts_spec (PY := cpython_3_12) cart_b H) as (Hs & _ & _ & _ & Hb).
  destruct (amounts_spec (PY := cpython_3_11) cart_three H3) as (Ht11 & Hd11 & _).
  destruct (amounts_spec (PY := cpython_3_12) cart_three H3) as (Ht12 & Hd12 & _).
  split; [exact H|]. split; [exact Hs11|]. split; [exact Hs|].
  destruct (Hb Hs eq_refl eq_refl) as (Hb1 & Hb2 & Hb3).
  split; [exact Hb1|]. split; [exact Hb2|]. split; [exact Hb3|].
  split; [exact H3|]. split; [exact Ht11|]. split; [exact Ht12|].
  split; [exact Hd11|]. split; [exact Hd12|].
  split; reflexivity.
Defined.

(** C9 as first stated, whatever the percentages: the session accepts
    [inf] as a discount, and the discount amount of the empty cart is then
    NaN, which equals nothing. *)
Lemma empty_cart_infinite_discount_counterexample :
  fst (menu_step CashierCart.new
         (mkWorld ["5"; "inf"] [] [] [] (mkDatetime 2024 3 5 9 7 1)))
  = Ok (Some cart_inf)
  /\ CashierCart.items cart_inf = []
  /\ CashierCart.subtotal cart_inf = Ok (Int 0)
  /\ CashierCart.discount_amount cart_inf = Ok nan
  /\ CashierCart.tax_amount cart_inf = Ok nan
  /\ CashierCart.total_due cart_inf = Ok nan
  /\ (nan =? 0)%float = false.
Proof. repeat split. Qed.

Lemma empty_cart_amounts_witness :
  CashierCart.subtotal (CashierCart.mk [] 10%float 5%float) = Ok (Int 0)
  /\ exists d x t,
       CashierCart.discount_amount (CashierCart.mk [] 10%float 5%float) = Ok d
       /\ CashierCart.tax_amount (CashierCart.mk [] 10%float 5%float) = Ok x
       /\ CashierCart.total_due (CashierCart.mk [] 10%float 5%float) = Ok t
       /\ (d =? 0)%float = true /\ (x =? 0)%float = true /\ (t =? 0)%float = true.
Proof.
  exact (empty_cart_amounts (CashierCart.mk [] 10%float 5%float)
           eq_refl eq_refl eq_refl).
Defined.

Lemma checkout_empty_cart_witness :
  menu_step CashierCart.new world_checkout
  = (Ok (Some CashierCart.new),
     mkWorld [] (menu_text ++ [empty_cart_warning]) [] []
       (mkDatetime 2024 3 5 9 7 1)).
Proof.
  exact (checkout_empty_cart (SM := ascii_str) (PA := decimal_parsers)
           CashierCart.new world_checkout " 7 " []
           eq_refl eq_refl eq_refl).
Defined.

(** C7 as first stated, in two places.

    For every cart with an item: with a quantity too large for a float the
    command fails while it prints the cart; no receipt is written.

    Prices and amounts with two decimals: the add command accepts the price
    [inf], and the receipt then shows [inf] and [nan]. *)
Lemma checkout_receipt_counterexample :
  CashierCart.items cart_huge <> []
  /\ fst (menu_step cart_huge world_checkout) = Raise OverflowError
  /\ files (snd (menu_step cart_huge world_checkout)) = []
  /\ dirs (snd (menu_step cart_huge world_checkout)) = []
  /\ fst (menu_step CashierCart.new (world_typing ["2"; "Gold"; "inf"; "1"]))
     = Ok (Some cart_inf_price)
  /\ fst (menu_step cart_inf_price world_checkout) = Ok (Some CashierCart.new)
  /\ files (snd (menu_step cart_inf_price world_checkout))
     = [("receipts/receipt_20240305_090701.csv",
         [ ["Item"; "Qty"; "Price"; "Total"];
           ["Gold"; "1"; "inf"; "inf"];
           [];
           ["Subtotal"; "inf"];
           ["Discount %"; "0.0"];
           ["Discount Amount"; "nan"];
           ["Tax %"; "0.0"];
           ["Tax Amount"; "nan"];
           ["Total Due"; "nan"] ])].
Proof.
  split; [discriminate|]. repeat split; vm_compute; reflexivity.
Qed.

(** Scenario D, and the receipt of the three items on CPython 3.12. *)
Lemma checkout_receipt_witness :
  (exists out,
     menu_step cart_coffee world_checkout
     = (Ok (Some CashierCart.new),
        mkWorld [] (menu_text ++ out) ["receipts"]
          [("receipts/receipt_20240305_090701.csv",
            [ ["Item"; "Qty"; "Price"; "Total"];
              ["Coffee"; "2"; "3.50"; "7.00"];
              [];
              ["Subtotal"; "7.00"];
              ["Discount %"; "0.0"];
              ["Discount Amount"; "0.00"];
              ["Tax %"; "0.0"];
              ["Tax Amount"; "0.00"];
              ["Total Due"; "7.00"] ])]
          (mkDatetime 2024 3 5 9 7 1)))
  /\ (exists out,
        menu_step (PY := cpython_3_12) cart_three world_checkout
        = (Ok (Some CashierCart.new),
           mkWorld [] (menu_text ++ out) ["receipts"]
             [("receipts/receipt_20240305_090701.csv",
               [ ["Item"; "Qty"; "Price"; "Total"];
                 ["Milk"; "4"; "47.42"; "189.68"];
                 ["Bread"; "1"; "26.58"; "26.58"];
                 ["Rice"; "2"; "48.10"; "96.20"];
                 [];
                 ["Subtotal"; "312.46"];
                 ["Discount %"; "25.0"];
                 ["Discount Amount"; "78.12"];
                 ["Tax %"; "0.0"];
                 ["Tax Amount"; "0.00"];
                 ["Total Due"; "234.35"] ])]
             (mkDatetime 2024 3 5 9 7 1)))
  /\ has_decimals 2 (format_f false 2 3.5)
  /\ has_decimals 1 (format_f false 1 25).
Proof.
  assert (Hfit : quantities_fit cart_coffee) by (now repeat constructor).
  assert (Hfit3 : quantities_fit cart_three) by (now repeat constructor).
  destruct (checkout_receipt (SM := ascii_str) (PA := decimal_parsers)
              cart_coffee world_checkout " 7 " []
              eq_refl eq_refl ltac:(discriminate) Hfit) as [[out Hout] Hdec].
  destruct (checkout_receipt (SM := ascii_str) (PA := decimal_parsers)
              (PY := cpython_3_12) cart_three world_checkout " 7 " []
              eq_refl eq_refl ltac:(discriminate) Hfit3) as [[out3 Hout3] _].
  split; [exists out; exact Hout|].
  split; [exists out3; exact Hout3|].
  split; [exact (Hdec 2%nat 3.5%float (or_intror eq_refl))
         | exact (Hdec 1%nat 25%float (or_introl eq_refl))].
Defined.

(** A quantity of 4301 digits, left by two add commands: [print_cart]
    fails on its digits, before the line total; [subtotal] and
    [save_receipt] fail on its size.  With one digit less, [print_cart]
    fails on the size as well. *)
Example quantity_with_too_many_digits :
  (stored_quantity cart_digits "gold" =? 10 ^ 4300) = true
  /\ fst (print_cart cart_digits (world_typing [])) = Raise ValueError
  /\ CashierCart.subtotal cart_digits = Raise OverflowError
  /\ fst (save_receipt cart_digits "receipts" (world_typing [])) = Raise OverflowError
  /\ fst (print_cart
            (CashierCart.add_item CashierCart.new "Gold" 1%float (10 ^ 4300 - 1))
            (world_typing []))
     = Raise OverflowError.
Proof. repeat apply conj; vm_compute; reflexivity. Qed.

End Examples.

(** * Further properties of the code *)

(** ** The cart model *)

Section CartLaws.
Context {SM : StrMethods}.
Implicit Types (cart : CashierCart.t) (name key : string).

Lemma with_items_same cart : CashierCart.with_items cart (CashierCart.items cart) = cart.
Proof. now destruct cart. Qed.

Lemma remove_item_absent cart name :
  PyDict.get (CashierCart.normalized_key name) (CashierCart.items cart) = None ->
  CashierCart.remove_item cart name = (false, cart).
Proof.
  intros H. unfold CashierCart.remove_item, PyDict.pop.
  fold (CashierCart.normalized_key name).
  now rewrite H, (remove_absent _ _ H), with_items_same.
Qed.

(** X1. An update to a quantity that is not positive is a removal: the
    same result and the same cart, whether the item is there or not. *)
Theorem update_quantity_nonpositive_is_remove cart name quantity :
  quantity <= 0 ->
  CashierCart.update_quantity cart name quantity = CashierCart.remove_item cart name.
Proof.
  intros Hq. unfold CashierCart.update_quantity.
  fold (CashierCart.normalized_key name).
  destruct (PyDict.get (CashierCart.normalized_key name) (CashierCart.items cart))
    as [it|] eqn:Hget.
  - apply Z.leb_le in Hq. rewrite Hq.
    unfold CashierCart.remove_item, PyDict.pop.
    fold (CashierCart.normalized_key name). now rewrite Hget.
  - now rewrite remove_item_absent.
Qed.

Lemma get_app_last {V : Type} (k : string) (v : V) (d : PyDict.t V) :
  PyDict.get k d = None -> PyDict.get k (d ++ [(k, v)])%list = Some v.
Proof.
  induction d as [|[k0 v0] d IH]; simpl.
  - now rewrite String.eqb_refl.
  - destruct (String.eqb k k0); [discriminate | exact IH].
Qed.

Lemma remove_app_last {V : Type} (k : string) (v : V) (d : PyDict.t V) :
  PyDict.get k d = None -> PyDict.remove k (d ++ [(k, v)])%list = d.
Proof.
  induction d as [|[k0 v0] d IH]; simpl.
  - now rewrite String.eqb_refl.
  - destruct (String.eqb k k0); [discriminate|]. intros H. now rewrite IH.
Qed.

(** X2. Adding an item under a key that is not in the cart and removing it
    again gives the cart back, and the removal reports an item removed. *)
Theorem add_item_then_remove_item cart name price quantity :
  PyDict.get (CashierCart.normalized_key name) (CashierCart.items cart) = None ->
  CashierCart.remove_item (CashierCart.add_item cart name price quantity) name
  = (true, cart).
Proof.
  intros H. rewrite (add_item_absent _ _ _ _ H).
  unfold CashierCart.remove_item, PyDict.pop.
  fold (CashierCart.normalized_key name). simpl CashierCart.items.
  rewrite (get_app_last _ _ _ H), (remove_app_last _ _ _ H).
  unfold CashierCart.with_items. simpl. now destruct cart.
Qed.

(** X3. Two calls of [add_item] on names with the same key are one call
    with the first name, the second price and the sum of the quantities. *)
Theorem add_item_twice cart name1 price1 quantity1 name2 price2 quantity2 :
  CashierCart.normalized_key name2 = CashierCart.normalized_key name1 ->
  CashierCart.add_item
    (CashierCart.add_item cart name1 price1 quantity1) name2 price2 quantity2
  = CashierCart.add_item cart name1 price2 (quantity1 + quantity2).
Proof.
  intros Hkey. unfold CashierCart.add_item at 1.
  fold (CashierCart.normalized_key name2). rewrite Hkey.
  pose proof (add_item_get cart name1 price1 quantity1) as Hget.
  simpl in Hget. rewrite Hget.
  unfold CashierCart.add_item, stored_quantity.
  fold (CashierCart.normalized_key name1).
  destruct (PyDict.get (CashierCart.normalized_key name1) (CashierCart.items cart))
    as [it|]; simpl; unfold CashierCart.with_items; simpl;
    rewrite set_set; unfold CartItem.with_price, CartItem.with_quantity; simpl;
    do 3 f_equal; lia.
Qed.

(** X4. Removing an item a second time reports that nothing was removed and
    leaves the cart as the first removal left it. *)
Theorem remove_item_twice cart name :
  PyDict.wf (CashierCart.items cart) ->
  CashierCart.remove_item (snd (CashierCart.remove_item cart name)) name
  = (false, snd (CashierCart.remove_item cart name)).
Proof.
  intros Hwf. apply remove_item_absent.
  unfold CashierCart.remove_item, PyDict.pop. simpl.
  fold (CashierCart.normalized_key name). now apply get_remove_same.
Qed.
End CartLaws.

Section KeyInvariant.
Context {SM : StrMethods}.

Lemma in_set {V : Type} (e : string * V) k v (d : PyDict.t V) :
  In e (PyDict.set k v d) -> e = (k, v) \/ In e d.
Proof.
  induction d as [|[k0 v0] d IH]; simpl.
  - intuition auto.
  - destruct (String.eqb k k0) eqn:E; simpl.
    + apply String.eqb_eq in E. subst k0. intuition auto.
    + intuition auto.
Qed.

Lemma in_remove {V : Type} (e : string * V) k (d : PyDict.t V) :
  In e (PyDict.remove k d) -> In e d.
Proof.
  induction d as [|[k0 v0] d IH]; simpl; [tauto|].
  destruct (String.eqb k k0); simpl; tauto.
Qed.

Lemma get_in {V : Type} k v (d : PyDict.t V) :
  PyDict.get k d = Some v -> In (k, v) d.
Proof.
  induction d as [|[k0 v0] d IH]; simpl; [discriminate|].
  destruct (String.eqb k k0) eqn:E.
  - apply String.eqb_eq in E. subst k0. intros [= ->]. now left.
  - auto.
Qed.

Lemma keys_normalized_add_item cart name price quantity :
  keys_normalized cart ->
  keys_normalized (CashierCart.add_item cart name price quantity).
Proof.
  unfold keys_normalized. rewrite !Forall_forall. intros H e Hin.
  unfold CashierCart.add_item in Hin.
  destruct (PyDict.get _ _) as [it|] eqn:Hget; simpl in Hin;
    apply in_set in Hin; destruct Hin as [-> | Hin]; auto.
  apply get_in in Hget. exact (H _ Hget).
Qed.

Lemma keys_normalized_remove_item cart name :
  keys_normalized cart -> keys_normalized (snd (CashierCart.remove_item cart name)).
Proof.
  unfold keys_normalized. rewrite !Forall_forall. intros H e Hin.
  apply in_remove in Hin. auto.
Qed.

Lemma keys_normalized_update_quantity cart name quantity :
  keys_normalized cart ->
  keys_normalized (snd (CashierCart.update_quantity cart name quantity)).
Proof.
  unfold keys_normalized. rewrite !Forall_forall. intros H e Hin.
  unfold CashierCart.update_quantity in Hin.
  destruct (PyDict.get _ _) as [it|] eqn:Hget; [|auto].
  destruct (quantity <=? 0); simpl in Hin.
  - apply in_remove in Hin. auto.
  - apply in_set in Hin. destruct Hin as [-> | Hin]; auto.
    apply get_in in Hget. exact (H _ Hget).
Qed.

(** X5. In every state a session reaches, the key of each item is its
    display name in lower case: the key is never kept apart from the name it
    was made of. *)
Theorem reachable_keys_normalized cart : reachable cart -> keys_normalized cart.
Proof.
  induction 1 as [ | cart name price quantity _ IH _
                   | cart name _ IH | cart name quantity _ IH
                   | cart _ IH | cart p _ IH | cart p _ IH ];
    try exact IH; try (now constructor).
  - now apply keys_normalized_add_item.
  - now apply keys_normalized_remove_item.
  - now apply keys_normalized_update_quantity.
Qed.
End KeyInvariant.

(** ** Line totals and the range of floats *)

Lemma total_cases (it : CartItem.t) :
  (fits_float (CartItem.quantity it) /\ CartItem.total it = Ok (line_total it))
  \/ (~ fits_float (CartItem.quantity it)
      /\ CartItem.total it = Raise OverflowError).
Proof.
  unfold fits_float, CartItem.total, line_total, float_of_int, nearest_float.
  destruct (binary_normalize prec emax (CartItem.quantity it) 0 false);
    simpl; first [left; split; reflexivity | right; split; [discriminate | reflexivity]].
Qed.

Lemma mapM_total_cases (l : list CartItem.t) :
  match mapM CartItem.total l with
  | Ok totals =>
      Forall (fun it => fits_float (CartItem.quantity it)) l
      /\ totals = map line_total l
  | Raise e =>
      e = OverflowError
      /\ ~ Forall (fun it => fits_float (CartItem.quantity it)) l
  end.
Proof.
  induction l as [|it l IH]; simpl; [now split|].
  destruct (total_cases it) as [[Hfit ->] | [Hno ->]]; simpl.
  - destruct (mapM CartItem.total l) as [totals|e]; simpl.
    + destruct IH as [Hall ->]. split; [now constructor | reflexivity].
    + destruct IH as [-> Hno]. split; [reflexivity|].
      intros Hall. inversion Hall. contradiction.
  - split; [reflexivity|]. intros Hall. inversion Hall. contradiction.
Qed.

Lemma subtotal_returns {PY : Interpreter} (cart : CashierCart.t) (s : number) :
  CashierCart.subtotal cart = Ok s -> quantities_fit cart /\ s = spec_subtotal cart.
Proof.
  unfold CashierCart.subtotal, quantities_fit, spec_subtotal.
  pose proof (mapM_total_cases (PyDict.values (CashierCart.items cart))) as H.
  destruct (mapM CartItem.total (PyDict.values (CashierCart.items cart)))
    as [totals|e]; simpl; [|discriminate].
  destruct H as [Hall ->]. intros [= <-]. split; [exact Hall|].
  apply py_sum_float_sum.
Qed.

(** X6. [subtotal] returns exactly when every stored quantity converts to
    a float, and then it returns the sum of the line totals as [sum] adds
    them on the interpreter at hand ([float_sum]); otherwise it raises
    [OverflowError], and nothing else. *)
Theorem subtotal_cases {PY : Interpreter} (cart : CashierCart.t) :
  match CashierCart.subtotal cart with
  | Ok s => quantities_fit cart /\ s = spec_subtotal cart
  | Raise e => e = OverflowError /\ ~ quantities_fit cart
  end.
Proof.
  destruct (CashierCart.subtotal cart) as [s|e] eqn:Hs.
  - now apply subtotal_returns.
  - unfold CashierCart.subtotal in Hs.
    pose proof (mapM_total_cases (PyDict.values (CashierCart.items cart))) as H.
    destruct (mapM CartItem.total (PyDict.values (CashierCart.items cart)))
      as [totals|e']; simpl in Hs; [discriminate|].
    injection Hs as <-. exact H.
Qed.

(** X7. The line total of an item whose quantity is below 2^1023 in
    magnitude is computed without overflow: it is the price times the float
    nearest to the quantity. *)
Theorem total_below_range (it : CartItem.t) :
  Z.abs (CartItem.quantity it) < 2 ^ 1023 ->
  CartItem.total it = Ok (line_total it).
Proof.
  intros H. apply fits_float_below in H.
  destruct (total_cases it) as [[_ Hok] | [Hno _]]; [exact Hok | contradiction].
Qed.

(** X8. The line total of an item whose quantity is 2^1024 or more in
    magnitude raises [OverflowError]: the quantity cannot be converted. *)
Theorem total_beyond_range (it : CartItem.t) :
  2 ^ 1024 <= Z.abs (CartItem.quantity it) ->
  CartItem.total it = Raise OverflowError.
Proof.
  intros H. unfold CartItem.total. now rewrite float_of_int_overflow.
Qed.

(** ** Amounts without discount and tax *)

Lemma sfeqb_refl_finite (x : spec_float) :
  sf_finite x = true -> SFeqb x x = true.
Proof.
  destruct x as [s|s| |s m e]; try discriminate; intros _; [reflexivity|].
  unfold SFeqb. simpl. rewrite Z.compare_refl, Pos.compare_cont_refl.
  now destruct s.
Qed.

(** With both percentages at 0, a finite subtotal [f] gives a zero
    discount, a zero tax and a total that equals [f]. *)
Lemma amounts_at_zero_rates (f : float) :
  is_finite f = true ->
  let d := (f * (0 / 100))%float in
  let x := ((f - d) * (0 / 100))%float in
  let t := (f - d + x)%float in
  (d =? 0)%float = true /\ (x =? 0)%float = true /\ (t =? f)%float = true.
Proof.
  rewrite is_finite_spec. intros Hf d x t.
  change (0 / 100)%float with 0%float in *.
  assert (Hd : exists sd, Prim2SF d = S754_zero sd).
  { subst d. rewrite mul_spec. change (Prim2SF 0) with (S754_zero false).
    destruct (Prim2SF f) as [s|s| |s m e]; try discriminate; simpl; eauto. }
  destruct Hd as [sd Hd].
  assert (Hb : Prim2SF (f - d)%float = Prim2SF f
               \/ exists s1 s2, Prim2SF (f - d)%float = S754_zero s1
                                /\ Prim2SF f = S754_zero s2).
  { rewrite sub_spec, Hd.
    destruct (Prim2SF f) as [s|s| |s m e]; try discriminate.
    - right. exists (if s then (if sd then false else true) else false), s.
      split; [|reflexivity]. now destruct s, sd.
    - now left. }
  assert (Hx : exists sx, Prim2SF x = S754_zero sx).
  { subst x. rewrite mul_spec. change (Prim2SF 0) with (S754_zero false).
    destruct Hb as [-> | (s1 & s2 & -> & _)].
    - destruct (Prim2SF f) as [s|s| |s m e]; try discriminate; simpl; eauto.
    - simpl. eauto. }
  destruct Hx as [sx Hx].
  split; [now rewrite eqb_spec, Hd|]. split; [now rewrite eqb_spec, Hx|].
  subst t. rewrite eqb_spec, add_spec, Hx.
  destruct Hb as [-> | (s1 & s2 & -> & ->)].
  - destruct (Prim2SF f) as [s|s| |s m e] eqn:Ef; try discriminate.
    + now destruct s, sx.
    + simpl. change (SFeqb (S754_finite s m e) (S754_finite s m e) = true).
      now apply sfeqb_refl_finite.
  - now destruct s1, sx.
Qed.

(** X9. Without discount and without tax, the total due of a cart with a
    finite subtotal equals the subtotal, and the discount and the tax
    amounts are zero. *)
Theorem total_due_without_discount_and_tax {PY : Interpreter} (cart : CashierCart.t) (s : number) :
  CashierCart.subtotal cart = Ok s ->
  is_finite (as_float s) = true ->
  CashierCart.discount_percent cart = 0%float ->
  CashierCart.tax_percent cart = 0%float ->
  exists d x t,
    CashierCart.discount_amount cart = Ok d
    /\ CashierCart.tax_amount cart = Ok x
    /\ CashierCart.total_due cart = Ok t
    /\ (d =? 0)%float = true /\ (x =? 0)%float = true
    /\ (t =? as_float s)%float = true.
Proof.
  intros Hs Hfin Hd Ht.
  destruct (subtotal_returns _ _ Hs) as [Hfit ->].
  rewrite (discount_amount_fits _ Hfit), (tax_amount_fits _ Hfit),
    (total_due_fits _ Hfit).
  unfold spec_total_due, spec_tax_amount, spec_discount_amount.
  rewrite Hd, Ht.
  destruct (amounts_at_zero_rates _ Hfin) as (H1 & H2 & H3).
  do 3 eexists. repeat split; eassumption.
Qed.

(** ** The prompts *)

Section PromptFacts.
Context {SM : StrMethods} {PA : Parsers}.

Lemma prompt_float_on_first (message : string) skipped line rest value :
  Forall (fun l => accepted_float l = None) skipped ->
  accepted_float line = Some value ->
  exists out,
    prompt_float_on message (skipped ++ line :: rest) = (Ok value, rest, out)
    /\ List.length out = (2 * List.length skipped + 1)%nat.
Proof.
  intros Hskip Hline. induction Hskip as [|l skipped Hl _ [out [IH Hlen]]].
  - exists [message]. split; [|reflexivity]. simpl.
    unfold accepted_float in Hline.
    destruct (py_float (str_strip line)) as [v|]; [|discriminate].
    destruct (v <? 0)%float; [discriminate|]. now injection Hline as ->.
  - exists (message :: match py_float (str_strip l) with
                        | Some _ => "⚠️  الرقم يجب أن يكون موجب / Must be non-negative." ++ nl
                        | None => "⚠️  أدخل رقم صالح / Enter a valid number." ++ nl
                        end :: out).
    split; [|simpl; lia].
    simpl. unfold accepted_float in Hl.
    destruct (py_float (str_strip l)) as [v|].
    + destruct (v <? 0)%float; [|discriminate]. now rewrite IH.
    + now rewrite IH.
Qed.

Lemma prompt_float_on_none (message : string) lines :
  Forall (fun l => accepted_float l = None) lines ->
  exists out,
    prompt_float_on message lines = (Raise EOFError, [], out)
    /\ List.length out = (2 * List.length lines + 1)%nat.
Proof.
  induction 1 as [|l lines Hl _ [out [IH Hlen]]].
  - exists [message]. now split.
  - exists (message :: match py_float (str_strip l) with
                        | Some _ => "⚠️  الرقم يجب أن يكون موجب / Must be non-negative." ++ nl
                        | None => "⚠️  أدخل رقم صالح / Enter a valid number." ++ nl
                        end :: out).
    split; [|simpl; lia].
    simpl. unfold accepted_float in Hl.
    destruct (py_float (str_strip l)) as [v|].
    + destruct (v <? 0)%float; [|discriminate]. now rewrite IH.
    + now rewrite IH.
Qed.

Lemma prompt_float_on_not_negative (message : string) lines :
  forall value rest out,
    prompt_float_on message lines = (Ok value, rest, out) ->
    (value <? 0)%float = false.
Proof.
  induction lines as [|l lines IH]; intros value rest out; simpl; [discriminate|].
  destruct (py_float (str_strip l)) as [v|].
  - destruct (v <? 0)%float eqn:Hv.
    + destruct (prompt_float_on message lines) as [[r rest'] out'] eqn:E.
      intros [= -> -> <-]. eapply IH. reflexivity.
    + now intros [= <- _ _].
  - destruct (prompt_float_on message lines) as [[r rest'] out'] eqn:E.
    intros [= -> -> <-]. eapply IH. reflexivity.
Qed.

Lemma prompt_float_returns (message : string) :
  returns_only (prompt_float message) (fun value => (value <? 0)%float = false).
Proof.
  intros w value w'. unfold prompt_float.
  destruct (prompt_float_on message (stdin w)) as [[r rest] out] eqn:E.
  intros [= -> _]. eapply prompt_float_on_not_negative. exact E.
Qed.

(** X10. [prompt_float] returns the number of the first line that is a
    number and is not below zero.  It writes the message before every line
    it reads, and after each line it does not take the warning for that
    line: that it is not a number, or that the number is below zero.  The
    lines after the one it takes are left unread. *)
Theorem prompt_float_first_accepted (message : string) (w : world)
        skipped line rest value :
  stdin w = (skipped ++ line :: rest)%list ->
  Forall (fun l => accepted_float l = None) skipped ->
  accepted_float line = Some value ->
  prompt_float message w
  = (Ok value,
     with_console w rest (stdout w ++ prompt_output message float_warning skipped)).
Proof.
  intros Hin Hskip Hline. unfold prompt_float. rewrite Hin.
  assert (H : prompt_float_on message (skipped ++ line :: rest)
              = (Ok value, rest, prompt_output message float_warning skipped)).
  { clear Hin. unfold prompt_output.
    induction Hskip as [|l skipped Hl _ IH]; simpl.
    - unfold accepted_float in Hline.
      destruct (py_float (str_strip line)) as [v|]; [|discriminate].
      destruct (v <? 0)%float; [discriminate|]. now injection Hline as ->.
    - unfold accepted_float in Hl. unfold float_warning.
      destruct (py_float (str_strip l)) as [v|].
      + destruct (v <? 0)%float; [|discriminate]. now rewrite IH.
      + now rewrite IH. }
  now rewrite H.
Qed.

(** X11. When no line left is a number that is not below zero,
    [prompt_float] reads them all and raises [EOFError]. *)
Theorem prompt_float_end_of_input (message : string) (w : world) :
  Forall (fun l => accepted_float l = None) (stdin w) ->
  exists out,
    prompt_float message w = (Raise EOFError, with_console w [] (stdout w ++ out))
    /\ List.length out = (2 * List.length (stdin w) + 1)%nat.
Proof.
  intros Hnone. unfold prompt_float.
  destruct (prompt_float_on_none message (stdin w) Hnone) as [out [-> Hlen]].
  now exists out.
Qed.

(** X12. [prompt_float] never returns a number below zero. *)
Theorem prompt_float_not_negative (message : string) (w w' : world) value :
  prompt_float message w = (Ok value, w') -> (value <? 0)%float = false.
Proof. apply prompt_float_returns. Qed.

(** X13. [prompt_int] returns the first line that is an integer, whatever
    its sign.  It writes the message before every line it reads, and the
    warning to enter an integer after each line it does not take.  The
    lines after the one it takes are left unread. *)
Theorem prompt_int_first_integer (message : string) (w : world)
        skipped line rest value :
  stdin w = (skipped ++ line :: rest)%list ->
  Forall (fun l => py_int (str_strip l) = None) skipped ->
  py_int (str_strip line) = Some value ->
  prompt_int message w
  = (Ok value,
     with_console w rest
       (stdout w ++ prompt_output message (fun _ => int_warning) skipped)).
Proof.
  intros Hin Hskip Hline. unfold prompt_int. rewrite Hin.
  assert (H : prompt_int_on message (skipped ++ line :: rest)
              = (Ok value, rest, prompt_output message (fun _ => int_warning) skipped)).
  { clear Hin. unfold prompt_output.
    induction Hskip as [|l skipped Hl _ IH]; simpl.
    - now rewrite Hline.
    - now rewrite Hl, IH. }
  now rewrite H.
Qed.
End PromptFacts.

(** ** What a turn of the menu keeps *)

Lemma returns_only_ret {A : Type} (a : A) (Q : A -> Prop) :
  Q a -> returns_only (ret a) Q.
Proof. intros H w a' w' [= <- _]. exact H. Qed.

Lemma returns_only_any {A : Type} (m : IO A) : returns_only m (fun _ => True).
Proof. intros w a w' _. exact I. Qed.

Lemma returns_only_bind {A B : Type} (m : IO A) (k : A -> IO B)
      (P : A -> Prop) (Q : B -> Prop) :
  returns_only m P -> (forall a, P a -> returns_only (k a) Q) ->
  returns_only (io_bind m k) Q.
Proof.
  intros Hm Hk w b w'. unfold io_bind.
  destruct (m w) as [[a|e] w1] eqn:E; [|discriminate].
  intros Hb. exact (Hk a (Hm _ _ _ E) _ _ _ Hb).
Qed.

Lemma stored_ok_set (cart : CashierCart.t) key (it : CartItem.t) :
  stored_ok cart -> item_stored_ok it ->
  stored_ok (CashierCart.with_items cart (PyDict.set key it (CashierCart.items cart))).
Proof.
  unfold stored_ok. rewrite !Forall_forall. intros H Hit x Hin. simpl in Hin.
  apply in_values_set in Hin. destruct Hin as [-> | Hin]; auto.
Qed.

Lemma stored_ok_remove (cart : CashierCart.t) key :
  stored_ok cart ->
  stored_ok (CashierCart.with_items cart (PyDict.remove key (CashierCart.items cart))).
Proof.
  unfold stored_ok. rewrite !Forall_forall. intros H x Hin. simpl in Hin.
  apply in_values_remove in Hin. auto.
Qed.

Section TurnInvariant.
Context {SM : StrMethods} {PA : Parsers} {PY : Interpreter}.

Lemma stored_ok_add_item cart name price quantity :
  stored_ok cart -> 0 < quantity -> (price <? 0)%float = false ->
  stored_ok (CashierCart.add_item cart name price quantity).
Proof.
  intros H Hq Hp. unfold CashierCart.add_item.
  destruct (PyDict.get _ _) as [it|] eqn:Hget; apply stored_ok_set; auto.
  - unfold stored_ok in H. rewrite Forall_forall in H.
    destruct (H _ (get_in_values _ _ _ Hget)) as [Hq0 _].
    split; simpl; [lia | assumption].
  - split; simpl; assumption.
Qed.

Lemma stored_ok_update_quantity cart name quantity :
  stored_ok cart -> stored_ok (snd (CashierCart.update_quantity cart name quantity)).
Proof.
  intros H. unfold CashierCart.update_quantity.
  destruct (PyDict.get _ _) as [it|] eqn:Hget; [|exact H].
  destruct (Z.leb_spec quantity 0); simpl.
  - now apply stored_ok_remove.
  - apply stored_ok_set; [assumption|].
    unfold stored_ok in H. rewrite Forall_forall in H.
    destruct (H _ (get_in_values _ _ _ Hget)) as [_ Hp0]. now split.
Qed.

Lemma stored_ok_remove_item cart name :
  stored_ok cart -> stored_ok (snd (CashierCart.remove_item cart name)).
Proof. intros H. now apply stored_ok_remove. Qed.

Ltac turn_bind :=
  first
    [ eapply returns_only_bind; [apply prompt_float_returns | intros ? ?]
    | eapply returns_only_bind; [apply returns_only_any | intros ? _] ].

Lemma menu_step_returns_stored_ok (cart : CashierCart.t) :
  stored_ok cart ->
  returns_only (menu_step cart)
    (fun next => match next with Some cart' => stored_ok cart' | None => True end).
Proof.
  intros H. unfold menu_step.
  do 2 turn_bind.
  repeat match goal with
         | |- returns_only (if ?b then _ else _) _ => destruct b eqn:?
         | |- returns_only (match ?d with [] => _ | _ :: _ => _ end) _ => destruct d
         | |- returns_only (let '(_, _) := ?p in _) _ =>
             let E := fresh "E" in destruct p eqn:E
         | |- returns_only (io_bind _ _) _ => turn_bind
         | |- returns_only (ret _) _ => apply returns_only_ret
         end;
    try exact H; try exact I; try (now constructor).
  - match goal with
    | Hq : (_ <=? 0) = false |- _ => apply Z.leb_gt in Hq
    end.
    apply stored_ok_add_item; [exact H | lia | assumption].
  - match goal with
    | E : CashierCart.update_quantity _ _ _ = (?b, ?c) |- stored_ok ?c =>
        change c with (snd (b, c)); rewrite <- E
    end.
    now apply stored_ok_update_quantity.
  - match goal with
    | E : CashierCart.remove_item _ _ = (?b, ?c) |- stored_ok ?c =>
        change c with (snd (b, c)); rewrite <- E
    end.
    now apply stored_ok_remove_item.
Qed.

(** X14. Whatever is typed, a turn of the menu that goes on keeps every
    stored quantity positive and every stored price not below zero. *)
Theorem menu_step_keeps_stored_ok (cart : CashierCart.t) (w w' : world) next :
  stored_ok cart ->
  menu_step cart w = (Ok (Some next), w') ->
  stored_ok next.
Proof.
  intros H Hstep. exact (menu_step_returns_stored_ok cart H _ _ _ Hstep).
Qed.
End TurnInvariant.

(** ** What touches the console only, and what the files *)

Lemma console_only_ret {A : Type} (a : A) : console_only (ret a).
Proof. intros w. exists []. simpl. rewrite app_nil_r. now destruct w. Qed.

Lemma console_only_lift {A : Type} (r : result A) : console_only (lift r).
Proof. intros w. exists []. simpl. rewrite app_nil_r. now destruct w. Qed.

Lemma console_only_print (s : string) : console_only (print s).
Proof. intros w. now exists [s ++ nl]. Qed.

Lemma console_only_bind {A B : Type} (m : IO A) (k : A -> IO B) :
  console_only m -> (forall a, console_only (k a)) -> console_only (io_bind m k).
Proof.
  intros Hm Hk w. unfold io_bind. destruct (Hm w) as [o1 H1].
  destruct (m w) as [[a|e] w1]; simpl in H1; subst w1.
  - destruct (Hk a (with_stdout w (stdout w ++ o1))) as [o2 H2].
    exists (o1 ++ o2)%list. rewrite H2. simpl. unfold with_stdout. simpl.
    now rewrite app_assoc.
  - now exists o1.
Qed.

Lemma console_only_for_each {A : Type} (l : list A) (body : A -> IO unit) :
  (forall a, console_only (body a)) -> console_only (for_each l body).
Proof.
  intros Hbody. induction l as [|a l IH]; simpl.
  - apply console_only_ret.
  - apply console_only_bind; auto.
Qed.

Lemma console_only_if {A : Type} (b : bool) (m1 m2 : IO A) :
  console_only m1 -> console_only m2 -> console_only (if b then m1 else m2).
Proof. now destruct b. Qed.

Ltac console_step :=
  first
    [ apply console_only_ret | apply console_only_lift | apply console_only_print
    | apply console_only_for_each; intros ?
    | apply console_only_bind; [|intros ?]
    | apply console_only_if ].

Lemma print_cart_console {PY : Interpreter} (cart : CashierCart.t) : console_only (print_cart cart).
Proof.
  unfold print_cart. destruct (CashierCart.items cart); repeat console_step.
Qed.

(** X15. [print_cart] only writes to the console, also when it fails on a
    quantity too large: it reads no input and touches no file, no directory
    and no clock. *)
Theorem print_cart_only_prints {PY : Interpreter} (cart : CashierCart.t) (w : world) :
  exists out, snd (print_cart cart w) = with_stdout w (stdout w ++ out).
Proof. apply print_cart_console. Qed.

Lemma keeps_files_console {A : Type} (m : IO A) : console_only m -> keeps_files m.
Proof. intros H w. destruct (H w) as [out ->]. now split. Qed.

Lemma keeps_files_bind {A B : Type} (m : IO A) (k : A -> IO B) :
  keeps_files m -> (forall a, keeps_files (k a)) -> keeps_files (io_bind m k).
Proof.
  intros Hm Hk w. unfold io_bind. destruct (Hm w) as [H1 H2].
  destruct (m w) as [[a|e] w1]; simpl in *; [|now split].
  destruct (Hk a w1) as [H3 H4]. split; congruence.
Qed.

Lemma keeps_files_input (prompt : string) : keeps_files (input prompt).
Proof. intros w. unfold input. now destruct (stdin w). Qed.

Section FilesKept.
Context {SM : StrMethods} {PA : Parsers} {PY : Interpreter}.

Lemma keeps_files_prompt_float (message : string) : keeps_files (prompt_float message).
Proof.
  intros w. unfold prompt_float.
  now destruct (prompt_float_on message (stdin w)) as [[r rest] out].
Qed.

Lemma keeps_files_prompt_int (message : string) : keeps_files (prompt_int message).
Proof.
  intros w. unfold prompt_int.
  now destruct (prompt_int_on message (stdin w)) as [[r rest] out].
Qed.

Ltac files_step :=
  first
    [ apply keeps_files_prompt_float | apply keeps_files_prompt_int
    | apply keeps_files_input
    | apply keeps_files_console;
      first [ apply print_cart_console | apply console_only_print
            | apply console_only_ret | apply console_only_if; apply console_only_print ]
    | apply keeps_files_bind; [|intros ?] ].

(** X16. A turn of the menu whose choice is not 7 writes no file and makes
    no directory, whatever else is typed and also when it fails: only the
    checkout command writes. *)
Theorem menu_step_writes_no_file (cart : CashierCart.t) (w : world) :
  match stdin w with
  | line :: _ => str_strip line <> "7"
  | [] => True
  end ->
  files (snd (menu_step cart w)) = files w
  /\ dirs (snd (menu_step cart w)) = dirs w.
Proof.
  intros Hchoice.
  remember (menu_step cart w) as res eqn:Hres.
  unfold menu_step in Hres.
  unfold io_bind at 1 in Hres. rewrite print_menu_writes in Hres.
  unfold io_bind at 1 in Hres. unfold input at 1 in Hres. simpl stdin in Hres.
  destruct (stdin w) as [|line rest] eqn:Hin; [subst res; now split|].
  apply String.eqb_neq in Hchoice.
  match type of Hres with
  | _ = ?m ?w2 => assert (Hrest : keeps_files m)
  end.
  { rewrite Hchoice.
    repeat first
      [ files_step
      | match goal with
        | |- keeps_files (if ?b then _ else _) => destruct b
        | |- keeps_files (let '(_, _) := ?p in _) => destruct p
        end ]. }
  match type of Hres with
  | _ = ?m ?w2 => destruct (Hrest w2) as [H1 H2]
  end.
  rewrite <- Hres in H1, H2. rewrite H1, H2. now split.
Qed.
End FilesKept.

(** ** The commands of the menu *)

Lemma print_header_writes : writes print_header tt header_text.
Proof.
  unfold print_header.
  repeat (eapply (writes_bind _ _ tt tt [_]); [apply writes_print|]).
  apply writes_print.
Qed.

Section Commands.
Context {SM : StrMethods} {PA : Parsers} {PY : Interpreter}.

(** X17. A choice that is none of 0 to 8 is answered with the message for
    an invalid choice; the turn reads that line only, keeps the cart and
    the files, and the loop goes on. *)
Theorem menu_step_invalid_choice (cart : CashierCart.t) (w : world) line rest :
  stdin w = line :: rest ->
  ~ In (str_strip line) ["0"; "1"; "2"; "3"; "4"; "5"; "6"; "7"; "8"] ->
  menu_step cart w
  = (Ok (Some cart),
     mkWorld rest
       (stdout w ++ menu_text ++ ["⚠️  اختيار غير صالح / Invalid choice." ++ nl])
       (dirs w) (files w) (clock w)).
Proof.
  intros Hin Hchoice. unfold menu_step.
  unfold io_bind at 1. rewrite print_menu_writes.
  unfold io_bind at 1. unfold input at 1. simpl stdin. rewrite Hin.
  assert (Hne : forall c,
             In c ["0"; "1"; "2"; "3"; "4"; "5"; "6"; "7"; "8"] ->
             (str_strip line =? c)%string = false).
  { intros c Hc. apply String.eqb_neq. intros E. apply Hchoice. now rewrite E. }
  rewrite !Hne by (simpl; tauto).
  unfold io_bind, print, ret, with_stdout, with_console; simpl.
  rewrite <- !app_assoc. reflexivity.
Qed.

(** X18. When the first choice is 0 the session prints the header, the
    menu and the farewell and ends without an error; it reads that line
    only and writes no file. *)
Theorem run_cashier_exit (w : world) line rest :
  stdin w = line :: rest ->
  str_strip line = "0" ->
  run_cashier w
  = Some (Ok tt,
          mkWorld rest
            (stdout w ++ header_text ++ menu_text ++ ["مع السلامة / Goodbye!" ++ nl])
            (dirs w) (files w) (clock w)).
Proof.
  intros Hin Hchoice. unfold run_cashier. rewrite print_header_writes.
  simpl stdin. rewrite Hin. simpl run_loop. unfold menu_step.
  unfold io_bind at 1. rewrite print_menu_writes.
  unfold io_bind at 1. unfold input at 1. simpl stdin. rewrite Hin.
  rewrite Hchoice. simpl.
  unfold io_bind, print, ret, with_stdout, with_console; simpl.
  rewrite <- !app_assoc. reflexivity.
Qed.

(** X19. The add command with a name that is empty once trimmed is given
    up at once: the price and the quantity are not asked for and the cart
    is kept. *)
Theorem add_command_empty_name (cart : CashierCart.t) (w : world) l1 l2 rest :
  stdin w = l1 :: l2 :: rest ->
  str_strip l1 = "2" ->
  str_strip l2 = "" ->
  menu_step cart w
  = (Ok (Some cart),
     mkWorld rest
       (stdout w ++ menu_text
        ++ ["اسم الصنف / Item name: ";
            "⚠️  اسم الصنف مطلوب / Item name is required." ++ nl])
       (dirs w) (files w) (clock w)).
Proof.
  intros Hin H1 H2. unfold menu_step.
  unfold io_bind at 1. rewrite print_menu_writes.
  unfold io_bind at 1. unfold input at 1. simpl stdin. rewrite Hin.
  rewrite H1. simpl.
  unfold io_bind at 1. unfold input at 1. simpl.
  rewrite H2. simpl.
  unfold io_bind, print, ret, with_stdout, with_console; simpl.
  rewrite <- !app_assoc. reflexivity.
Qed.

(** X20. The add command with a name, a price that is accepted and an
    integer quantity: a quantity that is not positive gives the command up
    and keeps the cart; a positive one adds the item under the trimmed
    name.  Either way the four lines are read and no file is touched. *)
Theorem add_command_outcome (cart : CashierCart.t) (w : world)
        l1 l2 l3 l4 rest price quantity :
  stdin w = l1 :: l2 :: l3 :: l4 :: rest ->
  str_strip l1 = "2" ->
  str_strip l2 <> "" ->
  accepted_float l3 = Some price ->
  py_int (str_strip l4) = Some quantity ->
  exists out,
    menu_step cart w
    = (Ok (Some (if quantity <=? 0 then cart
                 else CashierCart.add_item cart (str_strip l2) price quantity)),
       mkWorld rest (stdout w ++ menu_text ++ out) (dirs w) (files w) (clock w)).
Proof.
  intros Hin H1 H2 H3 H4. unfold menu_step.
  unfold io_bind at 1. rewrite print_menu_writes.
  unfold io_bind at 1. unfold input at 1. simpl stdin. rewrite Hin.
  rewrite H1. simpl.
  unfold io_bind at 1. unfold input at 1. simpl.
  apply String.eqb_neq in H2. rewrite H2.
  unfold io_bind at 1. unfold prompt_float at 1. simpl stdin.
  destruct (prompt_float_on_first "سعر الصنف / Item price: " [] l3 (l4 :: rest)
              price (Forall_nil _) H3) as [out1 [E1 _]].
  simpl app in E1. rewrite E1.
  unfold io_bind at 1. unfold prompt_int at 1. simpl stdin.
  simpl prompt_int_on. rewrite H4.
  destruct (quantity <=? 0); eexists;
    unfold io_bind, print, ret, with_stdout, with_console; simpl;
    rewrite <- !app_assoc; reflexivity.
Qed.

(** X21. The update command takes any integer, also one that is not
    positive, without asking again: the cart goes on as [update_quantity]
    leaves it, and the three lines are read. *)
Theorem update_command_outcome (cart : CashierCart.t) (w : world)
        l1 l2 l3 rest quantity :
  stdin w = l1 :: l2 :: l3 :: rest ->
  str_strip l1 = "3" ->
  py_int (str_strip l3) = Some quantity ->
  exists out,
    menu_step cart w
    = (Ok (Some (snd (CashierCart.update_quantity cart (str_strip l2) quantity))),
       mkWorld rest (stdout w ++ menu_text ++ out) (dirs w) (files w) (clock w)).
Proof.
  intros Hin H1 H3. unfold menu_step.
  unfold io_bind at 1. rewrite print_menu_writes.
  unfold io_bind at 1. unfold input at 1. simpl stdin. rewrite Hin.
  rewrite H1. simpl.
  unfold io_bind at 1. unfold input at 1. simpl.
  unfold io_bind at 1. unfold prompt_int at 1. simpl stdin.
  simpl prompt_int_on. rewrite H3.
  destruct (CashierCart.update_quantity cart (str_strip l2) quantity)
    as [found cart'].
  destruct found; eexists;
    unfold io_bind, print, ret, with_stdout, with_console; simpl;
    rewrite <- !app_assoc; reflexivity.
Qed.

(** X22. The discount command stores the first number typed that is not
    below zero as the discount percentage, and keeps the items and the tax
    percentage. *)
Theorem discount_command_outcome (cart : CashierCart.t) (w : world)
        l1 skipped line rest value :
  stdin w = l1 :: (skipped ++ line :: rest)%list ->
  str_strip l1 = "5" ->
  Forall (fun l => accepted_float l = None) skipped ->
  accepted_float line = Some value ->
  exists out,
    menu_step cart w
    = (Ok (Some (CashierCart.mk (CashierCart.items cart) value
                   (CashierCart.tax_percent cart))),
       mkWorld rest (stdout w ++ menu_text ++ out) (dirs w) (files w) (clock w)).
Proof.
  intros Hin H1 Hskip Hline. unfold menu_step.
  unfold io_bind at 1. rewrite print_menu_writes.
  unfold io_bind at 1. unfold input at 1. simpl stdin. rewrite Hin.
  rewrite H1. simpl.
  unfold io_bind at 1. unfold prompt_float at 1. simpl stdin.
  destruct (prompt_float_on_first "نسبة الخصم % / Discount %: " skipped line rest
              value Hskip Hline) as [out1 [E1 _]].
  rewrite E1. eexists.
  unfold io_bind, print, ret, with_stdout, with_console; simpl.
  rewrite <- !app_assoc. reflexivity.
Qed.
End Commands.

(** ** A receipt that cannot be finished *)

Lemma raises_lift {A : Type} (path : string) (e : exn) :
  appends_then_raises path (lift (@Raise A e)) e [].
Proof.
  intros w rows0 Hget. unfold lift. rewrite app_nil_r.
  rewrite (set_get_same _ _ _ Hget). now destruct w.
Qed.

Lemma raises_bind_first {A B : Type} path (m : IO A) (k : A -> IO B) e rows :
  appends_then_raises path m e rows ->
  appends_then_raises path (io_bind m k) e rows.
Proof. intros H w rows0 Hget. unfold io_bind. now rewrite (H _ _ Hget). Qed.

Lemma raises_bind_after {A B : Type} path (m : IO A) (k : A -> IO B) a e r1 r2 :
  appends path m a r1 -> appends_then_raises path (k a) e r2 ->
  appends_then_raises path (io_bind m k) e (r1 ++ r2).
Proof.
  intros H1 H2 w rows0 Hget. unfold io_bind. rewrite (H1 _ _ Hget).
  rewrite (H2 _ (rows0 ++ r1)%list) by (simpl; apply get_set_same).
  simpl. unfold with_files. simpl. now rewrite set_set, app_assoc.
Qed.

Lemma item_row_overflow {PY : Interpreter} (item : CartItem.t) :
  ~ fits_float (CartItem.quantity item) -> item_row item = Raise OverflowError.
Proof.
  intros H. unfold item_row.
  destruct (total_cases item) as [[Hfit _] | [_ ->]]; [contradiction | reflexivity].
Qed.

Lemma for_each_item_rows_overflow {PY : Interpreter} (path : string) fitting bad rest :
  Forall (fun it => fits_float (CartItem.quantity it)) fitting ->
  ~ fits_float (CartItem.quantity bad) ->
  appends_then_raises path
    (for_each (fitting ++ bad :: rest)
       (fun item => r <- lift (item_row item) ;; writerow path r))
    OverflowError (map receipt_item_row fitting).
Proof.
  intros Hfit Hbad. induction Hfit as [|it fitting Hit _ IH]; simpl.
  - apply raises_bind_first, raises_bind_first.
    rewrite (item_row_overflow _ Hbad). apply raises_lift.
  - apply (raises_bind_after _ _ _ tt _ [receipt_item_row it]); [|exact IH].
    apply (appends_bind _ _ _ (receipt_item_row it) tt [] [_]).
    + apply appends_lift_eq. now apply item_row_fits.
    + apply appends_writerow.
Qed.

(** X23. When a quantity is too large for a float, [save_receipt] raises
    [OverflowError] at that item and leaves behind a file that holds the
    header row and the rows of the items before it. *)
Theorem save_receipt_overflow {PY : Interpreter} (cart : CashierCart.t) (w : world) fitting bad rest :
  PyDict.values (CashierCart.items cart) = (fitting ++ bad :: rest)%list ->
  Forall (fun it => fits_float (CartItem.quantity it)) fitting ->
  ~ fits_float (CartItem.quantity bad) ->
  save_receipt cart "receipts" w
  = (Raise OverflowError,
     mkWorld (stdin w) (stdout w)
       (if existsb (String.eqb "receipts") (dirs w) then dirs w
        else dirs w ++ ["receipts"])
       (PyDict.set (receipt_path_at w)
          (["Item"; "Qty"; "Price"; "Total"] :: map receipt_item_row fitting)
          (files w))
       (clock w)).
Proof.
  intros Hvalues Hfit Hbad. unfold save_receipt.
  unfold io_bind at 1. unfold mkdir at 1.
  set (w1 := if existsb (String.eqb "receipts") (dirs w) then w
             else with_dirs w (dirs w ++ ["receipts"])).
  assert (Hw1 : stdin w1 = stdin w /\ stdout w1 = stdout w
                /\ files w1 = files w /\ clock w1 = clock w
                /\ dirs w1 = if existsb (String.eqb "receipts") (dirs w)
                             then dirs w else (dirs w ++ ["receipts"])%list).
  { subst w1. now destruct (existsb (String.eqb "receipts") (dirs w)). }
  destruct Hw1 as (Hin & Hout & Hfiles & Hclock & Hdirs).
  unfold io_bind at 1. unfold timestamp_now at 1. rewrite Hclock.
  unfold io_bind at 1. unfold open_w at 1.
  set (path := receipt_path_at w).
  rewrite Hvalues.
  match goal with
  | |- ?m ?w2 = _ =>
      assert (Happ : appends_then_raises path m OverflowError
                       ([["Item"; "Qty"; "Price"; "Total"]]
                        ++ map receipt_item_row fitting))
  end.
  { eapply raises_bind_after; [apply appends_writerow|].
    apply raises_bind_first. now apply for_each_item_rows_overflow. }
  rewrite (Happ _ []) by (simpl; apply get_set_same).
  unfold with_files. simpl. now rewrite set_set, Hin, Hout, Hfiles, Hclock, Hdirs.
Qed.

(** ** Turns and lines *)

Section Turns.
Context {SM : StrMethods} {PA : Parsers} {PY : Interpreter}.

(** X24. A turn of the menu that does not fail has read at least one line
    of the input. *)
Theorem menu_step_reads_a_line (cart : CashierCart.t) (w w' : world) next :
  menu_step cart w = (Ok next, w') ->
  (List.length (stdin w') < List.length (stdin w))%nat.
Proof. apply menu_step_reads_line. Qed.

(** X25. On a finite input the loop of [run_cashier] stops: with one turn
    more than there are lines it has ended, by the choice 0 or by an
    exception. *)
Theorem run_cashier_stops (w : world) :
  exists r w', run_cashier w = Some (r, w').
Proof.
  pose proof (run_cashier_ends w) as H.
  destruct (run_cashier w) as [[r w']|]; [eauto | contradiction].
Qed.
End Turns.

(** ** Formats *)

Lemma remove_commas_app (a b : string) :
  remove_commas (a ++ b) = remove_commas a ++ remove_commas b.
Proof.
  induction a as [|c a IH]; simpl; [reflexivity|].
  destruct (Ascii.eqb c ","%char); simpl; now rewrite IH.
Qed.

Lemma remove_commas_of_list (l : list ascii) :
  remove_commas (string_of_list_ascii l)
  = string_of_list_ascii (filter (fun c => negb (Ascii.eqb c ","%char)) l).
Proof.
  induction l as [|c l IH]; simpl; [reflexivity|].
  destruct (Ascii.eqb c ","%char); simpl; now rewrite IH.
Qed.

Lemma filter_group3_rev (keep : ascii -> bool) :
  keep ","%char = false ->
  forall n l, (List.length l <= n)%nat ->
              filter keep (group3_rev l) = filter keep l.
Proof.
  intros Hcomma. induction n as [|n IH]; intros l Hlen.
  - destruct l; [reflexivity | simpl in Hlen; lia].
  - destruct l as [|a [|b [|c [|d rest]]]]; try reflexivity.
    assert (E : filter keep (group3_rev (d :: rest)) = filter keep (d :: rest))
      by (apply IH; simpl in *; lia).
    change (group3_rev (a :: b :: c :: d :: rest))
      with ([a; b; c] ++ [","%char] ++ group3_rev (d :: rest))%list.
    change (a :: b :: c :: d :: rest) with ([a; b; c] ++ d :: rest)%list.
    rewrite !filter_app, E.
    change (filter keep [","%char])
      with (if keep ","%char then [","%char] else []).
    now rewrite Hcomma.
Qed.

Lemma remove_commas_group3 (s : string) :
  remove_commas (group3 s) = remove_commas s.
Proof.
  unfold group3. rewrite remove_commas_of_list.
  rewrite <- (string_of_list_ascii_of_string s) at 2.
  rewrite remove_commas_of_list. f_equal.
  rewrite filter_rev, (filter_group3_rev _ eq_refl _ _ (le_n _)), <- filter_rev.
  now rewrite rev_involutive.
Qed.

Lemma remove_commas_uint (d : Decimal.uint) :
  remove_commas (NilEmpty.string_of_uint d) = NilEmpty.string_of_uint d.
Proof. induction d; simpl; now rewrite ?IHd. Qed.

Lemma remove_commas_str_of_int (z : Z) : remove_commas (str_of_int z) = str_of_int z.
Proof.
  unfold str_of_int, NilZero.string_of_int, NilZero.string_of_uint.
  destruct (Z.to_int z) as [d|d]; destruct d; simpl; now rewrite ?remove_commas_uint.
Qed.

Lemma remove_commas_zeros (n : nat) :
  remove_commas (repeat_string n "0") = repeat_string n "0".
Proof. induction n as [|n IH]; simpl; now rewrite ?IH. Qed.

Lemma remove_commas_fixed_digits (decimals : nat) (n : Z) :
  remove_commas (fixed_digits true decimals n) = fixed_digits false decimals n.
Proof.
  unfold fixed_digits. destruct decimals as [|k].
  - now rewrite remove_commas_group3, remove_commas_str_of_int.
  - rewrite !remove_commas_app, remove_commas_group3, !remove_commas_str_of_int,
      remove_commas_zeros.
    reflexivity.
Qed.

(** X26. The text [format_currency] shows on the screen is the amount as
    the receipt writes it, with commas added: without its commas it is the
    [.2f] format of the same number. *)
Theorem format_currency_without_commas (x : float) :
  exists s,
    format_currency (Float x) = Ok s
    /\ remove_commas s = format_f false 2 x.
Proof.
  exists (format_f true 2 x). split; [reflexivity|].
  unfold format_f.
  destruct (Prim2SF x) as [s|s| |s m e]; try reflexivity;
    try (destruct s; reflexivity);
    rewrite remove_commas_app, remove_commas_fixed_digits;
    now destruct s.
Qed.

(** X27. A finite amount is always written with exactly two digits after
    the point, on the screen and in the receipt alike. *)
Theorem format_two_decimals (grouping : bool) (x : float) :
  is_finite x = true ->
  exists whole d1 d2,
    format_f grouping 2 x = whole ++ "." ++ String d1 (String d2 "")
    /\ is_digit d1 = true /\ is_digit d2 = true.
Proof.
  rewrite is_finite_spec. intros Hfin.
  assert (H : forall sign n,
             exists whole d1 d2,
               sign_prefix sign ++ fixed_digits grouping 2 n
               = whole ++ "." ++ String d1 (String d2 "")
               /\ is_digit d1 = true /\ is_digit d2 = true).
  { intros sign n. unfold fixed_digits.
    change (10 ^ Z.of_nat 2) with 100.
    pose proof (two_decimals_digits (n mod 100) (Z.mod_pos_bound n 100 eq_refl))
      as Hd.
    unfold two_decimals in Hd.
    destruct (repeat_string (2 - String.length (str_of_int (n mod 100))) "0"
              ++ str_of_int (n mod 100)) as [|d1 [|d2 [|c t]]];
      try discriminate.
    simpl in Hd. apply andb_prop in Hd. destruct Hd as [H1 H2].
    exists (sign_prefix sign
            ++ (if grouping then group3 (str_of_int (n / 100))
                else str_of_int (n / 100))), d1, d2.
    split; [|now split].
    now rewrite string_app_assoc. }
  unfold format_f.
  destruct (Prim2SF x) as [s|s| |s m e]; try discriminate; apply H.
Qed.

(** ** The name of the receipt *)

Lemma pads_back_2 :
  forallb (fun k => pads_back 2 (Z.of_nat k)) (seq 0 (Z.to_nat 100)) = true.
Proof. vm_compute. reflexivity. Qed.

Lemma pads_back_4 :
  forallb (fun k => pads_back 4 (Z.of_nat k)) (seq 0 (Z.to_nat 10000)) = true.
Proof. vm_compute. reflexivity. Qed.

Lemma pads_back_below (width : nat) (bound k : Z) :
  forallb (fun k => pads_back width (Z.of_nat k)) (seq 0 (Z.to_nat bound)) = true ->
  0 <= k < bound ->
  String.length (zero_pad width k) = width
  /\ digits_value 0 (list_ascii_of_string (zero_pad width k)) = Some k.
Proof.
  intros Htable Hk. rewrite forallb_forall in Htable.
  assert (H : pads_back width k = true).
  { rewrite <- (Z2Nat.id k) by lia. apply Htable. apply in_seq.
    split; [lia|]. simpl. apply Z2Nat.inj_lt; lia. }
  unfold pads_back in H. apply andb_prop in H. destruct H as [Hlen Hback].
  apply Nat.eqb_eq in Hlen. split; [exact Hlen|].
  destruct (digits_value 0 (list_ascii_of_string (zero_pad width k))) as [v|];
    [|discriminate].
  apply Z.eqb_eq in Hback. now subst.
Qed.

Lemma zero_pad_inj (width : nat) (bound a b : Z) :
  forallb (fun k => pads_back width (Z.of_nat k)) (seq 0 (Z.to_nat bound)) = true ->
  0 <= a < bound -> 0 <= b < bound ->
  zero_pad width a = zero_pad width b -> a = b.
Proof.
  intros Htable Ha Hb E.
  destruct (pads_back_below _ _ _ Htable Ha) as [_ Hda].
  destruct (pads_back_below _ _ _ Htable Hb) as [_ Hdb].
  rewrite E in Hda. congruence.
Qed.

Lemma append_inj_length (a a' b b' : string) :
  String.length a = String.length a' -> a ++ b = a' ++ b' -> a = a' /\ b = b'.
Proof.
  revert a'. induction a as [|c a IH]; intros [|c' a'] Hlen E;
    try discriminate; simpl in *.
  - now split.
  - injection E as -> E. injection Hlen as Hlen.
    destruct (IH _ Hlen E) as [-> ->]. now split.
Qed.

(** X28. Receipts written at different seconds get different file names:
    the name determines the time of the clock. *)
Theorem receipt_path_determines_time (w1 w2 : world) :
  valid_datetime (clock w1) -> valid_datetime (clock w2) ->
  receipt_path_at w1 = receipt_path_at w2 ->
  clock w1 = clock w2.
Proof.
  intros (Hy1 & Hmo1 & Hd1 & Hh1 & Hmi1 & Hs1) (Hy2 & Hmo2 & Hd2 & Hh2 & Hmi2 & Hs2).
  unfold receipt_path_at, timestamp_now.
  destruct (clock w1) as [y1 mo1 d1 h1 mi1 s1], (clock w2) as [y2 mo2 d2 h2 mi2 s2].
  cbn [year month day hour minute second] in *. intros E.
  assert (L2 : forall k, 0 <= k < 100 -> String.length (zero_pad 2 k) = 2%nat).
  { intros k Hk. now apply (pads_back_below 2 100 k pads_back_2). }
  assert (L4 : forall k, 0 <= k < 10000 -> String.length (zero_pad 4 k) = 4%nat).
  { intros k Hk. now apply (pads_back_below 4 10000 k pads_back_4). }
  rewrite !string_app_assoc in E.
  apply append_inj_length in E; [|reflexivity]. destruct E as [_ E].
  apply append_inj_length in E; [|reflexivity]. destruct E as [_ E].
  apply append_inj_length in E; [|reflexivity]. destruct E as [_ E].
  apply append_inj_length in E; [|rewrite !L4 by lia; reflexivity].
  destruct E as [Ey E].
  apply append_inj_length in E; [|rewrite !L2 by lia; reflexivity].
  destruct E as [Emo E].
  apply append_inj_length in E; [|rewrite !L2 by lia; reflexivity].
  destruct E as [Ed E].
  apply append_inj_length in E; [|reflexivity]. destruct E as [_ E].
  apply append_inj_length in E; [|rewrite !L2 by lia; reflexivity].
  destruct E as [Eh E].
  apply append_inj_length in E; [|rewrite !L2 by lia; reflexivity].
  destruct E as [Emi E].
  apply append_inj_length in E; [|rewrite !L2 by lia; reflexivity].
  destruct E as [Es _].
  apply (zero_pad_inj 4 10000) in Ey; [|exact pads_back_4 | lia | lia].
  apply (zero_pad_inj 2 100) in Emo; [|exact pads_back_2 | lia | lia].
  apply (zero_pad_inj 2 100) in Ed; [|exact pads_back_2 | lia | lia].
  apply (zero_pad_inj 2 100) in Eh; [|exact pads_back_2 | lia | lia].
  apply (zero_pad_inj 2 100) in Emi; [|exact pads_back_2 | lia | lia].
  apply (zero_pad_inj 2 100) in Es; [|exact pads_back_2 | lia | lia].
  now subst.
Qed.

(** ** What [print_cart] shows *)

Lemma for_each_cart_lines_count {PY : Interpreter} (l : list CartItem.t) :
  Forall (fun it => fits_float (CartItem.quantity it)) l ->
  exists out,
    writes (for_each l (fun item => line <- lift (cart_line item) ;; print line))
      tt out
    /\ List.length out = List.length l.
Proof.
  induction 1 as [|it l Hit _ [out [IH Hlen]]]; simpl.
  - exists []. split; [apply writes_ret | reflexivity].
  - destruct (cart_line_fits _ Hit) as [line Hline].
    exists (([] ++ [(line ++ nl)%string]) ++ out)%list. split.
    + eapply writes_bind; [|exact IH].
      eapply writes_bind; [apply writes_lift_eq; exact Hline | apply writes_print].
    + simpl. now rewrite Hlen.
Qed.

(** X29. For a cart with items whose quantities fit, [print_cart] prints
    one line for each item and five lines around them, and the discount
    line and the tax line only when the percentage is not zero. *)
Theorem print_cart_lines {PY : Interpreter} (cart : CashierCart.t) (w : world) :
  CashierCart.items cart <> [] ->
  quantities_fit cart ->
  exists out,
    print_cart cart w = (Ok tt, with_stdout w (stdout w ++ out))
    /\ List.length out
       = (5 + List.length (CashierCart.items cart)
          + (if truthy (CashierCart.discount_percent cart) then 1 else 0)
          + (if truthy (CashierCart.tax_percent cart) then 1 else 0))%nat.
Proof.
  intros Hitems H. unfold print_cart.
  destruct (for_each_cart_lines_count _ H) as [lines [Hlines Hcount]].
  unfold PyDict.values in Hcount. rewrite length_map in Hcount.
  destruct (subtotal_line_fits _ H) as [ls Hs].
  destruct (discount_line_fits _ H) as [ld Hd].
  destruct (tax_line_fits _ H) as [lx Hx].
  destruct (total_due_line_fits _ H) as [lt Ht].
  destruct (CashierCart.items cart) as [|entry entries] eqn:Hcart;
    [contradiction|].
  rewrite <- Hcart in *.
  assert (Hall : exists out,
             writes
               (print (nl ++ "السلة الحالية / Current cart:") ;;
                print (repeat_string 50 "-") ;;
                for_each (PyDict.values (CashierCart.items cart))
                  (fun item => line <- lift (cart_line item) ;; print line) ;;
                print (repeat_string 50 "-") ;;
                line <- lift (subtotal_line cart) ;;
                print line ;;
                (if truthy (CashierCart.discount_percent cart) then
                   line <- lift (discount_line cart) ;; print line
                 else ret tt) ;;
                (if truthy (CashierCart.tax_percent cart) then
                   line <- lift (tax_line cart) ;; print line
                 else ret tt) ;;
                line <- lift (total_due_line cart) ;;
                print line) tt out
             /\ List.length out
                = (5 + List.length (CashierCart.items cart)
                   + (if truthy (CashierCart.discount_percent cart) then 1 else 0)
                   + (if truthy (CashierCart.tax_percent cart) then 1 else 0))%nat).
  { destruct (truthy (CashierCart.discount_percent cart));
      destruct (truthy (CashierCart.tax_percent cart));
      eexists; (split; [repeat writes_step |]);
      rewrite ?length_app; simpl; rewrite ?length_app; simpl; lia. }
  destruct Hall as [out [Hw Hlen]].
  exists out. split; [apply Hw | exact Hlen].
Qed.

(** ** Two checkouts in a row *)

Section CheckoutTwice.
Context {SM : StrMethods} {PA : Parsers} {PY : Interpreter}.

Lemma menu_step_checkout (cart : CashierCart.t) (w : world) line rest :
  stdin w = line :: rest ->
  str_strip line = "7" ->
  CashierCart.items cart <> [] ->
  quantities_fit cart ->
  exists out,
    menu_step cart w
    = (Ok (Some CashierCart.new),
       mkWorld rest (stdout w ++ menu_text ++ out)
         (if existsb (String.eqb "receipts") (dirs w) then dirs w
          else dirs w ++ ["receipts"])
         (PyDict.set (receipt_path_at w) (receipt_rows cart) (files w))
         (clock w)).
Proof.
  intros Hin Hchoice Hitems Hfit.
  destruct (print_cart_writes _ Hfit) as [out Hprint].
  exists (out ++ [(("✅ تم حفظ الفاتورة / Receipt saved: " ++ receipt_path_at w) ++ nl)%string])%list.
  unfold menu_step.
  unfold io_bind at 1. rewrite print_menu_writes.
  unfold io_bind at 1. unfold input at 1. simpl stdin. rewrite Hin.
  rewrite Hchoice. simpl.
  destruct (CashierCart.items cart) as [|entry entries] eqn:Hcart;
    [contradiction|].
  unfold io_bind at 1. rewrite Hprint.
  unfold io_bind at 1. rewrite (save_receipt_fits _ _ Hfit).
  unfold io_bind, print, ret, with_stdout, with_console; simpl.
  rewrite <- !app_assoc. reflexivity.
Qed.

Lemma menu_step_checkout_empty (w : world) line rest :
  stdin w = line :: rest ->
  str_strip line = "7" ->
  menu_step CashierCart.new w
  = (Ok (Some CashierCart.new),
     mkWorld rest (stdout w ++ menu_text ++ [empty_cart_warning])
       (dirs w) (files w) (clock w)).
Proof.
  intros Hin Hchoice. unfold menu_step.
  unfold io_bind at 1. rewrite print_menu_writes.
  unfold io_bind at 1. unfold input at 1. simpl stdin. rewrite Hin.
  rewrite Hchoice. simpl.
  unfold io_bind, print, ret, with_stdout, with_console; simpl.
  rewrite <- !app_assoc. reflexivity.
Qed.

(** X30. Two checkout commands in a row: the first writes the receipt and
    clears the cart, the second is refused with the warning and leaves the
    receipt and every other file as the first left them. *)
Theorem checkout_twice (cart : CashierCart.t) (w : world) l1 l2 rest :
  stdin w = l1 :: l2 :: rest ->
  str_strip l1 = "7" ->
  str_strip l2 = "7" ->
  CashierCart.items cart <> [] ->
  quantities_fit cart ->
  exists w1 w2,
    menu_step cart w = (Ok (Some CashierCart.new), w1)
    /\ menu_step CashierCart.new w1 = (Ok (Some CashierCart.new), w2)
    /\ files w2 = PyDict.set (receipt_path_at w) (receipt_rows cart) (files w)
    /\ dirs w2 = dirs w1
    /\ stdin w2 = rest
    /\ last (stdout w2) "" = empty_cart_warning.
Proof.
  intros Hin H1 H2 Hitems Hfit.
  destruct (menu_step_checkout cart w l1 (l2 :: rest) Hin H1 Hitems Hfit)
    as [out Hfirst].
  match type of Hfirst with
  | _ = (_, ?w1) =>
      exists w1; eexists; split; [exact Hfirst|];
      split; [apply (menu_step_checkout_empty w1 l2 rest eq_refl H2)|]
  end.
  cbn [files dirs stdin stdout]. repeat split.
  rewrite (app_assoc _ menu_text [empty_cart_warning]). apply last_last.
Qed.
End CheckoutTwice.

(** ** The further properties at work *)

Section FurtherExamples.
#[local] Existing Instance cpython_3_12.

Lemma update_quantity_nonpositive_is_remove_witness :
  -3 <= 0
  /\ CashierCart.update_quantity cart_coffee " COFFEE" (-3)
     = CashierCart.remove_item cart_coffee " COFFEE".
Proof.
  split; [lia|]. apply update_quantity_nonpositive_is_remove. lia.
Defined.

Lemma add_item_then_remove_item_witness :
  CashierCart.remove_item (CashierCart.add_item cart_coffee "Tea" 2%float 1) "Tea"
  = (true, cart_coffee).
Proof.
  exact (add_item_then_remove_item (SM := ascii_str) cart_coffee "Tea" 2%float 1
           eq_refl).
Defined.

Lemma add_item_twice_witness :
  CashierCart.add_item
    (CashierCart.add_item CashierCart.new "Coffee" 3.5%float 2) " coffee " 4%float 1
  = CashierCart.add_item CashierCart.new "Coffee" 4%float (2 + 1).
Proof.
  exact (add_item_twice (SM := ascii_str) CashierCart.new "Coffee" 3.5%float 2
           " coffee " 4%float 1 eq_refl).
Defined.

Lemma remove_item_twice_witness :
  PyDict.wf (CashierCart.items cart_coffee)
  /\ CashierCart.remove_item (snd (CashierCart.remove_item cart_coffee "coffee"))
       "coffee"
     = (false, snd (CashierCart.remove_item cart_coffee "coffee")).
Proof.
  split; [exact wf_cart_coffee|].
  exact (remove_item_twice cart_coffee "coffee" wf_cart_coffee).
Defined.

Lemma reachable_keys_normalized_witness :
  reachable cart_coffee_5 /\ keys_normalized cart_coffee_5.
Proof.
  assert (H : reachable cart_coffee_5).
  { apply reach_update_quantity, reach_add_item; [constructor|].
    now repeat split. }
  split; [exact H | exact (reachable_keys_normalized _ H)].
Defined.

Lemma total_below_range_witness :
  Z.abs 2 < 2 ^ 1023
  /\ CartItem.total (CartItem.mk "Coffee" 3.5%float 2) = Ok 7%float.
Proof.
  split; [reflexivity|].
  exact (total_below_range (CartItem.mk "Coffee" 3.5%float 2) eq_refl).
Defined.

Lemma total_beyond_range_witness :
  2 ^ 1024 <= Z.abs (10 ^ 400)
  /\ CartItem.total (CartItem.mk "Gold" 1%float (10 ^ 400)) = Raise OverflowError.
Proof.
  assert (H : 2 ^ 1024 <= Z.abs (10 ^ 400)) by (apply Z.leb_le; reflexivity).
  split; [exact H|].
  exact (total_beyond_range (CartItem.mk "Gold" 1%float (10 ^ 400)) H).
Defined.

Lemma total_due_without_discount_and_tax_witness :
  exists d x t,
    CashierCart.discount_amount cart_coffee = Ok d
    /\ CashierCart.tax_amount cart_coffee = Ok x
    /\ CashierCart.total_due cart_coffee = Ok t
    /\ (d =? 0)%float = true /\ (x =? 0)%float = true
    /\ (t =? 7)%float = true.
Proof.
  exact (total_due_without_discount_and_tax cart_coffee (Float 7)
           eq_refl eq_refl eq_refl eq_refl).
Defined.

Lemma prompt_float_first_accepted_witness :
  prompt_float "Price: " (world_typing ["abc"; "-1"; " 2.5 "; "x"])
  = (Ok 2.5%float,
     mkWorld ["x"]
       [ "Price: "; "⚠️  أدخل رقم صالح / Enter a valid number." ++ nl;
         "Price: "; "⚠️  الرقم يجب أن يكون موجب / Must be non-negative." ++ nl;
         "Price: " ]
       [] [] (mkDatetime 2024 3 5 9 7 1)).
Proof.
  apply (prompt_float_first_accepted (SM := ascii_str) (PA := decimal_parsers)
           "Price: " (world_typing ["abc"; "-1"; " 2.5 "; "x"])
           ["abc"; "-1"] " 2.5 " ["x"] 2.5%float);
    [reflexivity | now repeat constructor | reflexivity].
Defined.

Lemma prompt_float_end_of_input_witness :
  exists out,
    prompt_float "Price: " (world_typing ["abc"; "-3"])
    = (Raise EOFError, with_console (world_typing ["abc"; "-3"]) [] ([] ++ out))
    /\ List.length out = 5%nat.
Proof.
  apply (prompt_float_end_of_input (SM := ascii_str) (PA := decimal_parsers)
           "Price: " (world_typing ["abc"; "-3"])).
  now repeat constructor.
Defined.

Lemma prompt_float_not_negative_witness :
  fst (prompt_float "Price: " (world_typing ["-1"; "2.5"])) = Ok 2.5%float
  /\ (2.5 <? 0)%float = false.
Proof.
  split; [reflexivity|].
  exact (prompt_float_not_negative (SM := ascii_str) (PA := decimal_parsers)
           "Price: " (world_typing ["-1"; "2.5"])
           (snd (prompt_float "Price: " (world_typing ["-1"; "2.5"])))
           2.5%float eq_refl).
Defined.

Lemma prompt_int_first_integer_witness :
  prompt_int "Quantity: " (world_typing ["two"; " -4 "; "x"])
  = (Ok (-4),
     mkWorld ["x"]
       [ "Quantity: "; "⚠️  أدخل رقم صحيح / Enter an integer." ++ nl; "Quantity: " ]
       [] [] (mkDatetime 2024 3 5 9 7 1)).
Proof.
  apply (prompt_int_first_integer (SM := ascii_str) (PA := decimal_parsers)
           "Quantity: " (world_typing ["two"; " -4 "; "x"]) ["two"] " -4 " ["x"] (-4));
    [reflexivity | now repeat constructor | reflexivity].
Defined.

Lemma menu_step_keeps_stored_ok_witness :
  stored_ok cart_coffee
  /\ stored_ok (CashierCart.add_item cart_coffee "Tea" 2.5%float 3).
Proof.
  assert (H : stored_ok cart_coffee) by (now repeat constructor).
  split; [exact H|].
  apply (menu_step_keeps_stored_ok (SM := ascii_str) (PA := decimal_parsers)
           cart_coffee (world_typing ["2"; " Tea "; "2.5"; "3"])
           (snd (menu_step cart_coffee (world_typing ["2"; " Tea "; "2.5"; "3"]))));
    [exact H | vm_compute; reflexivity].
Defined.

Lemma menu_step_writes_no_file_witness :
  files (snd (menu_step cart_coffee (world_typing ["1"]))) = []
  /\ dirs (snd (menu_step cart_coffee (world_typing ["1"]))) = [].
Proof.
  apply (menu_step_writes_no_file (SM := ascii_str) (PA := decimal_parsers)
           cart_coffee (world_typing ["1"])).
  simpl. discriminate.
Defined.

Lemma menu_step_invalid_choice_witness :
  menu_step cart_coffee (world_typing ["9"])
  = (Ok (Some cart_coffee),
     mkWorld [] (menu_text ++ ["⚠️  اختيار غير صالح / Invalid choice." ++ nl])
       [] [] (mkDatetime 2024 3 5 9 7 1)).
Proof.
  apply (menu_step_invalid_choice (SM := ascii_str) (PA := decimal_parsers)
           cart_coffee (world_typing ["9"]) "9" []); [reflexivity|].
  simpl. intuition discriminate.
Defined.

Lemma run_cashier_exit_witness :
  run_cashier (world_typing [" 0 "; "unread"])
  = Some (Ok tt,
          mkWorld ["unread"]
            (header_text ++ menu_text ++ ["مع السلامة / Goodbye!" ++ nl])
            [] [] (mkDatetime 2024 3 5 9 7 1)).
Proof.
  exact (run_cashier_exit (SM := ascii_str) (PA := decimal_parsers)
           (world_typing [" 0 "; "unread"]) " 0 " ["unread"] eq_refl eq_refl).
Defined.

Lemma add_command_empty_name_witness :
  menu_step cart_coffee (world_typing ["2"; "   "; "unread"])
  = (Ok (Some cart_coffee),
     mkWorld ["unread"]
       (menu_text
        ++ ["اسم الصنف / Item name: ";
            "⚠️  اسم الصنف مطلوب / Item name is required." ++ nl])
       [] [] (mkDatetime 2024 3 5 9 7 1)).
Proof.
  exact (add_command_empty_name (SM := ascii_str) (PA := decimal_parsers)
           cart_coffee (world_typing ["2"; "   "; "unread"]) "2" "   " ["unread"]
           eq_refl eq_refl eq_refl).
Defined.

Lemma add_command_outcome_witness :
  (exists out,
     menu_step cart_coffee (world_typing ["2"; " Tea "; "2.5"; "3"])
     = (Ok (Some (CashierCart.add_item cart_coffee "Tea" 2.5%float 3)),
        mkWorld [] (menu_text ++ out) [] [] (mkDatetime 2024 3 5 9 7 1)))
  /\ (exists out,
        menu_step cart_coffee (world_typing ["2"; " Tea "; "2.5"; "0"])
        = (Ok (Some cart_coffee),
           mkWorld [] (menu_text ++ out) [] [] (mkDatetime 2024 3 5 9 7 1))).
Proof.
  split.
  - apply (add_command_outcome (SM := ascii_str) (PA := decimal_parsers)
             cart_coffee (world_typing ["2"; " Tea "; "2.5"; "3"])
             "2" " Tea " "2.5" "3" [] 2.5%float 3);
      [reflexivity | reflexivity | discriminate | reflexivity | reflexivity].
  - apply (add_command_outcome (SM := ascii_str) (PA := decimal_parsers)
             cart_coffee (world_typing ["2"; " Tea "; "2.5"; "0"])
             "2" " Tea " "2.5" "0" [] 2.5%float 0);
      [reflexivity | reflexivity | discriminate | reflexivity | reflexivity].
Defined.

Lemma update_command_outcome_witness :
  exists out,
    menu_step cart_coffee (world_typing ["3"; " Coffee"; "0"])
    = (Ok (Some CashierCart.new),
       mkWorld [] (menu_text ++ out) [] [] (mkDatetime 2024 3 5 9 7 1)).
Proof.
  apply (update_command_outcome (SM := ascii_str) (PA := decimal_parsers)
           cart_coffee (world_typing ["3"; " Coffee"; "0"])
           "3" " Coffee" "0" [] 0);
    reflexivity.
Defined.

Lemma discount_command_outcome_witness :
  exists out,
    menu_step cart_coffee (world_typing ["5"; "ten"; "-5"; "10"])
    = (Ok (Some (CashierCart.mk (CashierCart.items cart_coffee) 10%float 0%float)),
       mkWorld [] (menu_text ++ out) [] [] (mkDatetime 2024 3 5 9 7 1)).
Proof.
  apply (discount_command_outcome (SM := ascii_str) (PA := decimal_parsers)
           cart_coffee (world_typing ["5"; "ten"; "-5"; "10"])
           "5" ["ten"; "-5"] "10" [] 10%float);
    [reflexivity | reflexivity | now repeat constructor | reflexivity].
Defined.

Lemma save_receipt_overflow_witness :
  save_receipt cart_tea_gold "receipts" (world_typing [])
  = (Raise OverflowError,
     mkWorld [] [] ["receipts"]
       [("receipts/receipt_20240305_090701.csv",
         [ ["Item"; "Qty"; "Price"; "Total"]; ["Tea"; "1"; "2.00"; "2.00"] ])]
       (mkDatetime 2024 3 5 9 7 1)).
Proof.
  apply (save_receipt_overflow cart_tea_gold (world_typing [])
           [CartItem.mk "Tea" 2%float 1] (CartItem.mk "Gold" 1%float (10 ^ 400)) []).
  - reflexivity.
  - now repeat constructor.
  - unfold fits_float. vm_compute. discriminate.
Defined.

Lemma menu_step_reads_a_line_witness :
  (List.length (stdin (snd (menu_step cart_coffee (world_typing ["8"; "x"]))))
   < List.length (stdin (world_typing ["8"; "x"])))%nat.
Proof.
  apply (menu_step_reads_a_line (SM := ascii_str) (PA := decimal_parsers)
           cart_coffee (world_typing ["8"; "x"])
           (snd (menu_step cart_coffee (world_typing ["8"; "x"])))
           (Some CashierCart.new)).
  vm_compute. reflexivity.
Defined.

Lemma format_two_decimals_witness :
  format_f true 2 1234.5%float = "1,234.50"
  /\ exists whole d1 d2,
       format_f true 2 1234.5%float = whole ++ "." ++ String d1 (String d2 "")
       /\ is_digit d1 = true /\ is_digit d2 = true.
Proof.
  split; [reflexivity|].
  exact (format_two_decimals true 1234.5%float eq_refl).
Defined.

Lemma receipt_path_determines_time_witness :
  valid_datetime (clock world_checkout)
  /\ clock world_checkout = clock (world_typing ["x"]).
Proof.
  assert (H : valid_datetime (mkDatetime 2024 3 5 9 7 1)).
  { unfold valid_datetime. simpl. lia. }
  split; [exact H|].
  exact (receipt_path_determines_time world_checkout (world_typing ["x"]) H H eq_refl).
Defined.

Lemma print_cart_lines_witness :
  exists out,
    print_cart cart_b (world_typing [])
    = (Ok tt, with_stdout (world_typing []) ([] ++ out))
    /\ List.length out = 8%nat.
Proof.
  apply (print_cart_lines cart_b (world_typing []));
    [discriminate | now repeat constructor].
Defined.

Lemma checkout_twice_witness :
  exists w1 w2,
    menu_step cart_coffee (world_typing ["7"; " 7"; "unread"])
    = (Ok (Some CashierCart.new), w1)
    /\ menu_step CashierCart.new w1 = (Ok (Some CashierCart.new), w2)
    /\ files w2
       = PyDict.set (receipt_path_at (world_typing ["7"; " 7"; "unread"]))
           (receipt_rows cart_coffee) []
    /\ dirs w2 = dirs w1
    /\ stdin w2 = ["unread"]
    /\ last (stdout w2) "" = empty_cart_warning.
Proof.
  apply (checkout_twice (SM := ascii_str) (PA := decimal_parsers)
           cart_coffee (world_typing ["7"; " 7"; "unread"]) "7" " 7" ["unread"]);
    [reflexivity | reflexivity | reflexivity | discriminate | now repeat constructor].
Defined.
End FurtherExamples.
